(** * video_utils: buffered multi-source video capture

    A shallow embedding of [video_utils/video_getter_cv2.py],
    [video_utils/video_getter_vlc.py] and [video_utils/video_manager.py].

    Conventions of the embedding.
    - Python exceptions are values of [py.exn]; a fallible call returns
      [py.result A = exn + A].
    - [collections.deque] is a list whose head is the LEFT end, together with
      its [maxlen].
    - Wall-clock readings ([time.time()]) and sleep lengths are rationals.
    - Every method is one atomic step on the worker's attributes.  The
      acquisition thread is the iteration function [get_iter], driven by the
      list of what the capture device and the clock deliver; thread and timer
      side effects are collected in a trace of [Effect]s.
    - Logging calls are dropped: they change no attribute. *)

From Stdlib Require Import String Ascii List ZArith QArith Qround Bool Lia Lqa.
Import ListNotations.

Set Implicit Arguments.
Open Scope string_scope.
Open Scope list_scope.

(** Python floats are idealised as rationals: [Seconds] for clock readings
    and sleep lengths, [Float] for the other float values. *)
Definition Seconds : Set := Q.
Definition Float : Set := Q.

(* ================================================================== *)
(** ** The part of the Python runtime the program relies on *)

Module py.

Inductive exn : Set :=
| IndexError | ValueError | TypeError | AssertionError
| ZeroDivisionError | AttributeError
| Cv2Error.   (* [cv2.error] and whatever else an OpenCV call raises *)

Definition result (A : Type) : Type := (exn + A)%type.

Definition raise {A : Type} (e : exn) : result A := inl e.
Definition ret {A : Type} (a : A) : result A := inr a.

Definition bind {A B : Type} (m : result A) (k : A -> result B) : result B :=
  match m with
  | inl e => inl e
  | inr a => k a
  end.

Definition raised {A : Type} (m : result A) : bool :=
  match m with inl _ => true | inr _ => false end.

(** *** collections.deque *)
Section Deque.
Variable A : Type.

Record deque : Type := mk_deque { items : list A; maxlen : option nat }.

(** [deque(maxlen=n)]: a negative [maxlen] is a [ValueError]. *)
Definition deque_new (n : option Z) : result deque :=
  match n with
  | None => ret (mk_deque [] None)
  | Some z =>
      if (z <? 0)%Z then raise ValueError
      else ret (mk_deque [] (Some (Z.to_nat z)))
  end.

Definition len (d : deque) : nat := length (items d).

(** [bool(d)] *)
Definition truth (d : deque) : bool :=
  match items d with [] => false | _ :: _ => true end.

(** [d.appendleft(x)]: the item is added on the left; a bounded deque that
    has grown past [maxlen] then drops one item from the right. *)
Definition appendleft (x : A) (d : deque) : deque :=
  let l := x :: items d in
  match maxlen d with
  | None => mk_deque l None
  | Some n =>
      if (n <? length l)%nat then mk_deque (removelast l) (Some n)
      else mk_deque l (Some n)
  end.

(** [d.pop()]: removes and returns the rightmost item. *)
Definition pop (d : deque) : result (A * deque) :=
  match items d with
  | [] => raise IndexError
  | y :: l => ret (last l y, mk_deque (removelast (y :: l)) (maxlen d))
  end.

(** [d.clear()] *)
Definition clear (d : deque) : deque := mk_deque [] (maxlen d).
End Deque.

(** *** int(x) for a float x: truncation towards zero *)
Definition int_of_float (q : Float) : Z := Z.quot (Qnum q) (Zpos (Qden q)).

(** *** str methods *)
Definition is_space (c : ascii) : bool :=
  let n := nat_of_ascii c in
  ((n =? 32) || ((9 <=? n) && (n <=? 13)) || ((28 <=? n) && (n <=? 31)))%nat.

Fixpoint lstrip (s : list ascii) : list ascii :=
  match s with
  | c :: r => if is_space c then lstrip r else s
  | [] => []
  end.

Definition strip_chars (s : list ascii) : list ascii :=
  rev (lstrip (rev (lstrip s))).

(** [s.strip()] *)
Definition strip (s : string) : string :=
  string_of_list_ascii (strip_chars (list_ascii_of_string s)).

(** [s.startswith(c)] for a one-character prefix *)
Definition startswith (c : ascii) (s : string) : bool :=
  match s with
  | String d _ => Ascii.eqb c d
  | EmptyString => false
  end.

(** [s.split(sep)] for a one-character separator: never the empty list. *)
Fixpoint split (sep : ascii) (s : string) : list string :=
  match s with
  | EmptyString => [EmptyString]
  | String c r =>
      if Ascii.eqb c sep then EmptyString :: split sep r
      else
        match split sep r with
        | w :: ws => String c w :: ws
        | [] => [String c EmptyString]
        end
  end.

(** [s.split(sep, 1)]: at most one cut, at the first separator. *)
Fixpoint split1 (sep : ascii) (s : string) : list string :=
  match s with
  | EmptyString => [EmptyString]
  | String c r =>
      if Ascii.eqb c sep then [EmptyString; r]
      else
        match split1 sep r with
        | w :: ws => String c w :: ws
        | [] => [String c EmptyString]
        end
  end.

Definition digit_of (c : ascii) : option Z :=
  let n := nat_of_ascii c in
  if ((48 <=? n) && (n <=? 57))%nat then Some (Z.of_nat (n - 48)) else None.

(** Digits of a decimal literal; a single underscore may separate two
    digits, as in [int("1_000")]. *)
Fixpoint digits (acc : Z) (after_digit : bool) (s : list ascii) : option Z :=
  match s with
  | [] => if after_digit then Some acc else None
  | c :: r =>
      match digit_of c with
      | Some d => digits (10 * acc + d)%Z true r
      | None =>
          if (Ascii.eqb c "_" && after_digit)%bool then
            match r with
            | d :: _ =>
                match digit_of d with
                | Some _ => digits acc false r
                | None => None
                end
            | [] => None
            end
          else None
      end
  end.

(** [int(s)] for a string: surrounding white space, an optional sign, and a
    decimal literal; anything else is a [ValueError]. *)
Definition int_of_str (s : string) : result Z :=
  match strip_chars (list_ascii_of_string s) with
  | [] => raise ValueError
  | c :: r =>
      let signed (sgn : Z) (body : list ascii) :=
        match body with
        | [] => raise ValueError
        | _ :: _ =>
            match digits 0 false body with
            | Some n => ret (sgn * n)%Z
            | None => raise ValueError
            end
        end in
      if Ascii.eqb c "-" then signed (-1)%Z r
      else if Ascii.eqb c "+" then signed 1%Z r
      else signed 1%Z (c :: r)
  end.

End py.

Notation "x <- m ;; k" := (py.bind m (fun x => k))
  (at level 61, m at next level, right associativity).

(* ================================================================== *)
(** ** video_getter_cv2.py: the worker of one source *)

Module video_getter_cv2.

(** [self.src]: a device index for [usb], a path or URL otherwise. *)
Inductive Source : Set :=
| DeviceIndex (i : Z)
| Address (a : string).

(** [self.video_stream_type]; it also stands for the class of the object
    when a method is dispatched ([stop], [get] and [reconnect] are
    overridden in video_getter_vlc.py). *)
Inductive StreamType : Set := cv2 | vlc.

(** A handle held by the worker (a vlc player or instance). *)
Inductive Handle : Set := Live | Released.

(** What [threading.Thread(target=...)] is started on. *)
Inductive Target : Set := TargetGet | TargetReconnect.

(** Observable side effects of a method, in program order. *)
Inductive Effect : Set :=
| Sleep (seconds : Seconds)
| StartThread (target : Target)
| WriteFrame.

(** How one pass through [while not self.stopped] ends. *)
Inductive LoopCtl : Set :=
| Next                  (* falls through or [continue] *)
| Exit                  (* the test fails, or [break] *)
| Crash (e : py.exn).   (* an exception outside the [try] *)

Inductive LoopStatus : Set :=
| Running | Exited | Crashed (e : py.exn).

(** [cv2.VideoWriter] as far as the worker uses it. *)
Record VideoWriter : Set := mk_writer {
  writer_fps : Z;
  writer_size : Z * Z;
  writer_released : bool
}.

(** [self.vidInfo] once filled in by [init_src]. *)
Record VidInfo : Set := mk_info {
  info_video_feed_name : string;
  info_height : Z;
  info_width : Z;
  info_manual_fps_inputted : bool;
  info_fps : Z;
  info_inited : bool
}.

(** What [init_src] meets: what a freshly made
    [cv2.VideoCapture(self.src)] reports and, should the recorder come to
    be made, whether [cv2.VideoWriter(...)] returns or raises. *)
Record Probe : Set := mk_probe {
  probe_opened : bool;
  probe_fps : Float;       (* stream.get(cv2.CAP_PROP_FPS) *)
  probe_width : Float;     (* stream.get(3) *)
  probe_height : Float;    (* stream.get(4) *)
  probe_writer : bool      (* cv2.VideoWriter(...) returns *)
}.

(** The five [time.time()] readings of the failure branch of [get], by the
    place they are taken. *)
Record Readings : Set := mk_readings {
  t_pause : Seconds;         (* self.pauseTime = time.time() *)
  t_print : Seconds;         (* self.printTime = time.time() *)
  t_since_pause : Seconds;   (* time.time() - self.pauseTime *)
  t_since_print : Seconds;   (* time.time() - self.printTime *)
  t_reprint : Seconds        (* self.printTime = time.time(), after the log *)
}.

Definition Qlt_bool (a b : Seconds) : bool := negb (Qle_bool b a).

Section Worker.
Variable Frame : Type.

(** [frame[t:b, l:r]] on an ndarray; the arguments are in the order of
    the tuple [l, t, r, b]. *)
Variable crop : Z -> Z -> Z -> Z -> Frame -> Frame.

(** A Python value that is an image or [None]. *)
Definition PyFrame : Type := option Frame.

(** What [self.stream.read()] does in one iteration. *)
Inductive Capture : Type :=
| CaptureFrame (f : Frame)   (* (True, frame) *)
| CaptureNone                (* (False, None) *)
| CaptureRaise.              (* an exception *)

(** Attributes assigned in [__init__] only. *)
Record Config : Type := mk_config {
  video_feed_name : string;
  source_type : string;
  src : Source;
  reconnect_threshold_sec : Z;
  do_reconnect : bool;
  max_cache : Z;
  resize_fn : option (PyFrame -> PyFrame);
  manual_video_fps : option Z;
  recording_dir : option string;
  record_source_video : bool;
  frame_crop : option (list Z)
}.

Record VideoStream : Type := mk_stream {
  cfg : Config;
  video_stream_type : StreamType;
  stream_opened : bool;          (* self.stream.isOpened() *)
  pauseTime : option Seconds;
  printTime : option Seconds;
  stopped : bool;
  Q : py.deque PyFrame;
  inited : bool;
  vidInfo : option VidInfo;      (* None is the empty dict *)
  fps : option Z;
  vid_width : option Z;
  vid_height : option Z;
  out_vid : option VideoWriter;
  currentFrame : PyFrame;
  vlc_player : Handle;
  vlc_instance : Handle
}.

(** Attribute assignment. *)
Definition set_video_stream_type (v : StreamType) (s : VideoStream) :=
  mk_stream (cfg s) v (stream_opened s) (pauseTime s) (printTime s)
    (stopped s) (Q s) (inited s) (vidInfo s) (fps s) (vid_width s)
    (vid_height s) (out_vid s) (currentFrame s) (vlc_player s)
    (vlc_instance s).
Definition set_stream_opened (v : bool) (s : VideoStream) :=
  mk_stream (cfg s) (video_stream_type s) v (pauseTime s) (printTime s)
    (stopped s) (Q s) (inited s) (vidInfo s) (fps s) (vid_width s)
    (vid_height s) (out_vid s) (currentFrame s) (vlc_player s)
    (vlc_instance s).
Definition set_pauseTime (v : option Seconds) (s : VideoStream) :=
  mk_stream (cfg s) (video_stream_type s) (stream_opened s) v (printTime s)
    (stopped s) (Q s) (inited s) (vidInfo s) (fps s) (vid_width s)
    (vid_height s) (out_vid s) (currentFrame s) (vlc_player s)
    (vlc_instance s).
Definition set_printTime (v : option Seconds) (s : VideoStream) :=
  mk_stream (cfg s) (video_stream_type s) (stream_opened s) (pauseTime s) v
    (stopped s) (Q s) (inited s) (vidInfo s) (fps s) (vid_width s)
    (vid_height s) (out_vid s) (currentFrame s) (vlc_player s)
    (vlc_instance s).
Definition set_stopped (v : bool) (s : VideoStream) :=
  mk_stream (cfg s) (video_stream_type s) (stream_opened s) (pauseTime s)
    (printTime s) v (Q s) (inited s) (vidInfo s) (fps s) (vid_width s)
    (vid_height s) (out_vid s) (currentFrame s) (vlc_player s)
    (vlc_instance s).
Definition set_Q (v : py.deque PyFrame) (s : VideoStream) :=
  mk_stream (cfg s) (video_stream_type s) (stream_opened s) (pauseTime s)
    (printTime s) (stopped s) v (inited s) (vidInfo s) (fps s) (vid_width s)
    (vid_height s) (out_vid s) (currentFrame s) (vlc_player s)
    (vlc_instance s).
Definition set_inited (v : bool) (s : VideoStream) :=
  mk_stream (cfg s) (video_stream_type s) (stream_opened s) (pauseTime s)
    (printTime s) (stopped s) (Q s) v (vidInfo s) (fps s) (vid_width s)
    (vid_height s) (out_vid s) (currentFrame s) (vlc_player s)
    (vlc_instance s).
Definition set_vidInfo (v : option VidInfo) (s : VideoStream) :=
  mk_stream (cfg s) (video_stream_type s) (stream_opened s) (pauseTime s)
    (printTime s) (stopped s) (Q s) (inited s) v (fps s) (vid_width s)
    (vid_height s) (out_vid s) (currentFrame s) (vlc_player s)
    (vlc_instance s).
Definition set_fps (v : option Z) (s : VideoStream) :=
  mk_stream (cfg s) (video_stream_type s) (stream_opened s) (pauseTime s)
    (printTime s) (stopped s) (Q s) (inited s) (vidInfo s) v (vid_width s)
    (vid_height s) (out_vid s) (currentFrame s) (vlc_player s)
    (vlc_instance s).
Definition set_size (w h : option Z) (s : VideoStream) :=
  mk_stream (cfg s) (video_stream_type s) (stream_opened s) (pauseTime s)
    (printTime s) (stopped s) (Q s) (inited s) (vidInfo s) (fps s) w
    h (out_vid s) (currentFrame s) (vlc_player s) (vlc_instance s).
Definition set_out_vid (v : option VideoWriter) (s : VideoStream) :=
  mk_stream (cfg s) (video_stream_type s) (stream_opened s) (pauseTime s)
    (printTime s) (stopped s) (Q s) (inited s) (vidInfo s) (fps s)
    (vid_width s) (vid_height s) v (currentFrame s) (vlc_player s)
    (vlc_instance s).
Definition set_currentFrame (v : PyFrame) (s : VideoStream) :=
  mk_stream (cfg s) (video_stream_type s) (stream_opened s) (pauseTime s)
    (printTime s) (stopped s) (Q s) (inited s) (vidInfo s) (fps s)
    (vid_width s) (vid_height s) (out_vid s) v (vlc_player s)
    (vlc_instance s).
Definition set_vlc (player inst : Handle) (s : VideoStream) :=
  mk_stream (cfg s) (video_stream_type s) (stream_opened s) (pauseTime s)
    (printTime s) (stopped s) (Q s) (inited s) (vidInfo s) (fps s)
    (vid_width s) (vid_height s) (out_vid s) (currentFrame s) player inst.

(** Keyword arguments of [__init__] with their defaults. *)
Record Options : Type := mk_options {
  kw_queue_size : option Z;
  kw_recording_dir : option string;
  kw_reconnect_threshold_sec : Z;
  kw_do_reconnect : bool;
  kw_resize_fn : option (PyFrame -> PyFrame);
  kw_frame_crop : option (list Z);
  kw_rtsp_tcp : bool;
  kw_max_cache : Z
}.

Definition defaults : Options :=
  mk_options (Some 3%Z) None 20%Z true None None true 10%Z.

(** [VideoStream.__init__]; [opened] is whether the first
    [cv2.VideoCapture(self.src)] could open the source. *)
Definition __init__ (name type : string) (source : Source)
    (manual_fps : Z) (kw : Options) (opened : bool)
    : py.result VideoStream :=
  q <- py.deque_new PyFrame (kw_queue_size kw) ;;
  _ <- match kw_frame_crop kw with
       | Some c =>
           if (List.length c =? 4)%nat then py.ret tt
           else py.raise py.AssertionError
       | None => py.ret tt
       end ;;
  py.ret
    (mk_stream
       (mk_config name type source (kw_reconnect_threshold_sec kw)
          (kw_do_reconnect kw) (kw_max_cache kw) (kw_resize_fn kw)
          (if (manual_fps =? -1)%Z then None else Some manual_fps)
          (kw_recording_dir kw)
          (match kw_recording_dir kw with Some _ => true | None => false end)
          (kw_frame_crop kw))
       cv2 opened None None true q false None None None None None None
       Released Released).

(** [self.__init_src_recorder()] of the cv2 class;
    [cv2.VideoWriter(...)] may raise. *)
Definition init_src_recorder (p : Probe) (s : VideoStream)
    : py.result VideoStream :=
  if (record_source_video (cfg s) && inited s)%bool then
    match fps s, vid_width s, vid_height s with
    | Some f, Some w, Some h =>
        if probe_writer p
        then py.ret (set_out_vid (Some (mk_writer f (w, h) false)) s)
        else py.raise py.Cv2Error
    | _, _, _ => py.raise py.TypeError
    end
  else py.ret s.

(** The body of the [try] in [init_src], attribute by attribute; an
    exception leaves the assignments made so far. *)
Definition init_src_try
    (recorder : Probe -> VideoStream -> py.result VideoStream)
    (s : VideoStream) (p : Probe) : VideoStream * option py.exn :=
  let s1 := set_stream_opened (probe_opened p) s in
  let s2 :=
    match manual_video_fps (cfg s1) with
    | Some m =>
        if (m =? 0)%Z then      (* [not self.manual_video_fps] *)
          let f := py.int_of_float (probe_fps p) in
          set_fps (Some (if (f =? 0)%Z then 30%Z else f)) s1
        else set_fps (Some m) s1
    | None =>
        let f := py.int_of_float (probe_fps p) in
        set_fps (Some (if (f =? 0)%Z then 30%Z else f)) s1
    end in
  let sized :=
    match frame_crop (cfg s2) with
    | None =>
        py.ret (set_size (Some (py.int_of_float (probe_width p)))
                  (Some (py.int_of_float (probe_height p))) s2)
    | Some [l; t; r; b] =>
        py.ret (set_size (Some (r - l)%Z) (Some (b - t)%Z) s2)
    | Some _ => py.raise py.ValueError
    end in
  match sized with
  | inl e => (s2, Some e)
  | inr s3 =>
      match fps s3, vid_width s3, vid_height s3 with
      | Some f, Some w, Some h =>
          let info (i : bool) :=
            mk_info (video_feed_name (cfg s3)) h w
              (match manual_video_fps (cfg s3) with
               | Some _ => true | None => false end)
              f i in
          let s4 := set_out_vid None (set_vidInfo (Some (info false)) s3) in
          let s5 :=
            if negb (w =? 0)%Z
            then set_vidInfo (Some (info true)) (set_inited true s4)
            else s4 in
          match recorder p s5 with
          | inl e => (s5, Some e)
          | inr s6 => (s6, None)
          end
      | _, _, _ => (s3, Some py.TypeError)
      end
  end.

(** [init_src]: [p] is [None] when [cv2.VideoCapture] itself raises; the
    [except] clause only logs. *)
Definition init_src_with
    (recorder : Probe -> VideoStream -> py.result VideoStream)
    (s : VideoStream) (p : option Probe) : VideoStream :=
  match p with
  | None => s
  | Some p => fst (init_src_try recorder s p)
  end.

Definition init_src : VideoStream -> option Probe -> VideoStream :=
  init_src_with init_src_recorder.

(** [more] *)
Definition more (s : VideoStream) : bool := py.truth (Q s).

(** [read]; the result is the returned value. *)
Definition read (s : VideoStream) : py.result (PyFrame * VideoStream) :=
  s1 <- (if more s then
           r <- py.pop (Q s) ;;
           py.ret (set_currentFrame (fst r) (set_Q (snd r) s))
         else py.ret s) ;;
  let s2 :=
    match resize_fn (cfg s1) with
    | Some g => set_currentFrame (g (currentFrame s1)) s1
    | None => s1
    end in
  py.ret (currentFrame s2, s2).

(** [start], with [init_src] of the object's class. *)
Definition start_with (init : VideoStream -> option Probe -> VideoStream)
    (s : VideoStream) (p : option Probe) : VideoStream * list Effect :=
  let s1 := if inited s then s else init s p in
  (set_stopped false s1, [StartThread TargetGet]).

Definition start : VideoStream -> option Probe -> VideoStream * list Effect :=
  start_with init_src.

(** [reconnect_start] *)
Definition reconnect_start (s : VideoStream) : VideoStream * list Effect :=
  (s, [StartThread TargetReconnect]).

(** [stop] of the cv2 class. *)
Definition stop (s : VideoStream) : VideoStream * list Effect :=
  if stopped s then (s, [])
  else
    let s1 := set_stopped true s in
    let s2 := set_stream_opened false s1 in          (* stream.release() *)
    let s3 := if more s2 then set_Q (py.clear (Q s2)) s2 else s2 in
    let s4 :=
      match out_vid s3 with
      | Some w =>
          set_out_vid
            (Some (mk_writer (writer_fps w) (writer_size w) true)) s3
      | None => s3
      end in
    (s4, [Sleep (1 # 10)]).

(** [frame[t:b, l:r]] when a crop is configured. *)
Definition crop_frame (s : VideoStream) (f : Frame) : py.result Frame :=
  match frame_crop (cfg s) with
  | None => py.ret f
  | Some [l; t; r; b] => py.ret (crop l t r b f)
  | Some _ => py.raise py.ValueError
  end.

(** [time.sleep(1 / self.fps)]: the length slept, or the exception. *)
Definition pacing (s : VideoStream) : py.result Seconds :=
  match fps s with
  | None => py.raise py.TypeError
  | Some n =>
      if (n =? 0)%Z then py.raise py.ZeroDivisionError
      else if (n <? 0)%Z then py.raise py.ValueError
      else py.ret (1 / inject_Z n)%Q
  end.

(** The [try] block of [get]: the new attributes, the effects, and
    [grabbed] ([None] when the block leaves through [continue]). *)
Definition get_try (s : VideoStream) (c : Capture)
    : VideoStream * list Effect * option bool :=
  if (max_cache (cfg s) <? Z.of_nat (py.len (Q s)))%Z then
    (s, [Sleep (1 # 100)], None)
  else
    match c with
    | CaptureRaise => (s, [], Some false)
    | CaptureNone => (s, [], Some false)
    | CaptureFrame f =>
        match crop_frame s f with
        | inl _ => (s, [], Some false)
        | inr f' =>
            let s1 := set_Q (py.appendleft (Some f') (Q s)) s in
            let rec :=
              if record_source_video (cfg s1) then
                match out_vid s1 with
                | Some _ => [WriteFrame]
                | None => []
                end
              else [] in
            match pacing s1 with
            | inl _ => (s1, rec, Some false)
            | inr d => (s1, rec ++ [Sleep d], Some true)
            end
        end
    end.

(** The [if not grabbed:] block of [get]; it is the same text in both
    classes and calls [self.stop()] of the object's class. *)
Definition countdown (stop_of : VideoStream -> VideoStream * list Effect)
    (s : VideoStream) (clk : Readings)
    : VideoStream * list Effect * LoopCtl :=
  let s1 :=
    match pauseTime s with
    | None =>
        set_printTime (Some (t_print clk))
          (set_pauseTime (Some (t_pause clk)) s)
    | Some _ => s
    end in
  match pauseTime s1, printTime s1 with
  | Some pause, Some print =>
      let time_since_pause := (t_since_pause clk - pause)%Q in
      let countdown_time :=
        (inject_Z (reconnect_threshold_sec (cfg s1)) - time_since_pause)%Q in
      let time_since_print := (t_since_print clk - print)%Q in
      let s2 :=
        if (Qlt_bool 1 time_since_print && Qle_bool 0 countdown_time)%bool
        then set_printTime (Some (t_reprint clk)) s1
        else s1 in
      if Qle_bool countdown_time 0 then
        if do_reconnect (cfg s2) then
          (s2, snd (reconnect_start s2), Exit)
        else if negb (more s2) then
          let r := stop_of s2 in (fst r, snd r, Exit)
        else (s2, [Sleep 1], Next)
      else (s2, [], Next)
  | _, _ => (s1, [], Crash py.TypeError)
  end.

(** One pass through the loop of [get]. *)
Definition get_iter (s : VideoStream) (c : Capture) (clk : Readings)
    : VideoStream * list Effect * LoopCtl :=
  if stopped s then (s, [], Exit)
  else
    match get_try s c with
    | (s1, eff, None) => (s1, eff, Next)
    | (s1, eff, Some true) => (set_pauseTime None s1, eff, Next)
    | (s1, eff, Some false) =>
        match countdown stop s1 clk with
        | (s2, eff2, ctl) => (s2, eff ++ eff2, ctl)
        end
    end.

(** [get] run on what the capture and the clock deliver, one entry per
    pass, with nothing else touching the worker in between. *)
Fixpoint get (s : VideoStream) (io : list (Capture * Readings))
    : VideoStream * list Effect * LoopStatus :=
  match io with
  | [] => (s, [], Running)
  | (c, clk) :: rest =>
      match get_iter s c clk with
      | (s1, eff, Next) =>
          match get s1 rest with
          | (s2, eff2, st) => (s2, eff ++ eff2, st)
          end
      | (s1, eff, Exit) => (s1, eff, Exited)
      | (s1, eff, Crash e) => (s1, eff, Crashed e)
      end
  end.

(** [reconnect] of the cv2 class.  [tries] lists whether each successive
    [cv2.VideoCapture(self.src)] of the waiting loop opens the source;
    the result is [None] while the loop is still waiting. *)
Fixpoint reopen (tries : list bool) : option bool :=
  match tries with
  | [] => None
  | true :: _ => Some true
  | false :: rest => reopen rest
  end.

(** The statements of [reconnect] before its waiting loop. *)
Definition reconnect_release (s : VideoStream) : VideoStream :=
  let s1 := set_stream_opened false s in
  if more s1 then set_Q (py.clear (Q s1)) s1 else s1.

Definition reconnect (s : VideoStream) (tries : list bool)
    (p1 p2 : option Probe) : option (VideoStream * list Effect) :=
  let s2 := reconnect_release s in
  match reopen tries with
  | None => None
  | Some o =>
      let s3 := set_stream_opened o s2 in
      let s4 := if inited s3 then s3 else init_src s3 p1 in
      Some (start (set_pauseTime None s4) p2)
  end.
End Worker.

End video_getter_cv2.

(* ================================================================== *)
(** ** video_getter_vlc.py: the snapshot worker, a subclass *)

Module video_getter_vlc.
Import video_getter_cv2.

Section Worker.
Variable Frame : Type.
Variable crop : Z -> Z -> Z -> Z -> Frame -> Frame.

Abbreviation VideoStream := (video_getter_cv2.VideoStream Frame).

(** What [video_take_snapshot] followed by [cv2.imread] does in one
    iteration. *)
Inductive Snapshot : Type :=
| SnapshotTaken (img : PyFrame Frame)   (* res >= 0; imread's value *)
| SnapshotFailed                        (* res < 0 *)
| SnapshotRaise.                        (* an exception *)

(** [VideoStream.__init__]: the base constructor (it is not handed
    [max_cache]), then the player of a new vlc instance. *)
Definition __init__ (name type : string) (source : Source)
    (manual_fps : Z) (kw : Options Frame) (opened : bool)
    : py.result VideoStream :=
  s <- video_getter_cv2.__init__ name type source manual_fps
         (mk_options (kw_queue_size kw) (kw_recording_dir kw)
            (kw_reconnect_threshold_sec kw) (kw_do_reconnect kw)
            (kw_resize_fn kw) (kw_frame_crop kw) (kw_rtsp_tcp kw)
            (kw_max_cache (defaults Frame)))
         opened ;;
  py.ret (set_vlc Live Live (set_video_stream_type vlc s)).

(** [__init_src_recorder] is overridden to do nothing. *)
Definition init_src_recorder (p : Probe) (s : VideoStream)
    : py.result VideoStream :=
  py.ret s.

Definition init_src : VideoStream -> option Probe -> VideoStream :=
  init_src_with init_src_recorder.

Definition start : VideoStream -> option Probe -> VideoStream * list Effect :=
  start_with init_src.

(** [stop] of the vlc class. *)
Definition stop (s : VideoStream) : VideoStream * list Effect :=
  if stopped s then (s, [])
  else
    let s1 := set_stopped true s in
    let s2 := if more s1 then set_Q (py.clear (Q s1)) s1 else s1 in
    let s3 := set_vlc Released Released s2 in
    (s3, [Sleep (1 # 10)]).

(** The statements of [get] before the loop: a new player is made and
    set playing. *)
Definition get_enter (s : VideoStream) : VideoStream :=
  set_vlc Live (vlc_instance s) s.

(** [frame[t:b, l:r]] when a crop is configured; [None] cannot be
    subscripted. *)
Definition crop_snapshot (s : VideoStream) (img : PyFrame Frame)
    : py.result (PyFrame Frame) :=
  match frame_crop (cfg s) with
  | None => py.ret img
  | Some [l; t; r; b] =>
      match img with
      | Some f => py.ret (Some (crop l t r b f))
      | None => py.raise py.TypeError
      end
  | Some _ => py.raise py.ValueError
  end.

(** The [try] block of [get]. *)
Definition get_try (s : VideoStream) (c : Snapshot)
    : VideoStream * list Effect * option bool :=
  match c with
  | SnapshotRaise => (s, [], Some false)
  | SnapshotFailed => (s, [], Some false)
  | SnapshotTaken img =>
      match crop_snapshot s img with
      | inl _ => (s, [], Some false)
      | inr frame =>
          let s1 := set_Q (py.appendleft frame (Q s)) s in
          match pacing s1 with
          | inl _ => (s1, [], Some false)
          | inr d => (s1, [Sleep d], Some true)
          end
      end
  end.

(** One pass through the loop of [get]. *)
Definition get_iter (s : VideoStream) (c : Snapshot) (clk : Readings)
    : VideoStream * list Effect * LoopCtl :=
  if stopped s then (s, [], Exit)
  else
    match get_try s c with
    | (s1, eff, None) => (s1, eff, Next)
    | (s1, eff, Some true) => (set_pauseTime None s1, eff, Next)
    | (s1, eff, Some false) =>
        match countdown stop s1 clk with
        | (s2, eff2, ctl) => (s2, eff ++ eff2, ctl)
        end
    end.

Fixpoint get_loop (s : VideoStream) (io : list (Snapshot * Readings))
    : VideoStream * list Effect * LoopStatus :=
  match io with
  | [] => (s, [], Running)
  | (c, clk) :: rest =>
      match get_iter s c clk with
      | (s1, eff, Next) =>
          match get_loop s1 rest with
          | (s2, eff2, st) => (s2, eff ++ eff2, st)
          end
      | (s1, eff, Exit) => (s1, eff, Exited)
      | (s1, eff, Crash e) => (s1, eff, Crashed e)
      end
  end.

(** [get] *)
Definition get (s : VideoStream) (io : list (Snapshot * Readings))
    : VideoStream * list Effect * LoopStatus :=
  get_loop (get_enter s) io.

(** [reconnect] of the vlc class. *)
Definition reconnect (s : VideoStream) (p1 p2 : option Probe)
    : VideoStream * list Effect :=
  let s1 := if more s then set_Q (py.clear (Q s)) s else s in
  let s2 := set_vlc Live (vlc_instance s1) s1 in
  let s3 := if inited s2 then s2 else init_src s2 p1 in
  start (set_pauseTime None s3) p2.
End Worker.

End video_getter_vlc.

(* ================================================================== *)
(** ** Method dispatch on the class of the worker *)

Module dispatch.
Import video_getter_cv2.

Section Worker.
Variable Frame : Type.

Abbreviation VideoStream := (video_getter_cv2.VideoStream Frame).

Definition start (s : VideoStream) (p : option Probe)
    : VideoStream * list Effect :=
  match video_stream_type s with
  | cv2 => video_getter_cv2.start s p
  | vlc => video_getter_vlc.start s p
  end.

Definition stop (s : VideoStream) : VideoStream * list Effect :=
  match video_stream_type s with
  | cv2 => video_getter_cv2.stop s
  | vlc => video_getter_vlc.stop s
  end.

Definition init_src (s : VideoStream) (p : option Probe) : VideoStream :=
  match video_stream_type s with
  | cv2 => video_getter_cv2.init_src s p
  | vlc => video_getter_vlc.init_src s p
  end.
End Worker.

End dispatch.

(* ================================================================== *)
(** ** video_manager.py: the aggregator *)

Module video_manager.
Import video_getter_cv2.

(** [set(...)]: more than one argument is a [TypeError]; a single string
    gives the set of its characters. *)
Definition set_call (args : list string) : py.result (list string) :=
  match args with
  | [] => py.ret []
  | [a] =>
      py.ret (map (fun c => String c EmptyString) (list_ascii_of_string a))
  | _ :: _ :: _ => py.raise py.TypeError
  end.

Definition mem (x : string) (l : list string) : bool :=
  existsb (String.eqb x) l.

Section Manager.
Variable Frame : Type.

(** The surroundings: whether [cv2.VideoCapture] opens a source and what
    it then reports, [Path(p).is_file()], and [float(s)]. *)
Variable opens : Source -> bool.
Variable probe : Source -> option Probe.
Variable is_file : string -> bool.
Variable float_of_str : string -> py.result Float.

Abbreviation VideoStream := (video_getter_cv2.VideoStream Frame).

(** One entry of [self.videos]: the dict with keys ["video_feed_name"]
    and ["stream"]. *)
Record Video : Type := mk_video {
  video_feed_name : string;
  stream : VideoStream
}.

Record VideoManager : Type := mk_manager {
  max_height : option Z;
  num_vid_streams : nat;
  stopped : bool;
  videos : list Video
}.

(** The keyword arguments a caller hands over; [None] is a keyword that
    is not given. *)
Record Kwargs : Type := mk_kwargs {
  queue_size : option (option Z);
  recording_dir : option (option string);
  reconnect_threshold_sec : option Z;
  do_reconnect : option bool;
  kw_max_height : option (option Z);
  method : option string;
  frame_crop : option (option (list Z));
  rtsp_tcp : option bool
}.

Definition no_kwargs : Kwargs :=
  mk_kwargs None None None None None None None None.

Definition default {A : Type} (given : option A) (d : A) : A :=
  match given with Some a => a | None => d end.

(** [l[i]] *)
Definition index {A : Type} (l : list A) (i : nat) : py.result A :=
  match nth_error l i with
  | Some a => py.ret a
  | None => py.raise py.IndexError
  end.

(** The loop of [__init__] over [enumerate(video_feed_names)]. *)
Fixpoint make_streams (i : nat) (names source_types : list string)
    (streams : list Source) (manual_video_fps : list Float) (kw : Kwargs)
    (todo : list string) : py.result (list Video) :=
  match todo with
  | [] => py.ret []
  | name :: rest =>
      type <- index source_types i ;;
      source <- index streams i ;;
      manual <- index manual_video_fps i ;;
      let options :=
        mk_options (default (queue_size kw) (Some 3%Z))
          (default (recording_dir kw) None)
          (default (reconnect_threshold_sec kw) 20%Z)
          (default (do_reconnect kw) true)
          None
          (default (frame_crop kw) None)
          (default (rtsp_tcp kw) true)
          (kw_max_cache (defaults Frame)) in
      s <- (if String.eqb (default (method kw) "cv2") "vlc" then
              video_getter_vlc.__init__ name type source
                (py.int_of_float manual) options (opens source)
            else
              video_getter_cv2.__init__ name type source
                (py.int_of_float manual) options (opens source)) ;;
      vs <- make_streams (S i) names source_types streams
              manual_video_fps kw rest ;;
      py.ret (mk_video name s :: vs)
  end.

(** [VideoManager.__init__] *)
Definition __init__ (video_feed_names source_types : list string)
    (streams : list Source) (manual_video_fps : list Float) (kw : Kwargs)
    : py.result VideoManager :=
  if ((List.length streams =? List.length source_types)%nat
      && (List.length source_types =? List.length video_feed_names)%nat)%bool
  then
    vs <- make_streams 0 video_feed_names source_types streams
            manual_video_fps kw video_feed_names ;;
    py.ret (mk_manager (default (kw_max_height kw) None)
              (List.length streams) true vs)
  else py.raise py.AssertionError.

(** The lists [from_list_file] builds while it reads the file. *)
Record Listing : Type := mk_listing {
  l_video_feed_names : list string;
  l_streams : list Source;
  l_source_types : list string;
  l_manual_video_fps : list Float;
  pure_files_only : bool
}.

Definition empty_listing : Listing := mk_listing [] [] [] [] true.

(** The body of [for l in f.readlines()] for one line. *)
Definition read_line (acc : Listing) (line : string) : py.result Listing :=
  let l := py.strip line in
  if py.startswith "#" l then py.ret acc
  else
    let splits := py.split "," l in
    name <- index splits 0 ;;
    url <- index splits 1 ;;
    parts <- match py.split1 ":" url with
             | [t; p] => py.ret (t, p)
             | _ => py.raise py.ValueError
             end ;;
    let source_type := fst parts in
    let path := snd parts in
    found <- (if String.eqb source_type "usb" then
                i <- py.int_of_str path ;;
                py.ret (DeviceIndex i, false)
              else if String.eqb source_type "file" then
                if is_file path
                then py.ret (Address path, pure_files_only acc)
                else py.raise py.AssertionError
              else
                supported <- set_call ["rtsp"; "http"; "https"] ;;
                if mem source_type supported
                then py.ret (Address url, false)
                else py.raise py.AssertionError) ;;
    fps <- (if (List.length splits =? 3)%nat then
              f <- index splits 2 ;; float_of_str f
            else py.ret (inject_Z (-1))) ;;
    py.ret (mk_listing (l_video_feed_names acc ++ [name])
              (l_streams acc ++ [fst found])
              (l_source_types acc ++ [source_type])
              (l_manual_video_fps acc ++ [fps])
              (snd found)).

Fixpoint read_lines (acc : Listing) (lines : list string)
    : py.result Listing :=
  match lines with
  | [] => py.ret acc
  | l :: rest => acc' <- read_line acc l ;; read_lines acc' rest
  end.

(** [VideoManager.from_list_file]; [lines] is [f.readlines()]. *)
Definition from_list_file (lines : list string) (kw : Kwargs)
    : py.result VideoManager :=
  parsed <- read_lines empty_listing lines ;;
  let kwargs :=
    if (pure_files_only parsed
        && match queue_size kw with Some _ => false | None => true end)%bool
    then mk_kwargs (Some None) (recording_dir kw)
           (reconnect_threshold_sec kw) (do_reconnect kw)
           (kw_max_height kw) (method kw) (frame_crop kw) (rtsp_tcp kw)
    else kw in
  __init__ (l_video_feed_names parsed) (l_source_types parsed)
    (l_streams parsed) (l_manual_video_fps parsed) kwargs.

(** What [read] puts in its list for one source: the empty list [[]], or
    the value the worker's [read] returned. *)
Inductive Entry : Type :=
| EmptyMarker
| Delivered (frame : PyFrame Frame).

(** [start]: every worker in turn, then the flag. *)
Fixpoint start_all (vs : list Video) : list Video * list Effect :=
  match vs with
  | [] => ([], [])
  | v :: rest =>
      let r := dispatch.start (stream v) (probe (src (cfg (stream v)))) in
      let rs := start_all rest in
      (mk_video (video_feed_name v) (fst r) :: fst rs, snd r ++ snd rs)
  end.

Definition start (m : VideoManager) : VideoManager * list Effect :=
  if stopped m then
    let r := start_all (videos m) in
    (mk_manager (max_height m) (num_vid_streams m) false (fst r), snd r)
  else (m, []).

Fixpoint stop_all (vs : list Video) : list Video * list Effect :=
  match vs with
  | [] => ([], [])
  | v :: rest =>
      let r := dispatch.stop (stream v) in
      let rs := stop_all rest in
      (mk_video (video_feed_name v) (fst r) :: fst rs, snd r ++ snd rs)
  end.

(** [stop] *)
Definition stop (m : VideoManager) : VideoManager * list Effect :=
  if stopped m then (m, [])
  else
    let r := stop_all (videos m) in
    (mk_manager (max_height m) (num_vid_streams m) true (fst r), snd r).

Definition check_all_stopped (m : VideoManager) : bool :=
  forallb (fun v => video_getter_cv2.stopped (stream v)) (videos m).

Definition check_any_stopped (m : VideoManager) : bool :=
  existsb (fun v => video_getter_cv2.stopped (stream v)) (videos m).

(** [get_all_videos_information]: the workers as it leaves them and the
    list [all_info]. *)
Fixpoint get_all_videos_information (vs : list Video)
    : list Video * list (option VidInfo) :=
  match vs with
  | [] => ([], [])
  | v :: rest =>
      let s :=
        if inited (stream v) then stream v
        else dispatch.init_src (stream v) (probe (src (cfg (stream v)))) in
      let rs := get_all_videos_information rest in
      (mk_video (video_feed_name v) s :: fst rs, vidInfo s :: snd rs)
  end.

(** The loop of [read] over [self.videos]: the workers as it leaves them,
    the list [frames], and the effects. *)
Fixpoint read_all (vs : list Video)
    : py.result (list Video * list Entry * list Effect) :=
  match vs with
  | [] => py.ret ([], [], [])
  | v :: rest =>
      one <- (if negb (more (stream v)) then
                py.ret (stream v, EmptyMarker)
              else
                r <- video_getter_cv2.read (stream v) ;;
                py.ret (snd r, Delivered (fst r))) ;;
      others <- read_all rest ;;
      py.ret (mk_video (video_feed_name v) (fst one) :: fst (fst others),
              snd one :: snd (fst others),
              snd others)
  end.

(** [read] *)
Definition read (m : VideoManager)
    : py.result (VideoManager * list Entry * list Effect) :=
  r <- read_all (videos m) ;;
  py.ret (mk_manager (max_height m) (num_vid_streams m) (stopped m)
            (fst (fst r)),
          snd (fst r), snd r).
End Manager.

End video_manager.

(* ================================================================== *)
(** ** Vocabulary of the properties *)

Module props.
Import video_getter_cv2.

Section Worker.
Variable Frame : Type.

Abbreviation VideoStream := (video_getter_cv2.VideoStream Frame).

(** The insertion of the acquisition loop, [self.Q.appendleft(frame)]. *)
Definition insert (s : VideoStream) (f : Frame) : VideoStream :=
  set_Q (py.appendleft (Some f) (Q s)) s.

Definition insert_all (fs : list Frame) (s : VideoStream) : VideoStream :=
  fold_left insert fs s.


(** What [read] hands out for a buffered value: the value itself, or its
    image under the resize hook when there is one. *)
Definition delivered (s : VideoStream) (f : PyFrame Frame) : PyFrame Frame :=
  match resize_fn (cfg s) with
  | Some g => g f
  | None => f
  end.


End Worker.

(** The frame rate [init_src] settles on: the manual one unless it is
    absent or zero, else the reported one, 30 standing in for zero. *)
Definition opened_fps (manual : option Z) (p : Probe) : Z :=
  let reported :=
    if (py.int_of_float (probe_fps p) =? 0)%Z then 30%Z
    else py.int_of_float (probe_fps p) in
  match manual with
  | Some m => if (m =? 0)%Z then reported else m
  | None => reported
  end.


Section Lifecycle.
Import video_getter_vlc.
Variable Frame : Type.
Variable crop : Z -> Z -> Z -> Z -> Frame -> Frame.

(** One atomic action on a worker: a method call from outside, or one
    step of one of its two threads. *)
Inductive Action : Type :=
| DoStart (p : option Probe)
| DoStop
| DoRead
| DoInitSrc (p : option Probe)
| DoReconnectStart
| DoCapture (c : Capture Frame) (clk : Readings)
| DoGetEnter
| DoSnapshot (c : Snapshot Frame) (clk : Readings)
| DoReconnect (tries : list bool) (p1 p2 : option Probe).

Definition act (a : Action) (s : VideoStream Frame) : VideoStream Frame :=
  match a with
  | DoStart p => fst (dispatch.start s p)
  | DoStop => fst (dispatch.stop s)
  | DoRead => match read s with inr r => snd r | inl _ => s end
  | DoInitSrc p => dispatch.init_src s p
  | DoReconnectStart => fst (reconnect_start s)
  | DoCapture c clk =>
      match video_stream_type s with
      | cv2 => fst (fst (video_getter_cv2.get_iter crop s c clk))
      | vlc => s
      end
  | DoGetEnter =>
      match video_stream_type s with
      | cv2 => s
      | vlc => get_enter s
      end
  | DoSnapshot c clk =>
      match video_stream_type s with
      | cv2 => s
      | vlc => fst (fst (video_getter_vlc.get_iter crop s c clk))
      end
  | DoReconnect tries p1 p2 =>
      match video_stream_type s with
      | cv2 =>
          match video_getter_cv2.reconnect s tries p1 p2 with
          | Some r => fst r
          | None => reconnect_release s
          end
      | vlc => fst (video_getter_vlc.reconnect s p1 p2)
      end
  end.

(** The actions that run [start()]: the call itself, and [reconnect],
    which ends in [self.start()]. *)
Definition calls_start (a : Action) : bool :=
  match a with
  | DoStart _ | DoReconnect _ _ _ => true
  | _ => false
  end.

Definition run (acts : list Action) (s : VideoStream Frame)
    : VideoStream Frame :=
  fold_left (fun s a => act a s) acts s.

(** A worker as one of the two constructors returns it. *)
Definition constructed (s : VideoStream Frame) : Prop :=
  exists name type source manual kw opened,
    video_getter_cv2.__init__ name type source manual kw opened = inr s
    \/ video_getter_vlc.__init__ name type source manual kw opened = inr s.

(** A worker as the program can hold it. *)
Definition reachable (s : VideoStream Frame) : Prop :=
  exists s0 acts, constructed s0 /\ s = run acts s0.

(** Two states of a worker that differ at most in what [init_src]
    assigns. *)
Definition same_run (s' s : VideoStream Frame) : Prop :=
  Q s' = Q s /\ stopped s' = stopped s /\ pauseTime s' = pauseTime s
  /\ printTime s' = printTime s /\ cfg s' = cfg s
  /\ video_stream_type s' = video_stream_type s.

(** Both timers are set at the first failure, and only the pause timer
    is ever reset. *)
Definition timers_paired (s : VideoStream Frame) : Prop :=
  printTime s = None -> pauseTime s = None.

(** A running worker that does not reconnect and holds no frame. *)
Definition idle_without_reconnect (s : VideoStream Frame) : Prop :=
  stopped s = false /\ do_reconnect (cfg s) = false
  /\ py.items (Q s) = [] /\ timers_paired s.

(** A stopped worker holds no frame. *)
Definition settled (s : VideoStream Frame) : Prop :=
  stopped s = true -> py.items (Q s) = [].

Definition backend_released (s : VideoStream Frame) : Prop :=
  match video_stream_type s with
  | cv2 => stream_opened s = false
  | vlc => vlc_player s = Released /\ vlc_instance s = Released
  end.

Definition capture_fails (c : Capture Frame) : bool :=
  match c with CaptureFrame _ => false | _ => true end.

Definition snapshot_fails (c : Snapshot Frame) : bool :=
  match c with SnapshotTaken _ => false | _ => true end.

(** The moment of the first failure of the current run of failures. *)
Definition failing_since (s : VideoStream Frame) (clk : Readings) : Seconds :=
  match pauseTime s with
  | Some p => p
  | None => t_pause clk
  end.

(** The failures have lasted for the reconnect threshold at [clk]. *)
Definition threshold_reached (s : VideoStream Frame) (since : Seconds)
    (clk : Readings) : Prop :=
  (inject_Z (reconnect_threshold_sec (cfg s)) <= t_since_pause clk - since)%Q.

(** What a pass of either loop does on such a worker when the capture
    fails. *)
Definition failing_pass
    (stop_of : VideoStream Frame -> VideoStream Frame * list Effect)
    (s : VideoStream Frame) (clk : Readings)
    (pass : VideoStream Frame * list Effect * LoopCtl) : Prop :=
  exists s2,
    (idle_without_reconnect s2 /\ cfg s2 = cfg s
     /\ video_stream_type s2 = video_stream_type s
     /\ pauseTime s2 = Some (failing_since s clk))
    /\ (threshold_reached s (failing_since s clk) clk ->
        pass = (fst (stop_of s2), snd (stop_of s2), Exit))
    /\ (~ threshold_reached s (failing_since s clk) clk ->
        pass = (s2, [], Next)).


(** C8 as the specification words it: a manual frame rate that was
    supplied (the attribute is not [None]) is the worker's frame rate. *)
Definition manual_fps_used_unchanged (s : VideoStream Frame) (p : Probe)
    : Prop :=
  forall m, manual_video_fps (cfg s) = Some m ->
            fps (video_getter_cv2.init_src s (Some p)) = Some m.

(** C9 as the specification words it: a crop rectangle with a negative
    coordinate does not get through the constructor. *)
Definition rejects_negative_crop (c : list Z) : Prop :=
  existsb (fun x => (x <? 0)%Z) c = true ->
  forall name type source manual kw opened,
    kw_frame_crop kw = Some c ->
    py.raised
      (video_getter_cv2.__init__ (Frame := Frame) name type source manual
         kw opened) = true.

End Lifecycle.

Section Manager.
Import video_manager.
Variable Frame : Type.

(** The [i]-th worker takes a step of its own; a worker has no reference
    to the aggregator or to the other workers. *)
Fixpoint step_worker (i : nat) (f : VideoStream Frame -> VideoStream Frame)
    (vs : list (Video Frame)) {struct vs} : list (Video Frame) :=
  match vs, i with
  | [], _ => []
  | v :: rest, O => mk_video (video_feed_name v) (f (stream v)) :: rest
  | v :: rest, S j => v :: step_worker j f rest
  end.

Definition worker_steps (i : nat)
    (f : VideoStream Frame -> VideoStream Frame) (m : VideoManager Frame)
    : VideoManager Frame :=
  mk_manager (max_height m) (num_vid_streams m) (video_manager.stopped m)
    (step_worker i f (videos m)).

(** The oldest buffered value: the rightmost item of the deque. *)
Definition oldest (s : VideoStream Frame) : PyFrame Frame :=
  last (py.items (Q s)) None.

(** The worker once its oldest value has been taken out and delivered. *)
Definition popped (s : VideoStream Frame) : VideoStream Frame :=
  set_currentFrame (delivered s (oldest s))
    (set_Q (py.mk_deque (removelast (py.items (Q s))) (py.maxlen (Q s))) s).

(** What the aggregator's [read] is specified to return for one source,
    and how it is specified to leave that source. *)
Definition entry_of (v : Video Frame) : Entry Frame :=
  if more (stream v)
  then Delivered (delivered (stream v) (oldest (stream v)))
  else EmptyMarker Frame.

Definition after_read (v : Video Frame) : Video Frame :=
  if more (stream v)
  then mk_video (video_feed_name v) (popped (stream v))
  else v.

End Manager.

Section Descriptors.
Import video_manager.

(** A line the descriptor file ignores. *)
Definition is_comment (line : string) : bool :=
  py.startswith "#" (py.strip line).

(** The type tag of a descriptor line [name,type:address[,fps]]: the
    second comma-separated field up to its first colon. *)
Definition tag_of (line : string) : option string :=
  match py.split "," (py.strip line) with
  | _ :: url :: _ =>
      match py.split1 ":" url with
      | [t; _] => Some t
      | _ => None
      end
  | _ => None
  end.

(** Every source of the list is of type [file]. *)
Definition all_files (lines : list string) : bool :=
  forallb
    (fun l =>
       is_comment l
       || match tag_of l with
          | Some t => String.eqb t "file"
          | None => false
          end)
    lines.

(** The buffer capacity C6 asks for: the one given, else unbounded for
    a list of files only, else the default of 3. *)
Definition expected_capacity (lines : list string) (kw : Kwargs)
    : option nat :=
  match queue_size kw with
  | Some q => option_map Z.to_nat q
  | None => if all_files lines then None else Some 3%nat
  end.

(** A line the parser takes for a file that exists: a comment, or
    [name,file:path] followed by nothing, by a frame rate [float] accepts,
    or by more than one further field. *)
Definition file_line (is_file : string -> bool)
    (float_of_str : string -> py.result Float) (line : string) : Prop :=
  is_comment line = true
  \/ exists name url rest path,
       py.split "," (py.strip line) = name :: url :: rest
       /\ py.split1 ":" url = ["file"; path]
       /\ is_file path = true
       /\ (forall f, rest = [f] -> exists x, float_of_str f = inr x).

(** The lists [from_list_file] builds are of one length. *)
Definition balanced (acc : Listing) : Prop :=
  List.length (l_streams acc) = List.length (l_video_feed_names acc)
  /\ List.length (l_source_types acc) = List.length (l_video_feed_names acc)
  /\ List.length (l_manual_video_fps acc)
     = List.length (l_video_feed_names acc).

(** Keyword arguments the worker's constructor accepts: a crop rectangle,
    when given, has four coordinates. *)
Definition crop_fits (kw : Kwargs) : Prop :=
  match frame_crop kw with
  | Some (Some c) => List.length c = 4%nat
  | _ => True
  end.

(** The example list of the docstring of [from_list_file]. *)
Definition docstring_list : list string :=
  ["stream1,rtsp://192.168.1.39:554/stream";
   "stream2,rtsp://192.168.1.40:554/live.sdp";
   "webcam1,usb:0";
   "my_video_file,file:my_video_file.mp4,25"].
End Descriptors.

Section Locality.
Import video_manager.
Variable Frame : Type.
Variable crop : Z -> Z -> Z -> Z -> Frame -> Frame.

(** The worker [s], run by [f], ends stopped, with its backend session
    released and its buffer empty; it stays stopped whatever is done to
    it short of running [start()]; and in an aggregator that holds it at
    position [i], the aggregator's own flag and every other worker are
    what they were. *)
Definition stops_alone (f : VideoStream Frame -> VideoStream Frame)
    (s : VideoStream Frame) : Prop :=
  video_getter_cv2.stopped (f s) = true
  /\ backend_released (f s)
  /\ py.items (Q (f s)) = []
  /\ (forall acts,
        Forall (fun a => calls_start a = false) acts ->
        video_getter_cv2.stopped (run crop acts (f s)) = true)
  /\ (forall (m : VideoManager Frame) (i : nat) (name : string),
        nth_error (videos m) i = Some (mk_video name s) ->
        video_manager.stopped (worker_steps i f m)
        = video_manager.stopped m
        /\ nth_error (videos (worker_steps i f m)) i
           = Some (mk_video name (f s))
        /\ forall j, j <> i ->
             nth_error (videos (worker_steps i f m)) j
             = nth_error (videos m) j).
End Locality.
End props.

(* ================================================================== *)
(** ** Concrete workers and inputs *)

Module samples.
Import video_getter_cv2.

(** Frames are told apart by a number; cropping leaves it alone. *)
Definition crop (l t r b : Z) (f : nat) : nat := f.

Definition blank : VideoStream nat :=
  mk_stream
    (mk_config "" "" (Address "") 0 false 0 None None None false None)
    cv2 false None None true (py.mk_deque [] None) false None None None None
    None None Released Released.

Definition built (r : py.result (VideoStream nat)) : VideoStream nat :=
  match r with inr s => s | inl _ => blank end.

Definition without_reconnect : Options nat :=
  mk_options (Some 3%Z) None 5%Z false None None true 10%Z.

Definition with_resize (g : PyFrame nat -> PyFrame nat) : Options nat :=
  mk_options (Some 3%Z) None 20%Z true (Some g) None true 10%Z.

Definition with_crop (c : list Z) : Options nat :=
  mk_options (Some 3%Z) None 20%Z true None (Some c) true 10%Z.

Definition halve (f : PyFrame nat) : PyFrame nat := option_map Nat.div2 f.

(** Workers as the constructors return them. *)
Definition cam_cv2 : VideoStream nat :=
  built (video_getter_cv2.__init__ "cam1" "rtsp" (Address "rtsp://h/s")
           (-1) (defaults nat) true).

Definition cam_vlc : VideoStream nat :=
  built (video_getter_vlc.__init__ "cam2" "rtsp" (Address "rtsp://h/s")
           (-1) (defaults nat) true).

Definition cam_manual_zero : VideoStream nat :=
  built (video_getter_cv2.__init__ "cam3" "file" (Address "a.mp4")
           0 (defaults nat) true).

Definition cam_resizing : VideoStream nat :=
  built (video_getter_cv2.__init__ "cam4" "usb" (DeviceIndex 0)
           (-1) (with_resize halve) true).

Definition cam_cv2_final : VideoStream nat :=
  built (video_getter_cv2.__init__ "cam5" "file" (Address "a.mp4")
           (-1) without_reconnect true).

Definition cam_vlc_final : VideoStream nat :=
  built (video_getter_vlc.__init__ "cam6" "rtsp" (Address "rtsp://h/s")
           (-1) without_reconnect true).

(** A source that opens and reports 25 frames a second at 640 x 480. *)
Definition probe25 : Probe := mk_probe true 25 640 480 true.

(** A source that opens and reports no frame rate. *)
Definition probe0 : Probe := mk_probe true 0 640 480 true.

(** All five readings of a pass taken at the same moment. *)
Definition at_time (t : Seconds) : Readings := mk_readings t t t t t.
End samples.

(* ================================================================== *)
(** ** Vocabulary of the further properties *)

Module coverage.
Import video_getter_cv2.

(** A deque holds no more than its [maxlen]. *)
Definition fits (A : Type) (d : py.deque A) : Prop :=
  match py.maxlen d with
  | Some n => (py.len d <= n)%nat
  | None => True
  end.

Section Worker.
Variable Frame : Type.

Definition within_capacity (s : VideoStream Frame) : Prop := fits (Q s).

(** The width and height [init_src] settles on: the crop rectangle's when
    there is one, else what the source reports. *)
Definition opened_size (s : VideoStream Frame) (p : Probe) : option (Z * Z) :=
  match frame_crop (cfg s) with
  | None =>
      Some (py.int_of_float (probe_width p), py.int_of_float (probe_height p))
  | Some [l; t; r; b] => Some (r - l, b - t)%Z
  | Some _ => None
  end.

(** What [init_src] assigns, the recorder apart, next to what it reads. *)
Definition opened_part (s : VideoStream Frame) :=
  (cfg s, video_stream_type s, inited s, vidInfo s, fps s, vid_width s,
   vid_height s).

(** [out_vid.release()] *)
Definition released_writer (w : VideoWriter) : VideoWriter :=
  mk_writer (writer_fps w) (writer_size w) true.

(** [s'] is as [init_src] left [s]; its writer may have been released
    since. *)
Definition steady (s' s : VideoStream Frame) : Prop :=
  opened_part s' = opened_part s
  /\ (out_vid s' = out_vid s
      \/ out_vid s' = option_map released_writer (out_vid s)).

(** The crop rectangle, when there is one, has four coordinates. *)
Definition crop_given_fits (s : VideoStream Frame) : Prop :=
  match frame_crop (cfg s) with
  | Some c => List.length c = 4%nat
  | None => True
  end.

(** [vidInfo] says what the attributes say. *)
Definition info_in_step (s : VideoStream Frame) : Prop :=
  match vidInfo s with
  | Some i =>
      fps s = Some (info_fps i)
      /\ vid_width s = Some (info_width i)
      /\ vid_height s = Some (info_height i)
      /\ info_video_feed_name i = video_feed_name (cfg s)
      /\ info_manual_fps_inputted i
         = match manual_video_fps (cfg s) with
           | Some _ => true
           | None => false
           end
      /\ (info_inited i = true -> inited s = true)
      /\ info_fps i <> 0%Z
  | None =>
      inited s = false /\ fps s = None /\ vid_width s = None
      /\ vid_height s = None /\ out_vid s = None
  end.

(** A writer is there only for an inited recording worker of the cv2
    class, made for its frame rate and size. *)
Definition recorder_in_step (s : VideoStream Frame) : Prop :=
  match out_vid s with
  | Some w =>
      video_stream_type s = cv2
      /\ record_source_video (cfg s) = true
      /\ inited s = true
      /\ fps s = Some (writer_fps w)
      /\ vid_width s = Some (fst (writer_size w))
      /\ vid_height s = Some (snd (writer_size w))
  | None => True
  end.

Definition opened_consistently (s : VideoStream Frame) : Prop :=
  crop_given_fits s /\ info_in_step s /\ recorder_in_step s.

(** The one action that runs [init_src] on a worker already inited. *)
Definition probes (a : props.Action Frame) : bool :=
  match a with
  | props.DoInitSrc _ _ => true
  | _ => false
  end.

End Worker.

(** A started worker of capacity 3 that has captured the frames 1 to 5. *)
Definition five_captures : list (props.Action nat) :=
  props.DoStart nat (Some samples.probe25)
  :: map (fun f => props.DoCapture (CaptureFrame f) (samples.at_time 0))
       [1; 2; 3; 4; 5]%nat.

Definition cam_five_captures : VideoStream nat :=
  props.run samples.crop five_captures samples.cam_cv2.

(** A started worker whose first capture failed at the moment 0. *)
Definition one_failure : list (props.Action nat) :=
  [props.DoStart nat (Some samples.probe25);
   props.DoCapture (CaptureNone nat) (samples.at_time 0)].

Definition cam_failing : VideoStream nat :=
  props.run samples.crop one_failure samples.cam_cv2.

(** A started worker that does not reconnect, holds frame 7, and whose
    next capture failed at the moment 0. *)
Definition frame_then_failure : list (props.Action nat) :=
  [props.DoStart nat (Some samples.probe25);
   props.DoCapture (CaptureFrame 7%nat) (samples.at_time 0);
   props.DoCapture (CaptureNone nat) (samples.at_time 0)].

Definition cam_final_failing : VideoStream nat :=
  props.run samples.crop frame_then_failure samples.cam_cv2_final.

Definition cam_started : VideoStream nat :=
  props.run samples.crop [props.DoStart nat (Some samples.probe25)]
    samples.cam_cv2.

Definition cam_vlc_started : VideoStream nat :=
  props.run samples.crop [props.DoStart nat (Some samples.probe25)]
    samples.cam_vlc.

(** A worker that pauses above one buffered frame, holding two. *)
Definition small_cache : Options nat :=
  mk_options (Some 3%Z) None 20%Z true None None true 1%Z.

Definition cam_small_cache : VideoStream nat :=
  samples.built
    (video_getter_cv2.__init__ "cam9" "rtsp" (Address "rtsp://h/s") (-1)
       small_cache true).

Definition cam_pausing : VideoStream nat :=
  props.run samples.crop
    [props.DoStart nat (Some samples.probe25);
     props.DoCapture (CaptureFrame 1%nat) (samples.at_time 0);
     props.DoCapture (CaptureFrame 2%nat) (samples.at_time 0)]
    cam_small_cache.

(** A recording worker, as constructed and once started. *)
Definition recording : Options nat :=
  mk_options (Some 3%Z) (Some "rec") 20%Z true None None true 10%Z.

Definition cam_recording : VideoStream nat :=
  samples.built
    (video_getter_cv2.__init__ "cam7" "rtsp" (Address "rtsp://h/s") (-1)
       recording true).

Definition cam_recording_started : VideoStream nat :=
  props.run samples.crop [props.DoStart nat (Some samples.probe25)]
    cam_recording.

(** A source on which [cv2.VideoWriter] raises, and the recording worker
    started on it. *)
Definition probe_no_writer : Probe := mk_probe true 25 640 480 false.

Definition cam_recording_unwritten : VideoStream nat :=
  props.run samples.crop [props.DoStart nat (Some probe_no_writer)]
    cam_recording.

(** A worker that crops to 10 x 10 and a source that cannot be opened. *)
Definition cam_cropping : VideoStream nat :=
  samples.built
    (video_getter_cv2.__init__ "cam8" "rtsp" (Address "rtsp://h/s") (-1)
       (samples.with_crop [0; 0; 10; 10]%Z) false).

Definition probe_closed : Probe := mk_probe false 0 0 0 true.

(** An aggregator of a usb camera and a file, as constructed. *)
Definition built_manager (r : py.result (video_manager.VideoManager nat))
    : video_manager.VideoManager nat :=
  match r with
  | inr m => m
  | inl _ => video_manager.mk_manager None 0 true []
  end.

Definition two_cameras : video_manager.VideoManager nat :=
  built_manager
    (video_manager.__init__ nat (fun _ => true) ["webcam1"; "b"]
       ["usb"; "file"] [DeviceIndex 0; Address "b.mp4"]
       [inject_Z (-1); inject_Z 25] video_manager.no_kwargs).

(** The lists read off a file with that camera and that file. *)
Definition two_cameras_listing : video_manager.Listing :=
  video_manager.mk_listing ["webcam1"; "b"]
    [DeviceIndex 0; Address "b.mp4"] ["usb"; "file"]
    [inject_Z (-1); inject_Z 25] false.

Definition webcam_listing : video_manager.Listing :=
  video_manager.mk_listing ["webcam1"] [DeviceIndex 0] ["usb"]
    [inject_Z (-1)] false.

Definition opens_at_25 (source : Source) : option Probe :=
  Some samples.probe25.
End coverage.

Unset Implicit Arguments.

(* ================================================================== *)
(** ** The frame buffer *)

Section FrameBuffer.
Import video_getter_cv2 props.
Variable A : Type.

Lemma pop_snoc (d : py.deque A) (l : list A) (x : A) :
  py.items d = l ++ [x] ->
  py.pop d = inr (x, py.mk_deque l (py.maxlen d)).
Proof.
  intros H. unfold py.pop. rewrite H.
  destruct l as [|a l'].
  - reflexivity.
  - cbn [app]. unfold py.ret. do 2 f_equal.
    + apply last_last.
    + f_equal. change (a :: l' ++ [x]) with ((a :: l') ++ [x]).
      apply removelast_last.
Qed.

End FrameBuffer.

Section BufferedReads.
Import video_getter_cv2 props.
Variable Frame : Type.

Abbreviation VideoStream := (video_getter_cv2.VideoStream Frame).

Lemma more_items (s : VideoStream) :
  more s = match py.items (Q s) with [] => false | _ :: _ => true end.
Proof. reflexivity. Qed.

Lemma read_oldest (s : VideoStream) (l : list (PyFrame Frame)) (x : PyFrame Frame) :
  py.items (Q s) = l ++ [x] ->
  read s = inr (delivered s x,
                set_currentFrame (delivered s x)
                  (set_Q (py.mk_deque l (py.maxlen (Q s))) s)).
Proof.
  intros H. unfold read.
  assert (Hm : more s = true).
  { rewrite more_items, H. destruct l; reflexivity. }
  rewrite Hm, pop_snoc with (l := l) (x := x) by exact H.
  cbn [py.bind py.ret fst snd].
  unfold delivered. cbn. destruct (resize_fn (cfg s)); reflexivity.
Qed.




Lemma constructed_empty (name type : string) (source : Source) (manual : Z)
    (kw : Options Frame) (opened : bool) (s : VideoStream) :
  video_getter_cv2.__init__ name type source manual kw opened = inr s ->
  py.items (Q s) = []
  /\ py.maxlen (Q s) = option_map Z.to_nat (kw_queue_size kw)
  /\ video_getter_cv2.stopped s = true
  /\ currentFrame s = None
  /\ video_stream_type s = cv2.
Proof.
  unfold video_getter_cv2.__init__, py.deque_new.
  destruct (kw_queue_size kw) as [z|]; [destruct (z <? 0)%Z|];
    cbn; try discriminate;
    (destruct (kw_frame_crop kw) as [c|];
     [destruct (List.length c =? 4)%nat|]; cbn; try discriminate;
     intros E; injection E as <-; cbn; repeat split; reflexivity).
Qed.
End BufferedReads.

Lemma cam_cv2_constructed :
  video_getter_cv2.__init__ "cam1" "rtsp"
    (video_getter_cv2.Address "rtsp://h/s") (-1)
    (video_getter_cv2.defaults nat) true
  = inr samples.cam_cv2.
Proof. reflexivity. Qed.



(* ================================================================== *)
(** ** The aggregator's read *)

Section ManagerRead.
Import video_getter_cv2 video_manager props.
Variable Frame : Type.

Lemma read_all_spec (vs : list (Video Frame)) :
  read_all vs = inr (map (@after_read Frame) vs, map (@entry_of Frame) vs, []).
Proof.
  induction vs as [|v vs IH].
  - reflexivity.
  - cbn [read_all map]. rewrite IH. destruct v as [name s].
    assert (Ha : after_read (mk_video name s)
                 = if more s then mk_video name (popped s)
                   else mk_video name s) by reflexivity.
    assert (He : entry_of (mk_video name s)
                 = if more s then Delivered (delivered s (oldest s))
                   else EmptyMarker Frame) by reflexivity.
    rewrite Ha, He. clear Ha He. cbn [stream video_feed_name].
    destruct (more s) eqn:Hm.
    + rewrite more_items in Hm.
      destruct (exists_last (l := py.items (Q s))) as [l [x Hx]].
      { intros E. rewrite E in Hm. discriminate. }
      cbn [negb]. rewrite (read_oldest Frame s l x Hx).
      unfold popped, oldest. rewrite Hx, last_last, removelast_last.
      reflexivity.
    + reflexivity.
Qed.

(** C2: [VideoManager.read] returns one entry per configured source, in
    configuration order: the oldest buffered frame (through the resize hook
    when there is one) popped from every worker that has one, the empty
    marker for every worker whose buffer is empty, that worker being left
    exactly as it was; it raises nothing and neither sleeps nor starts a
    thread. *)
Theorem manager_read_entries (m : VideoManager Frame) :
  video_manager.read m
  = inr (mk_manager (max_height m) (num_vid_streams m)
           (video_manager.stopped m) (map (@after_read Frame) (videos m)),
         map (@entry_of Frame) (videos m), [])
  /\ List.length (map (@entry_of Frame) (videos m)) = List.length (videos m)
  /\ (forall (i : nat) (v : Video Frame),
        nth_error (videos m) i = Some v ->
        nth_error (map (@entry_of Frame) (videos m)) i = Some (entry_of v)
        /\ nth_error (map (@after_read Frame) (videos m)) i
           = Some (after_read v)
        /\ (py.items (Q (stream v)) = [] ->
            entry_of v = EmptyMarker Frame /\ after_read v = v)
        /\ (forall l x, py.items (Q (stream v)) = l ++ [x] ->
            entry_of v = Delivered (delivered (stream v) x)
            /\ py.items (Q (stream (after_read v))) = l
            /\ currentFrame (stream (after_read v))
               = delivered (stream v) x)).
Proof.
  split; [|split].
  - unfold video_manager.read. rewrite read_all_spec. reflexivity.
  - apply length_map.
  - intros i v Hv. repeat split.
    + now apply map_nth_error.
    + now apply map_nth_error.
    + unfold entry_of. rewrite more_items, H. reflexivity.
    + unfold after_read. rewrite more_items, H. reflexivity.
    + unfold entry_of, oldest. rewrite more_items, H, last_last.
      destruct l; reflexivity.
    + unfold after_read, popped. rewrite more_items, H, removelast_last.
      destruct l; reflexivity.
    + unfold after_read, popped, oldest.
      rewrite more_items, H, last_last. destruct l; reflexivity.
Qed.
End ManagerRead.

(** C2, witness: an aggregator of two sources, the first holding the
    frames 1 and 2, the second none. *)
Lemma manager_read_entries_witness :
  exists m',
    video_manager.read
      (video_manager.mk_manager None 2
         false
         [video_manager.mk_video "cam1"
            (props.insert_all [1; 2]%nat samples.cam_cv2);
          video_manager.mk_video "cam2" samples.cam_vlc])
    = inr (m', [video_manager.Delivered (Some 1%nat);
                video_manager.EmptyMarker nat], [])
    /\ map (fun v => py.items (video_getter_cv2.Q (video_manager.stream v)))
         (video_manager.videos m')
       = [[Some 2%nat]; []].
Proof.
  destruct (manager_read_entries nat
              (video_manager.mk_manager None 2
                 false
                 [video_manager.mk_video "cam1"
                    (props.insert_all [1; 2]%nat samples.cam_cv2);
                  video_manager.mk_video "cam2" samples.cam_vlc]))
    as [H _].
  eexists. split; [exact H|reflexivity].
Defined.

(* ================================================================== *)
(** ** Construction and reading on an empty buffer *)

Section ConstructionAndRead.
Import video_getter_cv2 video_manager props.
Variable Frame : Type.

(** C9, amended: the constructor checks the crop rectangle for its length
    only.  Given a buffer capacity the deque accepts, a rectangle of four
    coordinates is stored as it is, whatever their values, and a rectangle
    of any other length fails the assertion. *)
Theorem crop_checked_for_length (name type : string) (source : Source)
    (manual : Z) (kw : Options Frame) (opened : bool) (c : list Z)
    (q : py.deque (PyFrame Frame)) :
  kw_frame_crop kw = Some c ->
  py.deque_new (PyFrame Frame) (kw_queue_size kw) = inr q ->
  (List.length c = 4%nat ->
   exists s, video_getter_cv2.__init__ name type source manual kw opened
             = inr s
             /\ video_getter_cv2.frame_crop (cfg s) = Some c)
  /\ (List.length c <> 4%nat ->
      video_getter_cv2.__init__ name type source manual kw opened
      = inl py.AssertionError).
Proof.
  intros Hc Hq. unfold video_getter_cv2.__init__. rewrite Hq, Hc.
  cbn [py.bind]. split; intros Hl.
  - rewrite Hl. cbn. eexists. split; reflexivity.
  - destruct (Nat.eqb_spec (List.length c) 4); [contradiction|reflexivity].
Qed.

End ConstructionAndRead.

Section EmptyRead.
Import video_getter_cv2 props.
Variable Frame : Type.

Lemma read_empty_result (s : VideoStream Frame) :
  py.items (Q s) = [] ->
  video_getter_cv2.read s
  = inr (delivered s (currentFrame s),
        set_currentFrame (delivered s (currentFrame s)) s).
Proof.
  intros H. unfold video_getter_cv2.read, delivered.
  rewrite more_items, H. cbn [py.bind py.ret].
  destruct s; cbn in *. destruct (resize_fn cfg0); reflexivity.
Qed.
End EmptyRead.

(** C9, witness: the rectangle (-10, -10, 5, 5) gets through. *)
Lemma crop_checked_for_length_witness :
  (video_getter_cv2.kw_frame_crop (samples.with_crop [-10; -10; 5; 5]%Z)
   = Some [-10; -10; 5; 5]%Z
   /\ py.deque_new (video_getter_cv2.PyFrame nat)
        (video_getter_cv2.kw_queue_size (samples.with_crop [-10; -10; 5; 5]%Z))
      = inr (py.mk_deque [] (Some 3%nat))
   /\ List.length [-10; -10; 5; 5]%Z = 4%nat)
  /\ exists s,
       video_getter_cv2.__init__ "cam" "usb" (video_getter_cv2.DeviceIndex 0)
         (-1) (samples.with_crop [-10; -10; 5; 5]%Z) true = inr s
       /\ video_getter_cv2.frame_crop (video_getter_cv2.cfg s)
          = Some [-10; -10; 5; 5]%Z.
Proof.
  split; [repeat split|].
  apply (crop_checked_for_length nat "cam" "usb"
           (video_getter_cv2.DeviceIndex 0) (-1)
           (samples.with_crop [-10; -10; 5; 5]%Z) true [-10; -10; 5; 5]%Z
           (py.mk_deque [] (Some 3%nat)));
    reflexivity.
Defined.

(** C9 as worded fails: a rectangle with negative coordinates is accepted. *)
Lemma negative_crop_accepted :
  ~ props.rejects_negative_crop nat [-10; -10; 5; 5]%Z.
Proof.
  intros H.
  specialize (H eq_refl "cam" "usb" (video_getter_cv2.DeviceIndex 0) (-1)%Z
                (samples.with_crop [-10; -10; 5; 5]%Z) true eq_refl).
  vm_compute in H. discriminate.
Qed.

(** A worker with a halving resize hook that has delivered frame 16 (as 8)
    and whose buffer is empty again. *)
Lemma cam_resizing_after_one_read :
  video_getter_cv2.read (props.insert samples.cam_resizing 16%nat)
  = inr (Some 8%nat,
         props.act samples.crop (props.DoRead nat)
           (props.insert samples.cam_resizing 16%nat)).
Proof. reflexivity. Qed.



(* ================================================================== *)
(** ** Frame rate and pacing *)

Section FrameRate.
Import video_getter_cv2 props.
Variable Frame : Type.
Variable crop : Z -> Z -> Z -> Z -> Frame -> Frame.

Ltac break_match :=
  match goal with
  | |- context [match ?x with _ => _ end] => destruct x eqn:?
  end.

Lemma init_src_with_fps
    (recorder : Probe -> VideoStream Frame -> py.result (VideoStream Frame))
    (s : VideoStream Frame) (p : Probe) :
  (forall q t, fps t <> None ->
     match recorder q t with inr t' => fps t' = fps t | inl _ => True end) ->
  fps (init_src_with recorder s (Some p))
  = Some (opened_fps (manual_video_fps (cfg s)) p).
Proof.
  intros Hrec. unfold init_src_with, init_src_try, opened_fps.
  destruct s as [c ty so pa pr st q i vi f w h o cf vp vin].
  destruct c as [n sty sr thr dr mc rf mf rd rs fc]. cbn.
  assert (Hset : forall v (t : VideoStream Frame),
             fps (set_fps (Some v) t) = Some v) by reflexivity.
  destruct mf as [m|]; [destruct (m =? 0)%Z|];
    (destruct fc as [[|l [|t [|r [|b [|x fc]]]]]|]; cbn;
     try reflexivity).
  all: repeat (break_match; cbn; try reflexivity).
  all: match goal with
       | H : _ ?q ?t = inr ?t' |- fps ?t' = _ =>
           let K := fresh in
           pose proof (Hrec q t) as K; rewrite H in K; rewrite K
       end.
  all: destruct (negb _); cbn; (reflexivity || discriminate).
Qed.

Lemma init_src_fps (s : VideoStream Frame) (p : Probe) :
  fps (init_src s (Some p)) = Some (opened_fps (manual_video_fps (cfg s)) p).
Proof.
  apply init_src_with_fps. intros q t Ht. unfold init_src_recorder.
  destruct (record_source_video (cfg t) && inited t)%bool; [|reflexivity].
  destruct (fps t) eqn:E, (vid_width t), (vid_height t); try exact I.
  destruct (probe_writer q); [|exact I]. cbn. exact E.
Qed.

Lemma opened_fps_nonzero (manual : option Z) (p : Probe) :
  opened_fps manual p <> 0%Z.
Proof.
  unfold opened_fps.
  destruct manual as [m|];
    [destruct (Z.eqb_spec m 0); [|assumption]|];
    destruct (Z.eqb_spec (py.int_of_float (probe_fps p)) 0); lia.
Qed.

Lemma int_of_float_zero (q : Float) : (q == 0)%Q -> py.int_of_float q = 0%Z.
Proof.
  unfold Qeq, py.int_of_float. cbn. intros H.
  replace (Qnum q) with 0%Z by lia. apply Z.quot_0_l. discriminate.
Qed.

(** C8, amended: after [init_src] of the continuous worker, a source that
    reports a frame rate of zero with no manual frame rate gives the frame
    rate 30; a manual frame rate other than zero is used unchanged; a
    manual frame rate of zero is treated as if none had been supplied, the
    source's rate (or 30) being used; and in every case the frame rate is
    not zero, so the pacing sleep does not divide by zero. *)
Theorem frame_rate_after_open (s : VideoStream Frame) (p : Probe) :
  (manual_video_fps (cfg s) = None -> (probe_fps p == 0)%Q ->
   fps (init_src s (Some p)) = Some 30%Z)
  /\ (forall m, manual_video_fps (cfg s) = Some m -> m <> 0%Z ->
                fps (init_src s (Some p)) = Some m)
  /\ (manual_video_fps (cfg s) = Some 0%Z ->
      fps (init_src s (Some p)) = Some (opened_fps None p))
  /\ fps (init_src s (Some p)) <> Some 0%Z
  /\ pacing (init_src s (Some p)) <> inl py.ZeroDivisionError.
Proof.
  rewrite (init_src_fps s p). repeat split.
  - intros Hm Hz. rewrite Hm. unfold opened_fps.
    now rewrite (int_of_float_zero _ Hz).
  - intros m Hm Hne. rewrite Hm. unfold opened_fps.
    destruct (Z.eqb_spec m 0); [contradiction|reflexivity].
  - intros Hm. rewrite Hm. reflexivity.
  - intros E. injection E as E. now apply opened_fps_nonzero in E.
  - unfold pacing. rewrite (init_src_fps s p).
    destruct (Z.eqb_spec (opened_fps (manual_video_fps (cfg s)) p) 0) as [E|_].
    + now apply opened_fps_nonzero in E.
    + destruct (_ <? 0)%Z; discriminate.
Qed.

End FrameRate.

Lemma cam_vlc_constructed :
  video_getter_vlc.__init__ "cam2" "rtsp"
    (video_getter_cv2.Address "rtsp://h/s") (-1)
    (video_getter_cv2.defaults nat) true
  = inr samples.cam_vlc.
Proof. reflexivity. Qed.

Lemma cam_manual_zero_constructed :
  video_getter_cv2.__init__ "cam3" "file" (video_getter_cv2.Address "a.mp4")
    0 (video_getter_cv2.defaults nat) true
  = inr samples.cam_manual_zero
  /\ video_getter_cv2.manual_video_fps
       (video_getter_cv2.cfg samples.cam_manual_zero) = Some 0%Z.
Proof. split; reflexivity. Qed.

(** C8, witness: a source that reports no frame rate, and no manual one. *)
Lemma frame_rate_after_open_witness :
  (video_getter_cv2.manual_video_fps (video_getter_cv2.cfg samples.cam_cv2)
   = None
   /\ (video_getter_cv2.probe_fps samples.probe0 == 0)%Q)
  /\ video_getter_cv2.fps
       (video_getter_cv2.init_src samples.cam_cv2 (Some samples.probe0))
     = Some 30%Z.
Proof.
  split; [split; reflexivity|].
  destruct (frame_rate_after_open nat samples.cam_cv2 samples.probe0)
    as [H _].
  apply H; reflexivity.
Defined.

(** C8 as worded fails: a manual frame rate of 0 is supplied, and the worker
    runs at the 25 frames a second the source reports. *)
Lemma manual_zero_not_used :
  ~ props.manual_fps_used_unchanged samples.cam_manual_zero samples.probe25.
Proof.
  intros H. specialize (H 0%Z eq_refl). vm_compute in H. discriminate.
Qed.


(** A worker started while [cv2.VideoCapture] raised has no frame rate: a
    pass that captures a frame inserts it and does not sleep. *)
Example unopened_worker_does_not_pace :
  video_getter_cv2.fps (fst (dispatch.start samples.cam_cv2 None)) = None
  /\ video_getter_cv2.get_iter samples.crop
       (fst (dispatch.start samples.cam_cv2 None))
       (video_getter_cv2.CaptureFrame 7%nat) (samples.at_time 0)
     = (video_getter_cv2.set_printTime (Some 0)
          (video_getter_cv2.set_pauseTime (Some 0)
             (props.insert (fst (dispatch.start samples.cam_cv2 None))
                7%nat)),
        [], video_getter_cv2.Next).
Proof. split; reflexivity. Qed.


(* ================================================================== *)
(** ** Life cycle of a worker *)

Section LifecycleFacts.
Import video_getter_cv2 props.
Variable Frame : Type.
Variable crop : Z -> Z -> Z -> Z -> Frame -> Frame.

Ltac setters :=
  unfold set_video_stream_type, set_stream_opened, set_pauseTime,
    set_printTime, set_stopped, set_Q, set_inited, set_vidInfo, set_fps,
    set_size, set_out_vid, set_currentFrame, set_vlc in *;
  cbn in *.

Ltac break_match :=
  match goal with
  | |- context [match ?x with _ => _ end] => destruct x eqn:?
  end.

Lemma cleared_items (s : VideoStream Frame) :
  py.items (Q (if more s then set_Q (py.clear (Q s)) s else s)) = [].
Proof.
  rewrite more_items. destruct (py.items (Q s)) eqn:E; [exact E|reflexivity].
Qed.

Lemma cv2_stop_settles (s : VideoStream Frame) :
  video_getter_cv2.stopped s = false ->
  py.items (Q (fst (video_getter_cv2.stop s))) = []
  /\ video_getter_cv2.stopped (fst (video_getter_cv2.stop s)) = true
  /\ stream_opened (fst (video_getter_cv2.stop s)) = false
  /\ video_stream_type (fst (video_getter_cv2.stop s)) = video_stream_type s.
Proof.
  intros H. unfold video_getter_cv2.stop. rewrite H. cbn [fst].
  set (s2 := set_stream_opened false (set_stopped true s)).
  pose proof (cleared_items s2) as Hc.
  destruct (more s2); destruct (out_vid _); setters; auto.
Qed.

Lemma vlc_stop_settles (s : VideoStream Frame) :
  video_getter_cv2.stopped s = false ->
  py.items (Q (fst (video_getter_vlc.stop s))) = []
  /\ video_getter_cv2.stopped (fst (video_getter_vlc.stop s)) = true
  /\ vlc_player (fst (video_getter_vlc.stop s)) = Released
  /\ vlc_instance (fst (video_getter_vlc.stop s)) = Released
  /\ video_stream_type (fst (video_getter_vlc.stop s)) = video_stream_type s.
Proof.
  intros H. unfold video_getter_vlc.stop. rewrite H. cbn [fst].
  set (s1 := set_stopped true s).
  pose proof (cleared_items s1) as Hc.
  destruct (more s1); setters; auto.
Qed.

(** The attributes [init_src] leaves alone. *)
Lemma init_src_with_keeps
    (recorder : Probe -> VideoStream Frame -> py.result (VideoStream Frame))
    (s : VideoStream Frame) (p : option Probe) :
  (forall q t, match recorder q t with
               | inr t' => same_run t' t
               | inl _ => True
               end) ->
  same_run (init_src_with recorder s p) s.
Proof.
  intros Hrec. destruct p as [p|]; [|repeat split].
  unfold init_src_with, init_src_try.
  destruct s as [c ty so pa pr st q i vi f w h o cf vp vin].
  destruct c as [n sty sr thr dr mc rf mf rd rs fc]. cbn.
  destruct mf as [m|]; [destruct (m =? 0)%Z|];
    (destruct fc as [[|l [|t [|r [|b [|x fc]]]]]|]; cbn;
     try (repeat split; reflexivity)).
  all: repeat (break_match; cbn; try (repeat split; reflexivity)).
  all: match goal with
       | H : _ ?q ?t = inr ?t' |- _ =>
           let K := fresh in
           pose proof (Hrec q t) as K; rewrite H in K;
           unfold same_run in *;
           destruct K as (-> & -> & -> & -> & -> & ->)
       end.
  all: destruct (negb _); cbn; repeat split; reflexivity.
Qed.

Lemma init_src_keeps (s : VideoStream Frame) (p : option Probe) :
  same_run (dispatch.init_src s p) s.
Proof.
  unfold dispatch.init_src.
  destruct (video_stream_type s); apply init_src_with_keeps; intros q t.
  - unfold init_src_recorder.
    destruct (record_source_video (cfg t) && inited t)%bool;
      [|repeat split; reflexivity].
    destruct (fps t), (vid_width t), (vid_height t); try exact I.
    destruct (probe_writer q); [|exact I].
    repeat split; reflexivity.
  - repeat split; reflexivity.
Qed.

Lemma start_starts (s : VideoStream Frame) (p : option Probe) :
  Q (fst (dispatch.start s p)) = Q s
  /\ video_getter_cv2.stopped (fst (dispatch.start s p)) = false.
Proof.
  pose proof (init_src_keeps s p) as [Hq _].
  unfold dispatch.start, dispatch.init_src in *.
  unfold video_getter_cv2.start, video_getter_vlc.start, start_with.
  destruct (video_stream_type s), (inited s); cbn; auto.
Qed.

Lemma countdown_settled
    (stop_of : VideoStream Frame -> VideoStream Frame * list Effect)
    (s : VideoStream Frame) (clk : Readings) :
  (forall t, video_getter_cv2.stopped t = false ->
             py.items (Q (fst (stop_of t))) = []) ->
  video_getter_cv2.stopped s = false ->
  video_getter_cv2.stopped (fst (fst (countdown stop_of s clk))) = false
  \/ py.items (Q (fst (fst (countdown stop_of s clk)))) = [].
Proof.
  intros Hstop Hs. unfold countdown.
  destruct s as [c ty so pa pr st q i vi f w h o cf vp vin].
  cbn in Hs. subst st.
  destruct pa as [pa|]; cbn; [destruct pr as [pr|]; cbn|];
    repeat (break_match; cbn); auto;
    right; apply Hstop; reflexivity.
Qed.

Lemma cv2_get_try_stopped (s : VideoStream Frame) (c : Capture Frame) :
  video_getter_cv2.stopped (fst (fst (video_getter_cv2.get_try crop s c)))
  = video_getter_cv2.stopped s.
Proof.
  unfold video_getter_cv2.get_try.
  repeat (break_match; cbn); reflexivity.
Qed.

Lemma vlc_get_try_stopped (s : VideoStream Frame)
    (c : video_getter_vlc.Snapshot Frame) :
  video_getter_cv2.stopped (fst (fst (video_getter_vlc.get_try crop s c)))
  = video_getter_cv2.stopped s.
Proof.
  unfold video_getter_vlc.get_try.
  repeat (break_match; cbn); reflexivity.
Qed.

Lemma cv2_get_iter_settled (s : VideoStream Frame) (c : Capture Frame)
    (clk : Readings) :
  settled s ->
  settled (fst (fst (video_getter_cv2.get_iter crop s c clk))).
Proof.
  intros Hs. unfold video_getter_cv2.get_iter.
  destruct (video_getter_cv2.stopped s) eqn:E; [exact Hs|].
  pose proof (cv2_get_try_stopped s c) as Ht. rewrite E in Ht.
  destruct (video_getter_cv2.get_try crop s c) as [[s1 eff] [[|]|]];
    cbn [fst] in *.
  - intros K. setters. congruence.
  - pose proof (countdown_settled (@video_getter_cv2.stop Frame) s1 clk
                  (fun t H => proj1 (cv2_stop_settles t H)) Ht) as K.
    destruct (countdown (@video_getter_cv2.stop Frame) s1 clk)
      as [[s2 e2] ctl].
    cbn [fst] in *. intros K'. destruct K as [K|K]; [congruence|exact K].
  - intros K. congruence.
Qed.

Lemma vlc_get_iter_settled (s : VideoStream Frame)
    (c : video_getter_vlc.Snapshot Frame) (clk : Readings) :
  settled s ->
  settled (fst (fst (video_getter_vlc.get_iter crop s c clk))).
Proof.
  intros Hs. unfold video_getter_vlc.get_iter.
  destruct (video_getter_cv2.stopped s) eqn:E; [exact Hs|].
  pose proof (vlc_get_try_stopped s c) as Ht. rewrite E in Ht.
  destruct (video_getter_vlc.get_try crop s c) as [[s1 eff] [[|]|]];
    cbn [fst] in *.
  - intros K. setters. congruence.
  - pose proof (countdown_settled (@video_getter_vlc.stop Frame) s1 clk
                  (fun t H => proj1 (vlc_stop_settles t H)) Ht) as K.
    destruct (countdown (@video_getter_vlc.stop Frame) s1 clk)
      as [[s2 e2] ctl].
    cbn [fst] in *. intros K'. destruct K as [K|K]; [congruence|exact K].
  - intros K. congruence.
Qed.

Lemma stop_settles (s : VideoStream Frame) :
  settled s ->
  py.items (Q (fst (dispatch.stop s))) = []
  /\ video_getter_cv2.stopped (fst (dispatch.stop s)) = true.
Proof.
  intros Hs. unfold dispatch.stop.
  destruct (video_getter_cv2.stopped s) eqn:E.
  - unfold video_getter_cv2.stop, video_getter_vlc.stop. rewrite E.
    destruct (video_stream_type s); cbn [fst]; auto.
  - destruct (video_stream_type s).
    + destruct (cv2_stop_settles s E) as [H1 [H2 _]]. auto.
    + destruct (vlc_stop_settles s E) as [H1 [H2 _]]. auto.
Qed.

Lemma read_keeps (s : VideoStream Frame) :
  exists v s', video_getter_cv2.read s = inr (v, s')
               /\ video_getter_cv2.stopped s' = video_getter_cv2.stopped s
               /\ (py.items (Q s) = [] -> py.items (Q s') = []).
Proof.
  destruct (py.items (Q s)) as [|y l] eqn:E.
  - pose proof (read_empty_result Frame s E) as H.
    do 2 eexists. split; [exact H|]. split; [reflexivity|].
    intros _. exact E.
  - destruct (exists_last (l := y :: l)) as [l' [x Hx]]; [discriminate|].
    rewrite Hx in E.
    do 2 eexists. split; [exact (read_oldest Frame s l' x E)|].
    split; [reflexivity|]. intros K. destruct l'; discriminate.
Qed.

Lemma act_settled (a : Action Frame) (s : VideoStream Frame) :
  settled s -> settled (act crop a s).
Proof.
  intros Hs. destruct a as [p| | |p| |c clk| |c clk|tries p1 p2]; cbn [act].
  - intros K. destruct (start_starts s p) as [_ H]. congruence.
  - intros _. now apply stop_settles.
  - destruct (read_keeps s) as [v [s' [Hr [Hst Hq]]]]. rewrite Hr. cbn [snd].
    intros K. apply Hq, Hs. congruence.
  - destruct (init_src_keeps s p) as [Hq [Hst _]].
    intros K. rewrite Hq. apply Hs. congruence.
  - exact Hs.
  - destruct (video_stream_type s);
      [now apply cv2_get_iter_settled | exact Hs].
  - destruct (video_stream_type s); [exact Hs|].
    intros K. apply Hs. exact K.
  - destruct (video_stream_type s);
      [exact Hs | now apply vlc_get_iter_settled].
  - destruct (video_stream_type s) eqn:Ety.
    + unfold video_getter_cv2.reconnect.
      destruct (reopen tries) as [o|].
      * intros K. exfalso. revert K. cbn [fst].
        unfold video_getter_cv2.start, start_with.
        destruct (inited _); cbn; discriminate.
      * intros _. unfold reconnect_release.
        apply (cleared_items (set_stream_opened false s)).
    + intros K. exfalso. revert K.
      unfold video_getter_vlc.reconnect, video_getter_vlc.start, start_with.
      destruct (inited _); cbn; discriminate.
Qed.

Lemma run_settled (acts : list (Action Frame)) :
  forall s, settled s -> settled (run crop acts s).
Proof.
  induction acts as [|a acts IH]; intros s Hs; [exact Hs|].
  cbn [run fold_left]. apply IH. now apply act_settled.
Qed.

Lemma constructed_settled (s : VideoStream Frame) :
  constructed s -> settled s.
Proof.
  intros [name [type [source [manual [kw [opened [H|H]]]]]]] _.
  - now apply constructed_empty in H.
  - unfold video_getter_vlc.__init__ in H.
    destruct (video_getter_cv2.__init__ _ _ _ _ _ _) as [e|s0] eqn:E;
      [discriminate|].
    apply constructed_empty in E. destruct E as [E _].
    cbn in H. injection H as <-. exact E.
Qed.

(** C7: for every worker the program can hold, [stop()] followed at once by
    [start()] leaves the frame buffer empty, whatever had been inserted
    before. *)
Theorem restart_starts_empty (s : VideoStream Frame) (p : option Probe) :
  reachable crop s ->
  py.items (Q (act crop (DoStart Frame p) (act crop (DoStop Frame) s))) = []
  /\ video_getter_cv2.stopped
       (act crop (DoStart Frame p) (act crop (DoStop Frame) s)) = false.
Proof.
  intros [s0 [acts [Hc ->]]].
  assert (Hs : settled (run crop acts s0))
    by (apply run_settled, constructed_settled, Hc).
  cbn [act].
  destruct (start_starts (fst (dispatch.stop (run crop acts s0))) p)
    as [Hq Hst].
  rewrite Hq. split; [|exact Hst]. now apply stop_settles.
Qed.

Ltac fields :=
  unfold set_video_stream_type, set_stream_opened, set_pauseTime,
    set_printTime, set_stopped, set_Q, set_inited, set_vidInfo, set_fps,
    set_size, set_out_vid, set_currentFrame, set_vlc, failing_since,
    threshold_reached, more, py.truth, reconnect_start in *;
  cbn [cfg video_stream_type stream_opened pauseTime printTime
       video_getter_cv2.stopped Q inited vidInfo fps vid_width vid_height
       out_vid currentFrame vlc_player vlc_instance fst snd
       video_getter_cv2.reconnect_threshold_sec
       video_getter_cv2.do_reconnect py.items negb] in *.

Lemma threshold_test (thr : Z) (t since : Seconds) :
  Qle_bool (inject_Z thr - (t - since)) 0 = true
  <-> (inject_Z thr <= t - since)%Q.
Proof. rewrite Qle_bool_iff. split; intros H; lra. Qed.

(** The failure branch on a worker that does not reconnect and holds no
    frame: it stops the worker once the threshold is reached, and before
    that only keeps the timers. *)
Lemma countdown_failing
    (stop_of : VideoStream Frame -> VideoStream Frame * list Effect)
    (s : VideoStream Frame) (clk : Readings) :
  video_getter_cv2.stopped s = false ->
  video_getter_cv2.do_reconnect (cfg s) = false ->
  py.items (Q s) = [] ->
  timers_paired s ->
  exists s2,
    (Q s2 = Q s /\ video_getter_cv2.stopped s2 = false /\ cfg s2 = cfg s
     /\ video_stream_type s2 = video_stream_type s
     /\ pauseTime s2 = Some (failing_since s clk)
     /\ timers_paired s2)
    /\ (threshold_reached s (failing_since s clk) clk ->
        countdown stop_of s clk = (fst (stop_of s2), snd (stop_of s2), Exit))
    /\ (~ threshold_reached s (failing_since s clk) clk ->
        countdown stop_of s clk = (s2, [], Next)).
Proof.
  intros Hs Hr Hq Hp. unfold countdown, timers_paired in *.
  destruct s as [c ty so pa pr st q i vi f w h o cf vp vin].
  fields. subst st.
  assert (Hcase : exists p r,
             (pa = Some p /\ pr = Some r)
             \/ (pa = None /\ p = t_pause clk /\ r = t_print clk)).
  { destruct pa as [p|].
    - destruct pr as [r|]; [|specialize (Hp eq_refl); congruence].
      exists p, r. now left.
    - exists (t_pause clk), (t_print clk). now right. }
  destruct Hcase as [p [r [[-> ->]|[-> [-> ->]]]]]; fields.
  all: match goal with
       | |- context [if (?a && ?b)%bool then _ else _] =>
           destruct (a && b)%bool
       end.
  all: match goal with
       | |- context [(fst (_ ?x), snd (_ ?x), Exit)] => exists x
       end; split;
    [repeat split; try reflexivity; fields; intros K; discriminate K|].
  all: fields; rewrite Hr, Hq; split; intros Hth.
  all: try (apply threshold_test in Hth; rewrite Hth; reflexivity).
  all: destruct (Qle_bool _ 0) eqn:E; [|reflexivity];
    apply threshold_test in E; contradiction.
Qed.

Lemma threshold_reached_dec (s : VideoStream Frame) (since : Seconds)
    (clk : Readings) :
  threshold_reached s since clk \/ ~ threshold_reached s since clk.
Proof.
  unfold threshold_reached.
  destruct (Qlt_le_dec (t_since_pause clk - since)
              (inject_Z (video_getter_cv2.reconnect_threshold_sec (cfg s))))
    as [H|H]; [right|left; exact H].
  intros K. apply (Qlt_not_le _ _ H). exact K.
Qed.

Lemma countdown_failing_pass
    (stop_of : VideoStream Frame -> VideoStream Frame * list Effect)
    (s : VideoStream Frame) (clk : Readings) :
  idle_without_reconnect s ->
  failing_pass stop_of s clk
    (match countdown stop_of s clk with
     | (s2, eff2, ctl) => (s2, [] ++ eff2, ctl)
     end).
Proof.
  intros (Hs & Hr & Hq & Hp).
  destruct (countdown_failing stop_of s clk Hs Hr Hq Hp)
    as [s2 [(H1 & H2 & H3 & H4 & H5 & H6) [Hyes Hno]]].
  exists s2. split; [|split].
  - repeat split; try assumption.
    + now rewrite H3.
    + now rewrite H1.
  - intros Hth. now rewrite (Hyes Hth).
  - intros Hth. now rewrite (Hno Hth).
Qed.

Lemma cv2_failing_pass (s : VideoStream Frame) (c : Capture Frame)
    (clk : Readings) :
  idle_without_reconnect s ->
  (0 <= max_cache (cfg s))%Z ->
  capture_fails c = true ->
  failing_pass (@video_getter_cv2.stop Frame) s clk
    (video_getter_cv2.get_iter crop s c clk).
Proof.
  intros Hi Hm Hc.
  pose proof (countdown_failing_pass (@video_getter_cv2.stop Frame) s clk Hi)
    as H.
  destruct Hi as (Hs & Hr & Hq & Hp).
  unfold video_getter_cv2.get_iter, video_getter_cv2.get_try, py.len.
  rewrite Hs, Hq. cbn [List.length Z.of_nat].
  destruct (Z.ltb_spec (max_cache (cfg s)) 0); [lia|].
  destruct c; [discriminate| |]; exact H.
Qed.

Lemma vlc_failing_pass (s : VideoStream Frame)
    (c : video_getter_vlc.Snapshot Frame) (clk : Readings) :
  idle_without_reconnect s ->
  snapshot_fails c = true ->
  failing_pass (@video_getter_vlc.stop Frame) s clk
    (video_getter_vlc.get_iter crop s c clk).
Proof.
  intros Hi Hc.
  pose proof (countdown_failing_pass (@video_getter_vlc.stop Frame) s clk Hi)
    as H.
  destruct Hi as (Hs & Hr & Hq & Hp).
  unfold video_getter_vlc.get_iter, video_getter_vlc.get_try.
  rewrite Hs. destruct c; [discriminate| |]; exact H.
Qed.

Lemma threshold_reached_cfg (s s2 : VideoStream Frame) (since : Seconds)
    (clk : Readings) :
  cfg s2 = cfg s ->
  threshold_reached s since clk -> threshold_reached s2 since clk.
Proof. unfold threshold_reached. now intros ->. Qed.

(** The continuous loop, once the failures have begun at [since]. *)
Lemma cv2_get_counting (io : list (Capture Frame * Readings)) :
  forall (s : VideoStream Frame) (since : Seconds),
    idle_without_reconnect s ->
    video_stream_type s = cv2 ->
    (0 <= max_cache (cfg s))%Z ->
    pauseTime s = Some since ->
    Forall (fun x => capture_fails (fst x) = true) io ->
    Exists (fun x => threshold_reached s since (snd x)) io ->
    exists s2 eff,
      video_getter_cv2.get crop s io
      = (fst (video_getter_cv2.stop s2), eff, Exited)
      /\ idle_without_reconnect s2 /\ cfg s2 = cfg s
      /\ video_stream_type s2 = cv2.
Proof.
  induction io as [|[c clk] rest IH]; intros s since Hi Hty Hm Hpa Hf Hex.
  - inversion Hex.
  - inversion Hf as [|x l Hc Hrest]; subst.
    destruct (cv2_failing_pass s c clk Hi Hm Hc)
      as [s2 [(Hi2 & Hc2 & Hty2 & Hp2) [Hyes Hno]]].
    assert (Hsince : failing_since s clk = since)
      by (unfold failing_since; now rewrite Hpa).
    rewrite Hsince in *. cbn [video_getter_cv2.get].
    destruct (threshold_reached_dec s since clk) as [Hth|Hth].
    + rewrite (Hyes Hth). exists s2. eexists. split; [reflexivity|].
      repeat split; try apply Hi2; congruence.
    + rewrite (Hno Hth).
      assert (Hex2 : Exists (fun x => threshold_reached s2 since (snd x))
                       rest).
      { inversion Hex as [x l H|x l H]; subst; [contradiction|].
        eapply Exists_impl; [|exact H].
        intros a. apply threshold_reached_cfg, Hc2. }
      destruct (IH s2 since Hi2) as [s3 [eff (E & Hi3 & Hc3 & Hty3)]];
        try congruence.
      rewrite E. exists s3. eexists. split; [reflexivity|].
      repeat split; try apply Hi3; congruence.
Qed.

(** The snapshot loop, once the failures have begun at [since]. *)
Lemma vlc_get_counting (io : list (video_getter_vlc.Snapshot Frame * Readings)) :
  forall (s : VideoStream Frame) (since : Seconds),
    idle_without_reconnect s ->
    video_stream_type s = vlc ->
    pauseTime s = Some since ->
    Forall (fun x => snapshot_fails (fst x) = true) io ->
    Exists (fun x => threshold_reached s since (snd x)) io ->
    exists s2 eff,
      video_getter_vlc.get_loop crop s io
      = (fst (video_getter_vlc.stop s2), eff, Exited)
      /\ idle_without_reconnect s2 /\ cfg s2 = cfg s
      /\ video_stream_type s2 = vlc.
Proof.
  induction io as [|[c clk] rest IH]; intros s since Hi Hty Hpa Hf Hex.
  - inversion Hex.
  - inversion Hf as [|x l Hc Hrest]; subst.
    destruct (vlc_failing_pass s c clk Hi Hc)
      as [s2 [(Hi2 & Hc2 & Hty2 & Hp2) [Hyes Hno]]].
    assert (Hsince : failing_since s clk = since)
      by (unfold failing_since; now rewrite Hpa).
    rewrite Hsince in *. cbn [video_getter_vlc.get_loop].
    destruct (threshold_reached_dec s since clk) as [Hth|Hth].
    + rewrite (Hyes Hth). exists s2. eexists. split; [reflexivity|].
      repeat split; try apply Hi2; congruence.
    + rewrite (Hno Hth).
      assert (Hex2 : Exists (fun x => threshold_reached s2 since (snd x))
                       rest).
      { inversion Hex as [x l H|x l H]; subst; [contradiction|].
        eapply Exists_impl; [|exact H].
        intros a. apply threshold_reached_cfg, Hc2. }
      destruct (IH s2 since Hi2) as [s3 [eff (E & Hi3 & Hc3 & Hty3)]];
        try congruence.
      rewrite E. exists s3. eexists. split; [reflexivity|].
      repeat split; try apply Hi3; congruence.
Qed.

(** *** The timers stay paired *)

Lemma stop_same_timers (s : VideoStream Frame) :
  pauseTime (fst (dispatch.stop s)) = pauseTime s
  /\ printTime (fst (dispatch.stop s)) = printTime s.
Proof.
  unfold dispatch.stop, video_getter_cv2.stop, video_getter_vlc.stop.
  repeat (break_match; cbn); split; reflexivity.
Qed.

Lemma class_stop_timers (s : VideoStream Frame) :
  timers_paired s ->
  timers_paired (fst (video_getter_cv2.stop s))
  /\ timers_paired (fst (video_getter_vlc.stop s)).
Proof.
  unfold timers_paired, video_getter_cv2.stop, video_getter_vlc.stop.
  intros H. repeat (break_match; cbn); split; exact H.
Qed.

Lemma start_with_timers
    (init : VideoStream Frame -> option Probe -> VideoStream Frame)
    (s : VideoStream Frame) (p : option Probe) :
  (forall t, same_run (init t p) t) ->
  pauseTime (fst (start_with init s p)) = pauseTime s
  /\ printTime (fst (start_with init s p)) = printTime s.
Proof.
  intros Hi. unfold start_with. cbn [fst].
  destruct (inited s); [split; reflexivity|].
  destruct (Hi s) as (_ & _ & H1 & H2 & _). split; assumption.
Qed.

Lemma cv2_init_src_keeps (s : VideoStream Frame) (p : option Probe) :
  same_run (video_getter_cv2.init_src s p) s.
Proof.
  apply init_src_with_keeps. intros q t. unfold init_src_recorder.
  destruct (record_source_video (cfg t) && inited t)%bool;
    [|repeat split; reflexivity].
  destruct (fps t), (vid_width t), (vid_height t); try exact I.
  destruct (probe_writer q); [|exact I].
  repeat split; reflexivity.
Qed.

Lemma vlc_init_src_keeps (s : VideoStream Frame) (p : option Probe) :
  same_run (video_getter_vlc.init_src s p) s.
Proof. apply init_src_with_keeps. intros q t. repeat split; reflexivity. Qed.

Lemma countdown_timers
    (stop_of : VideoStream Frame -> VideoStream Frame * list Effect)
    (s : VideoStream Frame) (clk : Readings) :
  (forall t, timers_paired t -> timers_paired (fst (stop_of t))) ->
  timers_paired s ->
  timers_paired (fst (fst (countdown stop_of s clk))).
Proof.
  intros Hstop Hp. unfold countdown.
  destruct s as [c ty so pa pr st q i vi f w h o cf vp vin].
  unfold timers_paired in Hp. cbn in Hp.
  destruct pa as [pa|]; cbn; [destruct pr as [pr|]; cbn|];
    repeat (break_match; cbn);
    try (apply Hstop); unfold timers_paired; cbn;
    solve [ discriminate | assumption ].
Qed.

Lemma cv2_get_try_timers (s : VideoStream Frame) (c : Capture Frame) :
  pauseTime (fst (fst (video_getter_cv2.get_try crop s c))) = pauseTime s
  /\ printTime (fst (fst (video_getter_cv2.get_try crop s c))) = printTime s.
Proof.
  unfold video_getter_cv2.get_try.
  repeat (break_match; cbn); split; reflexivity.
Qed.

Lemma vlc_get_try_timers (s : VideoStream Frame)
    (c : video_getter_vlc.Snapshot Frame) :
  pauseTime (fst (fst (video_getter_vlc.get_try crop s c))) = pauseTime s
  /\ printTime (fst (fst (video_getter_vlc.get_try crop s c))) = printTime s.
Proof.
  unfold video_getter_vlc.get_try.
  repeat (break_match; cbn); split; reflexivity.
Qed.

Lemma cv2_get_iter_timers (s : VideoStream Frame) (c : Capture Frame)
    (clk : Readings) :
  timers_paired s ->
  timers_paired (fst (fst (video_getter_cv2.get_iter crop s c clk))).
Proof.
  intros Hp. unfold video_getter_cv2.get_iter.
  destruct (video_getter_cv2.stopped s); [exact Hp|].
  destruct (cv2_get_try_timers s c) as [H1 H2].
  destruct (video_getter_cv2.get_try crop s c) as [[s1 eff] [[|]|]];
    cbn [fst] in *.
  - intros _. reflexivity.
  - assert (Hp1 : timers_paired s1)
      by (unfold timers_paired; rewrite H1, H2; exact Hp).
    pose proof (countdown_timers (@video_getter_cv2.stop Frame) s1 clk
                  (fun t H => proj1 (class_stop_timers t H)) Hp1) as K.
    destruct (countdown (@video_getter_cv2.stop Frame) s1 clk)
      as [[s2 e2] ctl].
    exact K.
  - unfold timers_paired. rewrite H1, H2. exact Hp.
Qed.

Lemma vlc_get_iter_timers (s : VideoStream Frame)
    (c : video_getter_vlc.Snapshot Frame) (clk : Readings) :
  timers_paired s ->
  timers_paired (fst (fst (video_getter_vlc.get_iter crop s c clk))).
Proof.
  intros Hp. unfold video_getter_vlc.get_iter.
  destruct (video_getter_cv2.stopped s); [exact Hp|].
  destruct (vlc_get_try_timers s c) as [H1 H2].
  destruct (video_getter_vlc.get_try crop s c) as [[s1 eff] [[|]|]];
    cbn [fst] in *.
  - intros _. reflexivity.
  - assert (Hp1 : timers_paired s1)
      by (unfold timers_paired; rewrite H1, H2; exact Hp).
    pose proof (countdown_timers (@video_getter_vlc.stop Frame) s1 clk
                  (fun t H => proj2 (class_stop_timers t H)) Hp1) as K.
    destruct (countdown (@video_getter_vlc.stop Frame) s1 clk)
      as [[s2 e2] ctl].
    exact K.
  - unfold timers_paired. rewrite H1, H2. exact Hp.
Qed.

Lemma act_timers (a : Action Frame) (s : VideoStream Frame) :
  timers_paired s -> timers_paired (act crop a s).
Proof.
  intros Hp. destruct a as [p| | |p| |c clk| |c clk|tries p1 p2]; cbn [act].
  - unfold timers_paired, dispatch.start,
      video_getter_cv2.start, video_getter_vlc.start.
    destruct (video_stream_type s).
    + destruct (start_with_timers (@video_getter_cv2.init_src Frame) s p
                  (fun t => cv2_init_src_keeps t p)) as [-> ->].
      exact Hp.
    + destruct (start_with_timers (@video_getter_vlc.init_src Frame) s p
                  (fun t => vlc_init_src_keeps t p)) as [-> ->].
      exact Hp.
  - unfold timers_paired. destruct (stop_same_timers s) as [-> ->]. exact Hp.
  - destruct (py.items (Q s)) as [|y l] eqn:E.
    + rewrite (read_empty_result Frame s E). exact Hp.
    + destruct (exists_last (l := y :: l)) as [l' [x Hx]]; [discriminate|].
      rewrite Hx in E. rewrite (read_oldest Frame s l' x E). exact Hp.
  - unfold timers_paired.
    destruct (init_src_keeps s p) as (_ & _ & -> & -> & _). exact Hp.
  - exact Hp.
  - destruct (video_stream_type s);
      [now apply cv2_get_iter_timers | exact Hp].
  - destruct (video_stream_type s); exact Hp.
  - destruct (video_stream_type s);
      [exact Hp | now apply vlc_get_iter_timers].
  - destruct (video_stream_type s).
    + unfold video_getter_cv2.reconnect.
      destruct (reopen tries) as [o|].
      * intros _. cbn [fst]. unfold video_getter_cv2.start.
        match goal with
        | |- pauseTime (fst (start_with _ ?t _)) = None =>
            destruct (start_with_timers (@video_getter_cv2.init_src Frame)
                        t p2 (fun u => cv2_init_src_keeps u p2)) as [-> _]
        end.
        reflexivity.
      * unfold reconnect_release, timers_paired.
        destruct (more _); exact Hp.
    + intros _. unfold video_getter_vlc.reconnect, video_getter_vlc.start.
      match goal with
      | |- pauseTime (fst (start_with _ ?t _)) = None =>
          destruct (start_with_timers (@video_getter_vlc.init_src Frame)
                      t p2 (fun u => vlc_init_src_keeps u p2)) as [-> _]
      end.
      reflexivity.
Qed.

Lemma reachable_timers (s : VideoStream Frame) :
  reachable crop s -> timers_paired s.
Proof.
  intros [s0 [acts [Hc ->]]].
  assert (H0 : timers_paired s0).
  { destruct Hc as [name [type [source [manual [kw [opened [H|H]]]]]]].
    - intros _. revert H. unfold video_getter_cv2.__init__.
      destruct (py.deque_new _ _); cbn; [discriminate|].
      destruct (kw_frame_crop kw) as [c|];
        [destruct (List.length c =? 4)%nat|]; cbn; try discriminate;
        intros E; injection E as <-; reflexivity.
    - intros _. revert H.
      unfold video_getter_vlc.__init__, video_getter_cv2.__init__.
      destruct (py.deque_new _ _); cbn; [discriminate|].
      destruct (kw_frame_crop kw) as [c|];
        [destruct (List.length c =? 4)%nat|]; cbn; try discriminate;
        intros E; injection E as <-; reflexivity. }
  revert s0 H0 Hc. induction acts as [|a acts IH]; intros s0 H0 Hc.
  - exact H0.
  - cbn [run fold_left].
    assert (K : forall t, timers_paired t -> timers_paired (run crop acts t)).
    { clear. induction acts as [|b acts IH]; intros t Ht; [exact Ht|].
      cbn [run fold_left]. apply IH. now apply act_timers. }
    apply K. now apply act_timers.
Qed.

(** *** A stopped worker stays stopped until [start()] runs *)

Lemma act_stays_stopped (a : Action Frame) (s : VideoStream Frame) :
  calls_start a = false ->
  video_getter_cv2.stopped s = true ->
  video_getter_cv2.stopped (act crop a s) = true.
Proof.
  intros Ha Hs.
  destruct a as [p| | |p| |c clk| |c clk|tries p1 p2]; cbn [act];
    try discriminate.
  - unfold dispatch.stop, video_getter_cv2.stop, video_getter_vlc.stop.
    rewrite Hs. destruct (video_stream_type s); exact Hs.
  - destruct (read_keeps s) as [v [s' [Hr [Hst _]]]]. rewrite Hr. cbn [snd].
    congruence.
  - destruct (init_src_keeps s p) as (_ & -> & _). exact Hs.
  - exact Hs.
  - unfold video_getter_cv2.get_iter. rewrite Hs.
    destruct (video_stream_type s); exact Hs.
  - destruct (video_stream_type s); exact Hs.
  - unfold video_getter_vlc.get_iter. rewrite Hs.
    destruct (video_stream_type s); exact Hs.
Qed.

Lemma run_stays_stopped (acts : list (Action Frame)) :
  forall s,
    Forall (fun a => calls_start a = false) acts ->
    video_getter_cv2.stopped s = true ->
    video_getter_cv2.stopped (run crop acts s) = true.
Proof.
  induction acts as [|a acts IH]; intros s Hf Hs; [exact Hs|].
  inversion Hf; subst. cbn [run fold_left].
  apply IH; [assumption|]. now apply act_stays_stopped.
Qed.

(** *** A worker's step touches nothing else in the aggregator *)

Lemma step_worker_spec (f : VideoStream Frame -> VideoStream Frame)
    (vs : list (video_manager.Video Frame)) :
  forall i,
    (forall name w,
       nth_error vs i = Some (video_manager.mk_video name w) ->
       nth_error (step_worker i f vs) i
       = Some (video_manager.mk_video name (f w)))
    /\ (forall j, j <> i ->
                  nth_error (step_worker i f vs) j = nth_error vs j).
Proof.
  induction vs as [|v vs IH]; intros i.
  - split; [intros name w H; destruct i; discriminate|reflexivity].
  - destruct i as [|i]; cbn [step_worker].
    + split.
      * intros name w H. cbn in H. injection H as ->. reflexivity.
      * intros [|j] Hj; [contradiction|reflexivity].
    + destruct (IH i) as [H1 H2]. split.
      * intros name w H. cbn in *. now apply H1.
      * intros [|j] Hj; [reflexivity|]. cbn. apply H2. congruence.
Qed.

Lemma stops_alone_intro (f : VideoStream Frame -> VideoStream Frame)
    (s : VideoStream Frame) :
  video_getter_cv2.stopped (f s) = true ->
  backend_released (f s) ->
  py.items (Q (f s)) = [] ->
  stops_alone crop f s.
Proof.
  intros H1 H2 H3. repeat split; try assumption.
  - intros acts Ha. now apply run_stays_stopped.
  - now apply step_worker_spec.
  - now apply step_worker_spec.
Qed.

(** *** Self-stop *)

Lemma cv2_get_failing (c : Capture Frame) (clk : Readings)
    (rest : list (Capture Frame * Readings)) (s : VideoStream Frame) :
  idle_without_reconnect s ->
  video_stream_type s = cv2 ->
  (0 <= max_cache (cfg s))%Z ->
  Forall (fun x => capture_fails (fst x) = true) ((c, clk) :: rest) ->
  Exists (fun x => threshold_reached s (failing_since s clk) (snd x))
    ((c, clk) :: rest) ->
  exists s2 eff,
    video_getter_cv2.get crop s ((c, clk) :: rest)
    = (fst (video_getter_cv2.stop s2), eff, Exited)
    /\ idle_without_reconnect s2 /\ video_stream_type s2 = cv2.
Proof.
  intros Hi Hty Hm Hf Hex.
  inversion Hf as [|x l Hc Hrest]; subst.
  destruct (cv2_failing_pass s c clk Hi Hm Hc)
    as [s2 [(Hi2 & Hc2 & Hty2 & Hp2) [Hyes Hno]]].
  cbn [video_getter_cv2.get].
  destruct (threshold_reached_dec s (failing_since s clk) clk) as [Hth|Hth].
  - rewrite (Hyes Hth). exists s2. eexists. split; [reflexivity|].
    split; [exact Hi2|congruence].
  - rewrite (Hno Hth).
    assert (Hex2 : Exists (fun x => threshold_reached s2
                                      (failing_since s clk) (snd x)) rest).
    { inversion Hex as [x l H|x l H]; subst; [contradiction|].
      eapply Exists_impl; [|exact H].
      intros a. apply threshold_reached_cfg, Hc2. }
    destruct (cv2_get_counting rest s2 (failing_since s clk) Hi2)
      as [s3 [eff (E & Hi3 & Hc3 & Hty3)]]; try congruence.
    rewrite E. exists s3. eexists. split; [reflexivity|].
    split; [exact Hi3|exact Hty3].
Qed.

Lemma vlc_get_failing (c : video_getter_vlc.Snapshot Frame) (clk : Readings)
    (rest : list (video_getter_vlc.Snapshot Frame * Readings))
    (s : VideoStream Frame) :
  idle_without_reconnect s ->
  video_stream_type s = vlc ->
  Forall (fun x => snapshot_fails (fst x) = true) ((c, clk) :: rest) ->
  Exists (fun x => threshold_reached s (failing_since s clk) (snd x))
    ((c, clk) :: rest) ->
  exists s2 eff,
    video_getter_vlc.get_loop crop s ((c, clk) :: rest)
    = (fst (video_getter_vlc.stop s2), eff, Exited)
    /\ idle_without_reconnect s2 /\ video_stream_type s2 = vlc.
Proof.
  intros Hi Hty Hf Hex.
  inversion Hf as [|x l Hc Hrest]; subst.
  destruct (vlc_failing_pass s c clk Hi Hc)
    as [s2 [(Hi2 & Hc2 & Hty2 & Hp2) [Hyes Hno]]].
  cbn [video_getter_vlc.get_loop].
  destruct (threshold_reached_dec s (failing_since s clk) clk) as [Hth|Hth].
  - rewrite (Hyes Hth). exists s2. eexists. split; [reflexivity|].
    split; [exact Hi2|congruence].
  - rewrite (Hno Hth).
    assert (Hex2 : Exists (fun x => threshold_reached s2
                                      (failing_since s clk) (snd x)) rest).
    { inversion Hex as [x l H|x l H]; subst; [contradiction|].
      eapply Exists_impl; [|exact H].
      intros a. apply threshold_reached_cfg, Hc2. }
    destruct (vlc_get_counting rest s2 (failing_since s clk) Hi2)
      as [s3 [eff (E & Hi3 & Hc3 & Hty3)]]; try congruence.
    rewrite E. exists s3. eexists. split; [reflexivity|].
    split; [exact Hi3|exact Hty3].
Qed.

(** C3: a running worker with reconnection disabled and an empty buffer,
    whose every capture fails until the failures have lasted for the
    reconnect threshold, leaves its loop stopped: the flag is set, the
    backend session is released and the buffer is empty.  It stays stopped
    under everything but [start()]; and the aggregator that holds it keeps
    its own flag and its other workers as they were.  (For the continuous
    worker captures are attempted at all only when [max_cache] is not
    negative.) *)
Theorem self_stop_is_final (s : VideoStream Frame) :
  reachable crop s ->
  video_getter_cv2.stopped s = false ->
  video_getter_cv2.do_reconnect (cfg s) = false ->
  py.items (Q s) = [] ->
  (forall c clk rest,
     video_stream_type s = cv2 ->
     (0 <= max_cache (cfg s))%Z ->
     Forall (fun x => capture_fails (fst x) = true) ((c, clk) :: rest) ->
     Exists (fun x => threshold_reached s (failing_since s clk) (snd x))
       ((c, clk) :: rest) ->
     snd (video_getter_cv2.get crop s ((c, clk) :: rest)) = Exited
     /\ stops_alone crop
          (fun w => fst (fst (video_getter_cv2.get crop w ((c, clk) :: rest))))
          s)
  /\ (forall c clk rest,
        video_stream_type s = vlc ->
        Forall (fun x => snapshot_fails (fst x) = true) ((c, clk) :: rest) ->
        Exists (fun x => threshold_reached s (failing_since s clk) (snd x))
          ((c, clk) :: rest) ->
        snd (video_getter_vlc.get crop s ((c, clk) :: rest)) = Exited
        /\ stops_alone crop
             (fun w =>
                fst (fst (video_getter_vlc.get crop w ((c, clk) :: rest))))
             s).
Proof.
  intros Hreach Hs Hr Hq.
  assert (Hi : idle_without_reconnect s)
    by (repeat split; try assumption; now apply reachable_timers).
  split.
  - intros c clk rest Hty Hm Hf Hex.
    destruct (cv2_get_failing c clk rest s Hi Hty Hm Hf Hex)
      as [s2 [eff (E & Hi2 & Hty2)]].
    split; [now rewrite E|].
    destruct (cv2_stop_settles s2 (proj1 Hi2)) as (H1 & H2 & H3 & H4).
    apply stops_alone_intro; rewrite E; cbn [fst]; try assumption.
    unfold backend_released. now rewrite H4, Hty2.
  - intros c clk rest Hty Hf Hex.
    assert (Hi' : idle_without_reconnect (video_getter_vlc.get_enter s)).
    { destruct Hi as (A & B & C & D). repeat split; assumption. }
    destruct (vlc_get_failing c clk rest (video_getter_vlc.get_enter s)
                Hi' Hty Hf Hex) as [s2 [eff (E & Hi2 & Hty2)]].
    unfold video_getter_vlc.get.
    split; [now rewrite E|].
    destruct (vlc_stop_settles s2 (proj1 Hi2)) as (H1 & H2 & H3 & H4 & H5).
    apply stops_alone_intro; rewrite E; cbn [fst]; try assumption.
    unfold backend_released. rewrite H5, Hty2. now split.
Qed.
End LifecycleFacts.

(* ================================================================== *)
(** ** Construction from a descriptor list *)

Section DescriptorList.
Import video_getter_cv2 video_manager props.
Variable Frame : Type.
Variable opens : Source -> bool.
Variable is_file : string -> bool.
Variable float_of_str : string -> py.result Float.

Lemma read_line_pure (acc acc' : Listing) (line : string) :
  read_line is_file float_of_str acc line = inr acc' ->
  pure_files_only acc'
  = (pure_files_only acc
     && (is_comment line
         || match tag_of line with
            | Some t => String.eqb t "file"
            | None => false
            end))%bool.
Proof.
  unfold read_line, is_comment, tag_of.
  destruct (py.startswith "#" (py.strip line)).
  - intros E. injection E as <-. cbn. now rewrite andb_true_r.
  - destruct (py.split "," (py.strip line)) as [|name [|url more]];
      cbn [index nth_error py.bind py.ret py.raise]; try discriminate.
    destruct (py.split1 ":" url) as [|t [|path [|x l]]];
      cbn [py.bind py.ret py.raise fst snd]; try discriminate.
    destruct (String.eqb t "usb") eqn:Eusb.
    + apply String.eqb_eq in Eusb. subst t.
      destruct (py.int_of_str path); cbn [py.bind py.ret]; [discriminate|].
      destruct (_ =? 3)%nat; cbn [py.bind py.ret].
      * destruct (index _ 2); cbn [py.bind]; [discriminate|].
        destruct (float_of_str _); cbn [py.bind]; [discriminate|].
        intros E. injection E as <-. cbn. now rewrite andb_false_r.
      * intros E. injection E as <-. cbn. now rewrite andb_false_r.
    + destruct (String.eqb t "file") eqn:Efile; [|discriminate].
      destruct (is_file path); cbn [py.bind py.ret py.raise];
        [|discriminate].
      destruct (_ =? 3)%nat; cbn [py.bind py.ret].
      * destruct (index _ 2); cbn [py.bind]; [discriminate|].
        destruct (float_of_str _); cbn [py.bind]; [discriminate|].
        intros E. injection E as <-. cbn. now rewrite andb_true_r.
      * intros E. injection E as <-. cbn. now rewrite andb_true_r.
Qed.

Lemma read_lines_pure (lines : list string) :
  forall acc parsed,
    read_lines is_file float_of_str acc lines = inr parsed ->
    pure_files_only parsed = (pure_files_only acc && all_files lines)%bool.
Proof.
  induction lines as [|l rest IH]; intros acc parsed H.
  - cbn in H. injection H as <-. cbn. now rewrite andb_true_r.
  - cbn [read_lines] in H.
    destruct (read_line is_file float_of_str acc l) as [e|acc'] eqn:E;
      [discriminate|].
    cbn [py.bind] in H. rewrite (IH _ _ H), (read_line_pure _ _ _ E).
    cbn [all_files forallb]. now rewrite andb_assoc.
Qed.

Lemma read_line_names (acc acc' : Listing) (line : string) :
  read_line is_file float_of_str acc line = inr acc' ->
  List.length (l_video_feed_names acc')
  = (List.length (l_video_feed_names acc)
     + if is_comment line then 0 else 1)%nat.
Proof.
  unfold read_line, is_comment.
  destruct (py.startswith "#" (py.strip line)).
  - intros E. injection E as <-. lia.
  - repeat match goal with
           | |- py.bind ?m _ = _ -> _ =>
               destruct m; cbn [py.bind]; [discriminate|]
           end.
    intros E. injection E as <-. cbn. rewrite length_app. reflexivity.
Qed.

Lemma names_counted (lines : list string) :
  forall acc parsed,
    read_lines is_file float_of_str acc lines = inr parsed ->
    List.length (l_video_feed_names parsed)
    = (List.length (l_video_feed_names acc)
       + List.length (filter (fun l => negb (is_comment l)) lines))%nat.
Proof.
  induction lines as [|l rest IH]; intros acc parsed H.
  - cbn in H. injection H as <-. cbn. lia.
  - cbn [read_lines] in H.
    destruct (read_line is_file float_of_str acc l) as [e|acc'] eqn:E;
      [discriminate|].
    cbn [py.bind] in H. rewrite (IH _ _ H), (read_line_names _ _ _ E).
    cbn [filter]. destruct (is_comment l); cbn; lia.
Qed.

Lemma vlc_constructed_capacity (name type : string) (source : Source)
    (manual : Z) (kw : Options Frame) (opened : bool)
    (s : VideoStream Frame) :
  video_getter_vlc.__init__ name type source manual kw opened = inr s ->
  py.maxlen (Q s) = option_map Z.to_nat (kw_queue_size kw).
Proof.
  unfold video_getter_vlc.__init__.
  destruct (video_getter_cv2.__init__ _ _ _ _ _ _) as [e|s0] eqn:E;
    [discriminate|].
  apply constructed_empty in E. destruct E as (_ & E & _).
  cbn. intros H. injection H as <-. exact E.
Qed.

Lemma make_streams_capacity (names types : list string)
    (streams : list Source) (manual : list Float) (kw : Kwargs)
    (todo : list string) :
  forall i vs,
    make_streams Frame opens i names types streams manual kw todo = inr vs ->
    Forall (fun v => py.maxlen (Q (stream v))
                     = option_map Z.to_nat
                         (default (queue_size kw) (Some 3%Z)))
      vs.
Proof.
  induction todo as [|name rest IH]; intros i vs H.
  - cbn in H. injection H as <-. constructor.
  - cbn [make_streams] in H.
    destruct (index types i); cbn [py.bind] in H; [discriminate|].
    destruct (index streams i); cbn [py.bind] in H; [discriminate|].
    destruct (index manual i); cbn [py.bind] in H; [discriminate|].
    match type of H with
    | py.bind ?init _ = _ => destruct init as [e|w] eqn:E
    end; cbn [py.bind] in H; [discriminate|].
    destruct (make_streams Frame opens (S i) names types streams manual kw
                rest) as [e|ws] eqn:Ews; cbn [py.bind py.ret] in H;
      [discriminate|].
    injection H as <-. constructor; [|now apply (IH (S i))].
    cbn [stream].
    destruct (String.eqb _ "vlc").
    + now apply vlc_constructed_capacity in E.
    + apply constructed_empty in E. now destruct E as (_ & E & _).
Qed.

Lemma read_line_file (acc : Listing) (line : string) :
  file_line is_file float_of_str line ->
  balanced acc ->
  exists acc',
    read_line is_file float_of_str acc line = inr acc'
    /\ pure_files_only acc' = pure_files_only acc
    /\ balanced acc'.
Proof.
  intros Hl Hb. unfold read_line.
  destruct (py.startswith "#" (py.strip line)) eqn:Ec.
  - exists acc. repeat split; try reflexivity; apply Hb.
  - destruct Hl as [Hc|[name [url [rest [path (Hs & Hu & Hf & Hr)]]]]];
      [unfold is_comment in Hc; congruence|].
    rewrite Hs. cbn [index nth_error py.bind py.ret]. rewrite Hu.
    cbn [py.bind py.ret fst snd String.eqb Ascii.eqb Bool.eqb andb].
    rewrite Hf. cbn [py.bind py.ret fst snd].
    destruct Hb as (B1 & B2 & B3).
    assert (Hfps : exists x,
               (if (List.length (name :: url :: rest) =? 3)%nat
                then f <- index (name :: url :: rest) 2 ;; float_of_str f
                else py.ret (inject_Z (-1))) = inr x).
    { destruct rest as [|f [|g rest]]; cbn.
      - eexists; reflexivity.
      - destruct (Hr f eq_refl) as [x Hx]. exists x. exact Hx.
      - eexists; reflexivity. }
    destruct Hfps as [x Hx]. rewrite Hx. cbn [py.bind py.ret].
    eexists. split; [reflexivity|]. split; [reflexivity|].
    unfold balanced. cbn. rewrite !length_app. cbn. repeat split; lia.
Qed.

Lemma read_lines_files (lines : list string) :
  forall acc,
    Forall (file_line is_file float_of_str) lines ->
    balanced acc ->
    exists parsed,
      read_lines is_file float_of_str acc lines = inr parsed
      /\ pure_files_only parsed = pure_files_only acc
      /\ balanced parsed.
Proof.
  induction lines as [|l rest IH]; intros acc Hf Hb.
  - exists acc. repeat split; try reflexivity; apply Hb.
  - inversion Hf as [|x xs Hl Hrest]; subst.
    destruct (read_line_file acc l Hl Hb) as [acc' (E & Hp & Hb')].
    destruct (IH acc' Hrest Hb') as [parsed (E' & Hp' & Hb'')].
    exists parsed. cbn [read_lines]. rewrite E. cbn [py.bind].
    split; [exact E'|]. split; [congruence|exact Hb''].
Qed.

Lemma worker_init_total (vlc_method : bool) (name type : string)
    (source : Source) (manual : Z) (kw : Options Frame) (opened : bool) :
  match kw_queue_size kw with Some z => (0 <= z)%Z | None => True end ->
  match kw_frame_crop kw with
  | Some c => List.length c = 4%nat
  | None => True
  end ->
  exists w,
    (if vlc_method
     then video_getter_vlc.__init__ name type source manual kw opened
     else video_getter_cv2.__init__ name type source manual kw opened)
    = inr w.
Proof.
  intros Hq Hc.
  assert (H : forall k : Options Frame,
             kw_queue_size k = kw_queue_size kw ->
             kw_frame_crop k = kw_frame_crop kw ->
             exists w, video_getter_cv2.__init__ name type source manual k
                         opened = inr w).
  { intros k Eq Ec. unfold video_getter_cv2.__init__, py.deque_new.
    rewrite Eq, Ec.
    destruct (kw_queue_size kw) as [z|];
      [destruct (Z.ltb_spec z 0); [lia|]|];
      cbn [py.bind py.ret];
      (destruct (kw_frame_crop kw) as [c|]; [rewrite Hc|]; cbn;
       eexists; reflexivity). }
  destruct vlc_method.
  - unfold video_getter_vlc.__init__.
    destruct (H (mk_options (kw_queue_size kw) (kw_recording_dir kw)
                   (kw_reconnect_threshold_sec kw) (kw_do_reconnect kw)
                   (kw_resize_fn kw) (kw_frame_crop kw) (kw_rtsp_tcp kw)
                   (kw_max_cache (defaults Frame))) eq_refl eq_refl)
      as [w Hw].
    rewrite Hw. cbn. eexists. reflexivity.
  - apply H; reflexivity.
Qed.

Lemma make_streams_total (names types : list string) (streams : list Source)
    (manual : list Float) (kw : Kwargs) (todo : list string) :
  match default (queue_size kw) (Some 3%Z) with
  | Some z => (0 <= z)%Z
  | None => True
  end ->
  crop_fits kw ->
  forall i,
    (i + List.length todo <= List.length types)%nat ->
    (i + List.length todo <= List.length streams)%nat ->
    (i + List.length todo <= List.length manual)%nat ->
    exists vs,
      make_streams Frame opens i names types streams manual kw todo = inr vs
      /\ List.length vs = List.length todo.
Proof.
  intros Hq Hc. induction todo as [|name rest IH]; intros i H1 H2 H3.
  - exists []. split; reflexivity.
  - cbn [List.length] in *. cbn [make_streams]. unfold index.
    destruct (nth_error types i) as [ty|] eqn:E1;
      [|apply nth_error_None in E1; lia].
    destruct (nth_error streams i) as [so|] eqn:E2;
      [|apply nth_error_None in E2; lia].
    destruct (nth_error manual i) as [fp|] eqn:E3;
      [|apply nth_error_None in E3; lia].
    cbn [py.bind py.ret].
    match goal with
    | |- context [if ?b then video_getter_vlc.__init__ ?n ?t ?s ?m ?k ?o
                  else _] =>
        destruct (worker_init_total b n t s m k o) as [w Hw]
    end.
    + exact Hq.
    + unfold crop_fits in Hc. cbn.
      destruct (frame_crop kw) as [[c|]|]; cbn; auto.
    + rewrite Hw. cbn [py.bind].
      destruct (IH (S i)) as [vs [Hvs Hlen]]; try lia.
      rewrite Hvs. cbn [py.bind py.ret]. eexists. split; [reflexivity|].
      cbn. now rewrite Hlen.
Qed.

(** C6: on a list of lines that are all comments or existing files, with
    no [queue_size] given, [from_list_file] builds an aggregator with one
    worker for each source, every one with an unbounded buffer.  And
    whenever [from_list_file] builds an aggregator, every worker's
    buffer capacity is the [queue_size] the caller gave; without one it is
    unbounded when every source of the list is a file, and the default of
    3 otherwise. *)
Theorem capacity_from_list_file (lines : list string) (kw : Kwargs) :
  (Forall (file_line is_file float_of_str) lines ->
   queue_size kw = None ->
   crop_fits kw ->
   exists m,
     from_list_file Frame opens is_file float_of_str lines kw = inr m
     /\ Forall (fun v => py.maxlen (Q (stream v)) = None) (videos m)
     /\ List.length (videos m)
        = List.length (filter (fun l => negb (is_comment l)) lines))
  /\ (forall m,
        from_list_file Frame opens is_file float_of_str lines kw = inr m ->
        Forall (fun v => py.maxlen (Q (stream v)) = expected_capacity lines kw)
          (videos m)).
Proof.
  assert (General : forall m,
             from_list_file Frame opens is_file float_of_str lines kw = inr m ->
             Forall (fun v => py.maxlen (Q (stream v))
                              = expected_capacity lines kw) (videos m)).
  2: { split; [|exact General].
       intros Hf Hq Hc.
       destruct (read_lines_files lines empty_listing Hf)
         as [parsed (E & Hp & B1 & B2 & B3)];
         [repeat split; reflexivity|].
       assert (Hn : List.length (l_video_feed_names parsed)
                    = List.length (filter (fun l => negb (is_comment l))
                                     lines)).
       { pose proof (names_counted lines empty_listing parsed E) as K.
         cbn in K. lia. }
       unfold from_list_file. rewrite E. cbn [py.bind]. rewrite Hp, Hq.
       cbn [pure_files_only empty_listing andb].
       unfold video_manager.__init__. rewrite B1, B2, !Nat.eqb_refl.
       cbn [andb].
       destruct (make_streams_total (l_video_feed_names parsed)
                   (l_source_types parsed) (l_streams parsed)
                   (l_manual_video_fps parsed)
                   (mk_kwargs (Some None) (recording_dir kw)
                      (reconnect_threshold_sec kw) (do_reconnect kw)
                      (kw_max_height kw) (method kw) (frame_crop kw)
                      (rtsp_tcp kw))
                   (l_video_feed_names parsed) I Hc 0%nat)
         as [vs [Hvs Hlen]]; cbn [Nat.add]; try lia.
       rewrite Hvs. cbn [py.bind py.ret]. eexists. split; [reflexivity|].
       cbn [videos]. split; [|congruence].
       apply make_streams_capacity in Hvs. exact Hvs. }
  intros m.
  unfold from_list_file, video_manager.__init__, expected_capacity.
  destruct (read_lines is_file float_of_str empty_listing lines)
    as [e|parsed] eqn:E; [discriminate|].
  apply read_lines_pure in E. cbn [pure_files_only empty_listing andb] in E.
  cbn [py.bind]. rewrite E.
  destruct (_ && _)%bool; [|discriminate].
  match goal with
  | |- py.bind ?ms _ = _ -> _ => destruct ms as [e|vs] eqn:Evs
  end; [discriminate|].
  cbn [py.bind py.ret]. intros H. injection H as <-. cbn [videos].
  apply make_streams_capacity in Evs.
  destruct (queue_size kw) as [q|] eqn:Eq.
  - cbn [andb] in Evs. rewrite andb_false_r in Evs.
    rewrite Eq in Evs. exact Evs.
  - rewrite andb_true_r in Evs.
    destruct (all_files lines); [exact Evs|].
    rewrite Eq in Evs. exact Evs.
Qed.

Lemma read_line_accepts (acc acc' : Listing) (line : string) :
  read_line is_file float_of_str acc line = inr acc' ->
  is_comment line = true
  \/ tag_of line = Some "usb" \/ tag_of line = Some "file".
Proof.
  unfold read_line, is_comment, tag_of.
  destruct (py.startswith "#" (py.strip line)); [now left|].
  destruct (py.split "," (py.strip line)) as [|name [|url more]];
    cbn [index nth_error py.bind py.ret py.raise]; try discriminate.
  destruct (py.split1 ":" url) as [|t [|path [|x l]]];
    cbn [py.bind py.ret py.raise fst snd]; try discriminate.
  destruct (String.eqb_spec t "usb") as [->|_]; [now right; left|].
  destruct (String.eqb_spec t "file") as [->|_]; [now right; right|].
  discriminate.
Qed.

(** C5, on the code: a descriptor list with a network source does not
    parse.  On the list the docstring of [from_list_file] gives as its
    example, on the single line [cam1,rtsp://h/s] and on an http line the
    call ends in the [TypeError] of [set("rtsp", "http", "https")]; and no
    line is ever accepted but a comment, a [usb] line or a [file] line. *)
Theorem network_descriptor_raises (kw : Kwargs) :
  from_list_file Frame opens is_file float_of_str docstring_list kw
  = inl py.TypeError
  /\ from_list_file Frame opens is_file float_of_str ["cam1,rtsp://h/s"] kw
     = inl py.TypeError
  /\ from_list_file Frame opens is_file float_of_str
       ["cam1,http://h/s.mjpg"] kw
     = inl py.TypeError
  /\ (forall acc acc' line,
        read_line is_file float_of_str acc line = inr acc' ->
        is_comment line = true
        \/ tag_of line = Some "usb" \/ tag_of line = Some "file").
Proof.
  repeat split; try reflexivity. intros acc acc' line.
  apply read_line_accepts.
Qed.
End DescriptorList.

(** C6, witness: a list of two files gives two workers with unbounded
    buffers, and a list with a usb camera in it gives buffers of capacity
    3. *)
Lemma capacity_from_list_file_witness :
  (Forall (props.file_line (fun _ => true) (fun _ => inr (inject_Z 25)))
     ["# recordings"; "a,file:a.mp4"; "b,file:b.mp4,25"]
   /\ video_manager.queue_size video_manager.no_kwargs = None
   /\ props.crop_fits video_manager.no_kwargs)
  /\ (exists m,
        video_manager.from_list_file nat (fun _ => true) (fun _ => true)
          (fun _ => inr (inject_Z 25))
          ["# recordings"; "a,file:a.mp4"; "b,file:b.mp4,25"]
          video_manager.no_kwargs = inr m
        /\ Forall
             (fun v => py.maxlen (video_getter_cv2.Q (video_manager.stream v))
                       = None)
             (video_manager.videos m)
        /\ List.length (video_manager.videos m) = 2%nat)
  /\ match video_manager.from_list_file nat (fun _ => true) (fun _ => true)
             (fun _ => inr (inject_Z 25))
             ["webcam1,usb:0"; "b,file:b.mp4,25"]
             video_manager.no_kwargs
     with
     | inr mixed =>
         Forall
           (fun v => py.maxlen (video_getter_cv2.Q (video_manager.stream v))
                     = Some 3%nat)
           (video_manager.videos mixed)
     | inl _ => False
     end.
Proof.
  assert (Hlines :
            Forall (props.file_line (fun _ => true)
                      (fun _ => inr (inject_Z 25)))
              ["# recordings"; "a,file:a.mp4"; "b,file:b.mp4,25"]).
  { apply Forall_cons; [left; reflexivity|].
    apply Forall_cons; [|apply Forall_cons; [|apply Forall_nil]].
    - right. exists "a", "file:a.mp4", [], "a.mp4".
      repeat split; try reflexivity. intros f Hf. discriminate Hf.
    - right. exists "b", "file:b.mp4", ["25"], "b.mp4".
      repeat split; try reflexivity. intros f Hf. eexists. reflexivity. }
  split; [split; [exact Hlines|split; [reflexivity|exact I]]|].
  split.
  - destruct (capacity_from_list_file nat (fun _ => true) (fun _ => true)
                (fun _ => inr (inject_Z 25))
                ["# recordings"; "a,file:a.mp4"; "b,file:b.mp4,25"]
                video_manager.no_kwargs) as [Hfiles _].
    exact (Hfiles Hlines eq_refl I).
  - destruct (video_manager.from_list_file nat (fun _ => true) (fun _ => true)
                (fun _ => inr (inject_Z 25))
                ["webcam1,usb:0"; "b,file:b.mp4,25"]
                video_manager.no_kwargs) as [e|mixed] eqn:Emixed;
      [vm_compute in Emixed; discriminate|].
    destruct (capacity_from_list_file nat (fun _ => true) (fun _ => true)
                (fun _ => inr (inject_Z 25))
                ["webcam1,usb:0"; "b,file:b.mp4,25"]
                video_manager.no_kwargs) as [_ Hany].
    exact (Hany mixed Emixed).
Defined.

Lemma cam_cv2_final_constructed :
  video_getter_cv2.__init__ "cam5" "file" (video_getter_cv2.Address "a.mp4")
    (-1) samples.without_reconnect true
  = inr samples.cam_cv2_final.
Proof. reflexivity. Qed.

Lemma cam_cv2_final_running :
  props.reachable samples.crop
    (fst (dispatch.start samples.cam_cv2_final (Some samples.probe25))).
Proof.
  exists samples.cam_cv2_final, [props.DoStart nat (Some samples.probe25)].
  split; [|reflexivity].
  exists "cam5", "file", (video_getter_cv2.Address "a.mp4"), (-1)%Z,
    samples.without_reconnect, true.
  left. reflexivity.
Defined.

(** C3, witness: a worker with a threshold of 5 seconds and reconnection
    disabled, whose captures fail at the moments 0, 3 and 6. *)
Lemma self_stop_is_final_witness :
  (props.reachable samples.crop
     (fst (dispatch.start samples.cam_cv2_final (Some samples.probe25)))
   /\ video_getter_cv2.stopped
        (fst (dispatch.start samples.cam_cv2_final (Some samples.probe25)))
      = false
   /\ video_getter_cv2.do_reconnect
        (video_getter_cv2.cfg
           (fst (dispatch.start samples.cam_cv2_final (Some samples.probe25))))
      = false
   /\ py.items
        (video_getter_cv2.Q
           (fst (dispatch.start samples.cam_cv2_final (Some samples.probe25))))
      = [])
  /\ snd (video_getter_cv2.get samples.crop
            (fst (dispatch.start samples.cam_cv2_final (Some samples.probe25)))
            [(video_getter_cv2.CaptureNone nat, samples.at_time 0);
             (video_getter_cv2.CaptureNone nat, samples.at_time 3);
             (video_getter_cv2.CaptureRaise nat, samples.at_time 6)])
     = video_getter_cv2.Exited
  /\ video_getter_cv2.stopped
       (fst (fst (video_getter_cv2.get samples.crop
                    (fst (dispatch.start samples.cam_cv2_final
                            (Some samples.probe25)))
                    [(video_getter_cv2.CaptureNone nat, samples.at_time 0);
                     (video_getter_cv2.CaptureNone nat, samples.at_time 3);
                     (video_getter_cv2.CaptureRaise nat, samples.at_time 6)])))
     = true.
Proof.
  split; [split; [exact cam_cv2_final_running|repeat split]|].
  destruct (self_stop_is_final nat samples.crop
              (fst (dispatch.start samples.cam_cv2_final (Some samples.probe25)))
              cam_cv2_final_running eq_refl eq_refl eq_refl) as [H _].
  destruct (H (video_getter_cv2.CaptureNone nat) (samples.at_time 0)
              [(video_getter_cv2.CaptureNone nat, samples.at_time 3);
               (video_getter_cv2.CaptureRaise nat, samples.at_time 6)]
              eq_refl)
    as [Hexit (Hstopped & _)].
  - cbn. lia.
  - repeat constructor.
  - apply Exists_cons_tl, Exists_cons_tl, Exists_cons_hd.
    unfold props.threshold_reached, Qle. cbn. lia.
  - split; [exact Hexit|exact Hstopped].
Defined.

(** The snapshot worker under the same failures: its loop exits, the flag
    is set, and player and instance are released. *)
Example snapshot_worker_self_stops :
  let r :=
    video_getter_vlc.get samples.crop
      (fst (dispatch.start samples.cam_vlc_final (Some samples.probe25)))
      [(video_getter_vlc.SnapshotFailed nat, samples.at_time 0);
       (video_getter_vlc.SnapshotFailed nat, samples.at_time 3);
       (video_getter_vlc.SnapshotRaise nat, samples.at_time 6)] in
  snd r = video_getter_cv2.Exited
  /\ video_getter_cv2.stopped (fst (fst r)) = true
  /\ video_getter_cv2.vlc_player (fst (fst r)) = video_getter_cv2.Released
  /\ video_getter_cv2.vlc_instance (fst (fst r)) = video_getter_cv2.Released
  /\ py.items (video_getter_cv2.Q (fst (fst r))) = [].
Proof. vm_compute. repeat split. Qed.

Lemma cam_cv2_buffering :
  props.reachable samples.crop
    (props.run samples.crop
       [props.DoStart nat (Some samples.probe25);
        props.DoCapture (video_getter_cv2.CaptureFrame 7%nat)
          (samples.at_time 0)]
       samples.cam_cv2).
Proof.
  exists samples.cam_cv2,
    [props.DoStart nat (Some samples.probe25);
     props.DoCapture (video_getter_cv2.CaptureFrame 7%nat) (samples.at_time 0)].
  split; [|reflexivity].
  exists "cam1", "rtsp", (video_getter_cv2.Address "rtsp://h/s"), (-1)%Z,
    (video_getter_cv2.defaults nat), true.
  left. reflexivity.
Defined.

(** C7, witness: a started worker that holds frame 7, stopped and started
    again. *)
Lemma restart_starts_empty_witness :
  (props.reachable samples.crop
     (props.run samples.crop
        [props.DoStart nat (Some samples.probe25);
         props.DoCapture (video_getter_cv2.CaptureFrame 7%nat)
           (samples.at_time 0)]
        samples.cam_cv2)
   /\ py.items
        (video_getter_cv2.Q
           (props.run samples.crop
              [props.DoStart nat (Some samples.probe25);
               props.DoCapture (video_getter_cv2.CaptureFrame 7%nat)
                 (samples.at_time 0)]
              samples.cam_cv2))
      = [Some 7%nat])
  /\ py.items
       (video_getter_cv2.Q
          (props.act samples.crop (props.DoStart nat (Some samples.probe25))
             (props.act samples.crop (props.DoStop nat)
                (props.run samples.crop
                   [props.DoStart nat (Some samples.probe25);
                    props.DoCapture (video_getter_cv2.CaptureFrame 7%nat)
                      (samples.at_time 0)]
                   samples.cam_cv2))))
     = [].
Proof.
  split; [split; [exact cam_cv2_buffering|reflexivity]|].
  apply (restart_starts_empty nat samples.crop _ (Some samples.probe25)
           cam_cv2_buffering).
Defined.

(* ================================================================== *)
(** ** The descriptor parser on single lines *)

Example split_fields :
  py.split "," "cam1,rtsp://h/s,25" = ["cam1"; "rtsp://h/s"; "25"]
  /\ py.split1 ":" "rtsp://h:554/s" = ["rtsp"; "//h:554/s"]
  /\ py.strip (String "009" " webcam1,usb:0
") = "webcam1,usb:0".
Proof. repeat split; reflexivity. Qed.

Example int_of_str_cases :
  py.int_of_str " -1_2 " = inr (-12)%Z
  /\ py.int_of_str "0x" = inl py.ValueError
  /\ py.int_of_str "" = inl py.ValueError.
Proof. repeat split; reflexivity. Qed.

(** A [usb] address becomes the device index. *)
Example usb_line_parses :
  video_manager.read_line (fun _ => true) (fun _ => inr (inject_Z 25))
    video_manager.empty_listing "webcam1,usb:0"
  = inr (video_manager.mk_listing ["webcam1"]
           [video_getter_cv2.DeviceIndex 0] ["usb"] [inject_Z (-1)] false).
Proof. reflexivity. Qed.

(** A [file] address that is no file fails the assertion; one that is a
    file is kept as the path. *)
Example file_line_checked :
  video_manager.read_line (fun _ => false) (fun _ => inr (inject_Z 25))
    video_manager.empty_listing "clip,file:clip.mp4,25"
  = inl py.AssertionError
  /\ video_manager.read_line (fun _ => true) (fun _ => inr (inject_Z 25))
       video_manager.empty_listing "clip,file:clip.mp4,25"
     = inr (video_manager.mk_listing ["clip"]
              [video_getter_cv2.Address "clip.mp4"] ["file"] [inject_Z 25]
              true).
Proof. split; reflexivity. Qed.

(** A comment line is skipped, a line without a second field or without a
    colon in it is an error. *)
Example malformed_lines :
  video_manager.read_line (fun _ => true) (fun _ => inr (inject_Z 25))
    video_manager.empty_listing "  # cameras"
  = inr video_manager.empty_listing
  /\ video_manager.read_line (fun _ => true) (fun _ => inr (inject_Z 25))
       video_manager.empty_listing ""
     = inl py.IndexError
  /\ video_manager.read_line (fun _ => true) (fun _ => inr (inject_Z 25))
       video_manager.empty_listing "cam1,nowhere"
     = inl py.ValueError.
Proof. repeat split; reflexivity. Qed.

(* ================================================================== *)
(** ** Further properties: the buffer never exceeds its capacity *)

Section Capacity.
Import video_getter_cv2 props coverage.
Variable Frame : Type.
Variable crop : Z -> Z -> Z -> Z -> Frame -> Frame.

Ltac break_match :=
  match goal with
  | |- context [match ?x with _ => _ end] => destruct x eqn:?
  end.

Lemma fits_appendleft (A : Type) (x : A) (d : py.deque A) :
  fits d -> fits (py.appendleft x d).
Proof.
  unfold fits, py.appendleft, py.len.
  destruct (py.maxlen d) as [n|]; [|intros _; exact I].
  intros H.
  destruct (Nat.ltb_spec n (List.length (x :: py.items d))) as [Hlt|Hge];
    cbn [py.maxlen py.items].
  - destruct (exists_last (l := x :: py.items d)) as [l' [y Hy]];
      [discriminate|].
    rewrite Hy, removelast_last.
    apply (f_equal (@List.length A)) in Hy. cbn [List.length] in Hy.
    rewrite length_app in Hy. cbn in Hy. lia.
  - exact Hge.
Qed.

Lemma fits_clear (A : Type) (d : py.deque A) : fits (py.clear d).
Proof.
  unfold fits, py.clear, py.len. cbn.
  destruct (py.maxlen d); [lia|exact I].
Qed.

Lemma fits_shorter (A : Type) (l : list A) (d : py.deque A) :
  (List.length l <= py.len d)%nat ->
  fits d -> fits (py.mk_deque l (py.maxlen d)).
Proof.
  unfold fits, py.len. cbn. destruct (py.maxlen d); [lia|auto].
Qed.

Lemma fits_if_cleared (s : VideoStream Frame) :
  within_capacity s ->
  within_capacity (if more s then set_Q (py.clear (Q s)) s else s).
Proof.
  intros H. destruct (more s); [apply fits_clear|exact H].
Qed.

Lemma stop_within (s : VideoStream Frame) :
  within_capacity s -> within_capacity (fst (dispatch.stop s)).
Proof.
  intros H. unfold dispatch.stop, video_getter_cv2.stop, video_getter_vlc.stop.
  destruct (video_stream_type s), (video_getter_cv2.stopped s);
    cbn [fst]; try exact H.
  - pose proof (fits_if_cleared
                  (set_stream_opened false (set_stopped true s)) H) as K.
    destruct (out_vid _); exact K.
  - exact (fits_if_cleared (set_stopped true s) H).
Qed.

Lemma class_stop_within (s : VideoStream Frame) :
  within_capacity s ->
  within_capacity (fst (video_getter_cv2.stop s))
  /\ within_capacity (fst (video_getter_vlc.stop s)).
Proof.
  intros H. unfold video_getter_cv2.stop, video_getter_vlc.stop.
  destruct (video_getter_cv2.stopped s); cbn [fst]; [split; exact H|].
  split.
  - pose proof (fits_if_cleared
                  (set_stream_opened false (set_stopped true s)) H) as K.
    destruct (out_vid _); exact K.
  - exact (fits_if_cleared (set_stopped true s) H).
Qed.

Lemma countdown_within
    (stop_of : VideoStream Frame -> VideoStream Frame * list Effect)
    (s : VideoStream Frame) (clk : Readings) :
  (forall t, within_capacity t -> within_capacity (fst (stop_of t))) ->
  within_capacity s ->
  within_capacity (fst (fst (countdown stop_of s clk))).
Proof.
  intros Hstop H. unfold countdown.
  destruct s as [c ty so pa pr st q i vi f w h o cf vp vin].
  unfold within_capacity in *. cbn in H.
  destruct pa as [pa|]; cbn; [destruct pr as [pr|]; cbn|];
    repeat (break_match; cbn); try exact H; apply Hstop; exact H.
Qed.

Lemma cv2_get_iter_within (s : VideoStream Frame) (c : Capture Frame)
    (clk : Readings) :
  within_capacity s ->
  within_capacity (fst (fst (video_getter_cv2.get_iter crop s c clk))).
Proof.
  intros H. unfold video_getter_cv2.get_iter.
  destruct (video_getter_cv2.stopped s); [exact H|].
  assert (Ht : within_capacity
                 (fst (fst (video_getter_cv2.get_try crop s c)))).
  { unfold video_getter_cv2.get_try.
    repeat (break_match; cbn [fst]); try exact H;
      apply fits_appendleft, H. }
  destruct (video_getter_cv2.get_try crop s c) as [[s1 eff] [[|]|]];
    cbn [fst] in *; try exact Ht.
  pose proof (countdown_within (@video_getter_cv2.stop Frame) s1 clk
                (fun t K => proj1 (class_stop_within t K)) Ht) as K.
  destruct (countdown (@video_getter_cv2.stop Frame) s1 clk)
    as [[s2 e2] ctl].
  exact K.
Qed.

Lemma vlc_get_iter_within (s : VideoStream Frame)
    (c : video_getter_vlc.Snapshot Frame) (clk : Readings) :
  within_capacity s ->
  within_capacity (fst (fst (video_getter_vlc.get_iter crop s c clk))).
Proof.
  intros H. unfold video_getter_vlc.get_iter.
  destruct (video_getter_cv2.stopped s); [exact H|].
  assert (Ht : within_capacity
                 (fst (fst (video_getter_vlc.get_try crop s c)))).
  { unfold video_getter_vlc.get_try.
    repeat (break_match; cbn [fst]); try exact H;
      apply fits_appendleft, H. }
  destruct (video_getter_vlc.get_try crop s c) as [[s1 eff] [[|]|]];
    cbn [fst] in *; try exact Ht.
  pose proof (countdown_within (@video_getter_vlc.stop Frame) s1 clk
                (fun t K => proj2 (class_stop_within t K)) Ht) as K.
  destruct (countdown (@video_getter_vlc.stop Frame) s1 clk)
    as [[s2 e2] ctl].
  exact K.
Qed.

Lemma start_with_Q
    (init : VideoStream Frame -> option Probe -> VideoStream Frame)
    (s : VideoStream Frame) (p : option Probe) :
  (forall t, same_run (init t p) t) ->
  Q (fst (start_with init s p)) = Q s.
Proof.
  intros Hi. unfold start_with. cbn [fst].
  destruct (inited s); [reflexivity|]. cbn. apply Hi.
Qed.

Lemma start_within (s : VideoStream Frame) (p : option Probe) :
  within_capacity s -> within_capacity (fst (dispatch.start s p)).
Proof.
  intros H. unfold within_capacity.
  destruct (start_starts Frame s p) as [-> _]. exact H.
Qed.

Lemma act_within (a : Action Frame) (s : VideoStream Frame) :
  within_capacity s -> within_capacity (act crop a s).
Proof.
  intros H. destruct a as [p| | |p| |c clk| |c clk|tries p1 p2]; cbn [act].
  - now apply start_within.
  - now apply stop_within.
  - destruct (py.items (Q s)) as [|y l] eqn:E.
    + rewrite (read_empty_result Frame s E). exact H.
    + destruct (exists_last (l := y :: l)) as [l' [x Hx]]; [discriminate|].
      rewrite Hx in E. rewrite (read_oldest Frame s l' x E). cbn [snd].
      apply fits_shorter; [|exact H].
      unfold py.len. rewrite E, length_app. cbn. lia.
  - unfold within_capacity.
    destruct (init_src_keeps Frame s p) as (-> & _). exact H.
  - exact H.
  - destruct (video_stream_type s);
      [now apply cv2_get_iter_within | exact H].
  - destruct (video_stream_type s); exact H.
  - destruct (video_stream_type s);
      [exact H | now apply vlc_get_iter_within].
  - destruct (video_stream_type s).
    + unfold video_getter_cv2.reconnect.
      assert (Hr : within_capacity (reconnect_release s))
        by (unfold reconnect_release;
            apply (fits_if_cleared (set_stream_opened false s)), H).
      destruct (reopen tries) as [o|]; [|exact Hr].
      cbn [fst]. unfold within_capacity, video_getter_cv2.start.
      rewrite start_with_Q by (intros t; apply cv2_init_src_keeps).
      cbn [Q set_pauseTime].
      destruct (inited _); [exact Hr|].
      destruct (cv2_init_src_keeps Frame
                  (set_stream_opened o (reconnect_release s)) p1) as (-> & _).
      exact Hr.
    + unfold video_getter_vlc.reconnect, video_getter_vlc.start.
      assert (Hr : within_capacity
                     (if more s then set_Q (py.clear (Q s)) s else s))
        by (apply fits_if_cleared, H).
      unfold within_capacity.
      rewrite start_with_Q by (intros t; apply vlc_init_src_keeps).
      cbn [Q set_pauseTime].
      destruct (inited _); [exact Hr|].
      match goal with
      | |- fits (Q (video_getter_vlc.init_src ?t ?p)) =>
          destruct (vlc_init_src_keeps Frame t p) as (-> & _)
      end.
      exact Hr.
Qed.

(** A worker is built stopped, with nothing buffered or delivered. *)
Lemma constructed_fresh (s : VideoStream Frame) :
  constructed s ->
  py.items (Q s) = [] /\ video_getter_cv2.stopped s = true
  /\ currentFrame s = None.
Proof.
  intros [name [type [source [manual [kw [opened [H|H]]]]]]].
  - apply constructed_empty in H. tauto.
  - unfold video_getter_vlc.__init__ in H.
    destruct (video_getter_cv2.__init__ _ _ _ _ _ _) as [e|t] eqn:E;
      [discriminate|].
    apply constructed_empty in E. cbn in H. injection H as <-.
    cbn. tauto.
Qed.

(** X1: the frame buffer of every worker the program can hold has at most
    [maxlen] entries, whatever calls and loop passes came before. *)
Theorem buffer_within_capacity (s : VideoStream Frame) :
  reachable crop s ->
  forall n, py.maxlen (Q s) = Some n -> (py.len (Q s) <= n)%nat.
Proof.
  intros [s0 [acts [Hc ->]]].
  assert (H0 : within_capacity s0).
  { unfold within_capacity, fits, py.len.
    destruct (constructed_fresh s0 Hc) as (-> & _).
    destruct (py.maxlen (Q s0)); [cbn; lia|exact I]. }
  clear Hc. revert s0 H0.
  induction acts as [|a acts IH]; intros s0 H0 n Hn.
  - cbn [run fold_left] in Hn |- *.
    unfold within_capacity, fits in H0. now rewrite Hn in H0.
  - cbn [run fold_left] in Hn |- *. apply IH; [|exact Hn].
    now apply act_within.
Qed.
End Capacity.

(** X1, witness: a worker of capacity 3 that has captured five frames. *)
Lemma cam_cv2_five_captures :
  props.reachable samples.crop coverage.cam_five_captures.
Proof.
  exists samples.cam_cv2, coverage.five_captures.
  split; [|reflexivity].
  exists "cam1", "rtsp", (video_getter_cv2.Address "rtsp://h/s"), (-1)%Z,
    (video_getter_cv2.defaults nat), true.
  left. reflexivity.
Defined.

Lemma buffer_within_capacity_witness :
  (props.reachable samples.crop coverage.cam_five_captures
   /\ py.maxlen (video_getter_cv2.Q coverage.cam_five_captures) = Some 3%nat)
  /\ (py.len (video_getter_cv2.Q coverage.cam_five_captures) <= 3)%nat.
Proof.
  split; [split; [exact cam_cv2_five_captures|reflexivity]|].
  apply (buffer_within_capacity nat samples.crop _ cam_cv2_five_captures).
  reflexivity.
Defined.

(* ================================================================== *)
(** ** Further properties: the acquisition loop *)

Section LoopFacts.
Import video_getter_cv2 props coverage.
Variable Frame : Type.
Variable crop : Z -> Z -> Z -> Z -> Frame -> Frame.

Ltac break_match :=
  match goal with
  | |- context [match ?x with _ => _ end] => destruct x eqn:?
  end.

Ltac fields :=
  unfold set_video_stream_type, set_stream_opened, set_pauseTime,
    set_printTime, set_stopped, set_Q, set_inited, set_vidInfo, set_fps,
    set_size, set_out_vid, set_currentFrame, set_vlc, failing_since,
    threshold_reached, more, py.truth, reconnect_start in *;
  cbn [cfg video_stream_type stream_opened pauseTime printTime
       video_getter_cv2.stopped Q inited vidInfo fps vid_width vid_height
       out_vid currentFrame vlc_player vlc_instance fst snd
       video_getter_cv2.reconnect_threshold_sec
       video_getter_cv2.do_reconnect py.items negb] in *.

(** The failure branch, whatever the worker: the timers are set, and the
    threshold test alone decides among going on, reconnecting, stopping and
    waiting for the buffer to drain. *)
Lemma countdown_decides
    (stop_of : VideoStream Frame -> VideoStream Frame * list Effect)
    (s : VideoStream Frame) (clk : Readings) :
  timers_paired s ->
  exists s2,
    (Q s2 = Q s /\ video_getter_cv2.stopped s2 = video_getter_cv2.stopped s
     /\ cfg s2 = cfg s /\ currentFrame s2 = currentFrame s
     /\ pauseTime s2 = Some (failing_since s clk))
    /\ countdown stop_of s clk
       = if Qle_bool
              (inject_Z (video_getter_cv2.reconnect_threshold_sec (cfg s))
               - (t_since_pause clk - failing_since s clk)) 0
         then
           if video_getter_cv2.do_reconnect (cfg s)
           then (s2, [StartThread TargetReconnect], Exit)
           else if negb (more s)
                then (fst (stop_of s2), snd (stop_of s2), Exit)
                else (s2, [Sleep 1], Next)
         else (s2, [], Next).
Proof.
  intros Hp. unfold countdown, timers_paired in *.
  destruct s as [c ty so pa pr st q i vi f w h o cf vp vin].
  fields.
  assert (Hcase : exists p r,
             (pa = Some p /\ pr = Some r)
             \/ (pa = None /\ p = t_pause clk /\ r = t_print clk)).
  { destruct pa as [p|].
    - destruct pr as [r|]; [|specialize (Hp eq_refl); congruence].
      exists p, r. now left.
    - exists (t_pause clk), (t_print clk). now right. }
  destruct Hcase as [p [r [[-> ->]|[-> [-> ->]]]]]; fields.
  all: match goal with
       | |- context [if (?a && ?b)%bool then _ else _] =>
           destruct (a && b)%bool
       end.
  all: match goal with
       | |- context [(fst (_ ?x), snd (_ ?x), Exit)] => exists x
       end; split; [repeat split; reflexivity|].
  all: fields; repeat (break_match; try reflexivity).
Qed.

Lemma cv2_failed_pass (s : VideoStream Frame) (c : Capture Frame)
    (clk : Readings) :
  video_getter_cv2.stopped s = false ->
  (Z.of_nat (py.len (Q s)) <= max_cache (cfg s))%Z ->
  capture_fails c = true ->
  video_getter_cv2.get_iter crop s c clk
  = countdown (@video_getter_cv2.stop Frame) s clk.
Proof.
  intros Hs Hg Hc.
  unfold video_getter_cv2.get_iter, video_getter_cv2.get_try. rewrite Hs.
  destruct (Z.ltb_spec (max_cache (cfg s)) (Z.of_nat (py.len (Q s))));
    [lia|].
  destruct c; [discriminate| |];
    destruct (countdown _ s clk) as [[s2 e] ctl]; reflexivity.
Qed.

Lemma vlc_failed_pass (s : VideoStream Frame)
    (c : video_getter_vlc.Snapshot Frame) (clk : Readings) :
  video_getter_cv2.stopped s = false ->
  snapshot_fails c = true ->
  video_getter_vlc.get_iter crop s c clk
  = countdown (@video_getter_vlc.stop Frame) s clk.
Proof.
  intros Hs Hc.
  unfold video_getter_vlc.get_iter, video_getter_vlc.get_try. rewrite Hs.
  destruct c; [discriminate| |];
    destruct (countdown _ s clk) as [[s2 e] ctl]; reflexivity.
Qed.

Lemma threshold_holds (s : VideoStream Frame) (since : Seconds)
    (clk : Readings) :
  threshold_reached s since clk ->
  Qle_bool
    (inject_Z (video_getter_cv2.reconnect_threshold_sec (cfg s))
     - (t_since_pause clk - since)) 0 = true.
Proof. intros H. apply threshold_test. exact H. Qed.

Lemma threshold_fails (s : VideoStream Frame) (since : Seconds)
    (clk : Readings) :
  ~ threshold_reached s since clk ->
  Qle_bool
    (inject_Z (video_getter_cv2.reconnect_threshold_sec (cfg s))
     - (t_since_pause clk - since)) 0 = false.
Proof.
  intros H. destruct (Qle_bool _ 0) eqn:E; [|reflexivity].
  apply threshold_test in E. contradiction.
Qed.

(** X2: with reconnection enabled, a failed capture once the failures have
    lasted for the threshold makes either loop start the reconnect thread
    and leave; the worker is not stopped and its buffer is as it was. *)
Theorem threshold_starts_reconnect (s : VideoStream Frame) (clk : Readings) :
  reachable crop s ->
  video_getter_cv2.stopped s = false ->
  video_getter_cv2.do_reconnect (cfg s) = true ->
  threshold_reached s (failing_since s clk) clk ->
  (forall c,
     capture_fails c = true ->
     (Z.of_nat (py.len (Q s)) <= max_cache (cfg s))%Z ->
     exists s2,
       video_getter_cv2.get_iter crop s c clk
       = (s2, [StartThread TargetReconnect], Exit)
       /\ video_getter_cv2.stopped s2 = false /\ Q s2 = Q s)
  /\ (forall c,
        snapshot_fails c = true ->
        exists s2,
          video_getter_vlc.get_iter crop s c clk
          = (s2, [StartThread TargetReconnect], Exit)
          /\ video_getter_cv2.stopped s2 = false /\ Q s2 = Q s).
Proof.
  intros Hreach Hs Hr Hth.
  pose proof (reachable_timers Frame crop s Hreach) as Hp.
  split.
  - intros c Hc Hg. rewrite (cv2_failed_pass s c clk Hs Hg Hc).
    destruct (countdown_decides (@video_getter_cv2.stop Frame) s clk Hp)
      as [s2 [(H1 & H2 & _) E]].
    rewrite (threshold_holds _ _ _ Hth), Hr in E.
    exists s2. split; [exact E|]. split; congruence.
  - intros c Hc. rewrite (vlc_failed_pass s c clk Hs Hc).
    destruct (countdown_decides (@video_getter_vlc.stop Frame) s clk Hp)
      as [s2 [(H1 & H2 & _) E]].
    rewrite (threshold_holds _ _ _ Hth), Hr in E.
    exists s2. split; [exact E|]. split; congruence.
Qed.

(** X3: with reconnection disabled and frames still buffered, a failed
    capture past the threshold neither stops the worker nor leaves the
    loop: the pass sleeps one second and goes on, the buffer untouched. *)
Theorem threshold_waits_for_drain (s : VideoStream Frame) (clk : Readings) :
  reachable crop s ->
  video_getter_cv2.stopped s = false ->
  video_getter_cv2.do_reconnect (cfg s) = false ->
  py.items (Q s) <> [] ->
  threshold_reached s (failing_since s clk) clk ->
  (forall c,
     capture_fails c = true ->
     (Z.of_nat (py.len (Q s)) <= max_cache (cfg s))%Z ->
     exists s2,
       video_getter_cv2.get_iter crop s c clk = (s2, [Sleep 1], Next)
       /\ video_getter_cv2.stopped s2 = false /\ Q s2 = Q s)
  /\ (forall c,
        snapshot_fails c = true ->
        exists s2,
          video_getter_vlc.get_iter crop s c clk = (s2, [Sleep 1], Next)
          /\ video_getter_cv2.stopped s2 = false /\ Q s2 = Q s).
Proof.
  intros Hreach Hs Hr Hq Hth.
  pose proof (reachable_timers Frame crop s Hreach) as Hp.
  assert (Hm : more s = true).
  { rewrite more_items. destruct (py.items (Q s)); [contradiction|reflexivity]. }
  split.
  - intros c Hc Hg. rewrite (cv2_failed_pass s c clk Hs Hg Hc).
    destruct (countdown_decides (@video_getter_cv2.stop Frame) s clk Hp)
      as [s2 [(H1 & H2 & _) E]].
    rewrite (threshold_holds _ _ _ Hth), Hr, Hm in E.
    exists s2. split; [exact E|]. split; congruence.
  - intros c Hc. rewrite (vlc_failed_pass s c clk Hs Hc).
    destruct (countdown_decides (@video_getter_vlc.stop Frame) s clk Hp)
      as [s2 [(H1 & H2 & _) E]].
    rewrite (threshold_holds _ _ _ Hth), Hr, Hm in E.
    exists s2. split; [exact E|]. split; congruence.
Qed.

(** X4: before the threshold a failed capture costs nothing but the
    timers: the pass goes on at once, without any sleep, the worker still
    running, its buffer and last frame untouched; the first failure is the
    moment the countdown counts from. *)
Theorem failure_before_threshold (s : VideoStream Frame) (clk : Readings) :
  reachable crop s ->
  video_getter_cv2.stopped s = false ->
  ~ threshold_reached s (failing_since s clk) clk ->
  (forall c,
     capture_fails c = true ->
     (Z.of_nat (py.len (Q s)) <= max_cache (cfg s))%Z ->
     exists s2,
       video_getter_cv2.get_iter crop s c clk = (s2, [], Next)
       /\ video_getter_cv2.stopped s2 = false /\ Q s2 = Q s
       /\ currentFrame s2 = currentFrame s
       /\ pauseTime s2 = Some (failing_since s clk))
  /\ (forall c,
        snapshot_fails c = true ->
        exists s2,
          video_getter_vlc.get_iter crop s c clk = (s2, [], Next)
          /\ video_getter_cv2.stopped s2 = false /\ Q s2 = Q s
          /\ currentFrame s2 = currentFrame s
          /\ pauseTime s2 = Some (failing_since s clk)).
Proof.
  intros Hreach Hs Hth.
  pose proof (reachable_timers Frame crop s Hreach) as Hp.
  split.
  - intros c Hc Hg. rewrite (cv2_failed_pass s c clk Hs Hg Hc).
    destruct (countdown_decides (@video_getter_cv2.stop Frame) s clk Hp)
      as [s2 [(H1 & H2 & H3 & H4 & H5) E]].
    rewrite (threshold_fails _ _ _ Hth) in E.
    exists s2. split; [exact E|]. repeat split; congruence.
  - intros c Hc. rewrite (vlc_failed_pass s c clk Hs Hc).
    destruct (countdown_decides (@video_getter_vlc.stop Frame) s clk Hp)
      as [s2 [(H1 & H2 & H3 & H4 & H5) E]].
    rewrite (threshold_fails _ _ _ Hth) in E.
    exists s2. split; [exact E|]. repeat split; congruence.
Qed.

(** *** The producer pause *)

Lemma len_appendleft (A : Type) (x : A) (d : py.deque A) :
  (py.len (py.appendleft x d) <= S (py.len d))%nat.
Proof.
  unfold py.appendleft, py.len.
  destruct (py.maxlen d) as [n|]; [|cbn; lia].
  destruct (n <? _)%nat; cbn [py.items]; [|cbn; lia].
  destruct (exists_last (l := x :: py.items d)) as [l' [y Hy]];
    [discriminate|].
  rewrite Hy, removelast_last.
  apply (f_equal (@List.length A)) in Hy. cbn [List.length] in Hy.
  rewrite length_app in Hy. cbn in Hy. lia.
Qed.

Lemma class_stop_shrinks (t : VideoStream Frame) :
  ((py.len (Q (fst (video_getter_cv2.stop t))) <= py.len (Q t))%nat
   /\ cfg (fst (video_getter_cv2.stop t)) = cfg t)
  /\ ((py.len (Q (fst (video_getter_vlc.stop t))) <= py.len (Q t))%nat
      /\ cfg (fst (video_getter_vlc.stop t)) = cfg t).
Proof.
  unfold video_getter_cv2.stop, video_getter_vlc.stop, more, py.truth, py.len.
  destruct t as [c ty so pa pr st q i vi f w h o cf vp vin]. cbn.
  destruct st; cbn; [repeat split; lia|].
  destruct (py.items q) eqn:E; destruct o; cbn; rewrite ?E; cbn;
    repeat split; lia.
Qed.

Lemma countdown_shrinks
    (stop_of : VideoStream Frame -> VideoStream Frame * list Effect)
    (s : VideoStream Frame) (clk : Readings) :
  (forall t, (py.len (Q (fst (stop_of t))) <= py.len (Q t))%nat
             /\ cfg (fst (stop_of t)) = cfg t) ->
  (py.len (Q (fst (fst (countdown stop_of s clk)))) <= py.len (Q s))%nat
  /\ cfg (fst (fst (countdown stop_of s clk))) = cfg s.
Proof.
  intros Hstop. unfold countdown.
  destruct s as [c ty so pa pr st q i vi f w h o cf vp vin].
  destruct pa as [pa|]; cbn; [destruct pr as [pr|]; cbn|];
    repeat (break_match; cbn); try (split; [lia|reflexivity]);
    match goal with
    | |- context [stop_of ?t] => destruct (Hstop t) as [K1 K2]
    end; cbn in K1, K2; split; assumption.
Qed.

Lemma cv2_get_iter_bound (s : VideoStream Frame) (c : Capture Frame)
    (clk : Readings) (B : nat) :
  (py.len (Q s) <= B)%nat ->
  (Z.to_nat (max_cache (cfg s) + 1) <= B)%nat ->
  (py.len (Q (fst (fst (video_getter_cv2.get_iter crop s c clk)))) <= B)%nat
  /\ cfg (fst (fst (video_getter_cv2.get_iter crop s c clk))) = cfg s.
Proof.
  intros Hl Hm. unfold video_getter_cv2.get_iter.
  destruct (video_getter_cv2.stopped s); [split; [exact Hl|reflexivity]|].
  assert (Ht : (py.len (Q (fst (fst (video_getter_cv2.get_try crop s c))))
                <= B)%nat
               /\ cfg (fst (fst (video_getter_cv2.get_try crop s c))) = cfg s).
  { unfold video_getter_cv2.get_try.
    destruct (Z.ltb_spec (max_cache (cfg s)) (Z.of_nat (py.len (Q s))));
      [split; [exact Hl|reflexivity]|].
    destruct c; cbn [fst]; try (split; [exact Hl|reflexivity]).
    destruct (crop_frame crop s f); cbn [fst];
      [split; [exact Hl|reflexivity]|].
    assert (K : (py.len (py.appendleft (Some f0) (Q s)) <= B)%nat).
    { eapply Nat.le_trans;
        [exact (len_appendleft (PyFrame Frame) (Some f0) (Q s))|].
      lia. }
    destruct (pacing _); cbn [fst]; split; solve [exact K | reflexivity]. }
  destruct Ht as [Ht1 Ht2].
  destruct (video_getter_cv2.get_try crop s c) as [[s1 eff] [[|]|]];
    cbn [fst] in *; try (split; assumption).
  destruct (countdown_shrinks (@video_getter_cv2.stop Frame) s1 clk
              (fun t => proj1 (class_stop_shrinks t))) as [K1 K2].
  destruct (countdown (@video_getter_cv2.stop Frame) s1 clk)
    as [[s2 e2] ctl].
  cbn [fst] in *. split; [lia|congruence].
Qed.

(** X5: the producer pause.  While the buffer holds more than [max_cache]
    entries a pass of the continuous loop does not touch the capture: it
    sleeps 0.01 s and leaves the worker as it is.  So however long the loop
    runs unread, the buffer never grows past [max_cache + 1] entries (or
    past what it held to begin with). *)
Theorem producer_pause_bounds (s : VideoStream Frame) :
  (forall c clk,
     video_getter_cv2.stopped s = false ->
     (max_cache (cfg s) < Z.of_nat (py.len (Q s)))%Z ->
     video_getter_cv2.get_iter crop s c clk = (s, [Sleep (1 # 100)], Next))
  /\ (forall io,
        (py.len (Q (fst (fst (video_getter_cv2.get crop s io))))
         <= Nat.max (py.len (Q s)) (Z.to_nat (max_cache (cfg s) + 1)))%nat).
Proof.
  split.
  - intros c clk Hs Hg.
    unfold video_getter_cv2.get_iter, video_getter_cv2.get_try. rewrite Hs.
    destruct (Z.ltb_spec (max_cache (cfg s)) (Z.of_nat (py.len (Q s))));
      [reflexivity|lia].
  - intros io.
    set (B := Nat.max (py.len (Q s)) (Z.to_nat (max_cache (cfg s) + 1))).
    assert (H1 : (py.len (Q s) <= B)%nat) by (unfold B; lia).
    assert (H2 : (Z.to_nat (max_cache (cfg s) + 1) <= B)%nat)
      by (unfold B; lia).
    clearbody B. revert s H1 H2.
    induction io as [|[c clk] rest IH]; intros s H1 H2; [exact H1|].
    cbn [video_getter_cv2.get].
    destruct (cv2_get_iter_bound s c clk B H1 H2) as [K1 K2].
    destruct (video_getter_cv2.get_iter crop s c clk) as [[s1 eff] [| |e]];
      cbn [fst] in *; try exact K1.
    specialize (IH s1 K1). rewrite K2 in IH. specialize (IH H2).
    destruct (video_getter_cv2.get crop s1 rest) as [[s2 eff2] st].
    exact IH.
Qed.

(** *** A worker that reconnects is never stopped by its loop *)

Lemma countdown_keeps_running
    (stop_of : VideoStream Frame -> VideoStream Frame * list Effect)
    (s : VideoStream Frame) (clk : Readings) :
  video_getter_cv2.do_reconnect (cfg s) = true ->
  video_getter_cv2.stopped (fst (fst (countdown stop_of s clk)))
  = video_getter_cv2.stopped s
  /\ cfg (fst (fst (countdown stop_of s clk))) = cfg s.
Proof.
  intros Hr. unfold countdown.
  destruct s as [c ty so pa pr st q i vi f w h o cf vp vin].
  cbn in Hr.
  destruct pa as [pa|]; cbn; [destruct pr as [pr|]; cbn|];
    rewrite ?Hr; repeat (break_match; cbn);
    try (split; reflexivity);
    unfold set_printTime, set_pauseTime in *; cbn in *; congruence.
Qed.

Lemma get_try_cfg (s : VideoStream Frame) :
  (forall c, cfg (fst (fst (video_getter_cv2.get_try crop s c))) = cfg s)
  /\ (forall c, cfg (fst (fst (video_getter_vlc.get_try crop s c))) = cfg s).
Proof.
  split; intros c;
    unfold video_getter_cv2.get_try, video_getter_vlc.get_try;
    repeat (break_match; cbn); reflexivity.
Qed.

Lemma get_iter_keeps_running (s : VideoStream Frame) (clk : Readings) :
  video_getter_cv2.do_reconnect (cfg s) = true ->
  (forall c,
     video_getter_cv2.stopped
       (fst (fst (video_getter_cv2.get_iter crop s c clk)))
     = video_getter_cv2.stopped s
     /\ cfg (fst (fst (video_getter_cv2.get_iter crop s c clk))) = cfg s)
  /\ (forall c,
        video_getter_cv2.stopped
          (fst (fst (video_getter_vlc.get_iter crop s c clk)))
        = video_getter_cv2.stopped s
        /\ cfg (fst (fst (video_getter_vlc.get_iter crop s c clk))) = cfg s).
Proof.
  intros Hr. split; intros c.
  - unfold video_getter_cv2.get_iter.
    destruct (video_getter_cv2.stopped s) eqn:Es; [split; auto|].
    pose proof (cv2_get_try_stopped Frame crop s c) as H1.
    pose proof (proj1 (get_try_cfg s) c) as H2.
    destruct (video_getter_cv2.get_try crop s c) as [[s1 eff] [[|]|]];
      cbn [fst] in *; try (split; [cbn; congruence|cbn; congruence]).
    destruct (countdown_keeps_running (@video_getter_cv2.stop Frame) s1 clk)
      as [K1 K2]; [congruence|].
    destruct (countdown _ s1 clk) as [[s2 e2] ctl]. cbn [fst] in *.
    split; congruence.
  - unfold video_getter_vlc.get_iter.
    destruct (video_getter_cv2.stopped s) eqn:Es; [split; auto|].
    pose proof (vlc_get_try_stopped Frame crop s c) as H1.
    pose proof (proj2 (get_try_cfg s) c) as H2.
    destruct (video_getter_vlc.get_try crop s c) as [[s1 eff] [[|]|]];
      cbn [fst] in *; try (split; [cbn; congruence|cbn; congruence]).
    destruct (countdown_keeps_running (@video_getter_vlc.stop Frame) s1 clk)
      as [K1 K2]; [congruence|].
    destruct (countdown _ s1 clk) as [[s2 e2] ctl]. cbn [fst] in *.
    split; congruence.
Qed.

(** X6: with reconnection enabled the acquisition loop never sets the
    stopped flag, whatever the captures and the clock do: a running worker
    is still marked running when its loop has left, so only a call of
    [stop()] ever stops it. *)
Theorem loop_never_stops_reconnecting_worker (s : VideoStream Frame) :
  video_getter_cv2.do_reconnect (cfg s) = true ->
  (forall io,
     video_getter_cv2.stopped (fst (fst (video_getter_cv2.get crop s io)))
     = video_getter_cv2.stopped s)
  /\ (forall io,
        video_getter_cv2.stopped (fst (fst (video_getter_vlc.get crop s io)))
        = video_getter_cv2.stopped s).
Proof.
  intros Hr. split.
  - intros io. revert s Hr.
    induction io as [|[c clk] rest IH]; intros s Hr; [reflexivity|].
    cbn [video_getter_cv2.get].
    destruct (proj1 (get_iter_keeps_running s clk Hr) c) as [K1 K2].
    destruct (video_getter_cv2.get_iter crop s c clk) as [[s1 eff] [| |e]];
      cbn [fst] in *; try exact K1.
    assert (Hr1 : video_getter_cv2.do_reconnect (cfg s1) = true)
      by congruence.
    specialize (IH s1 Hr1).
    destruct (video_getter_cv2.get crop s1 rest) as [[s2 eff2] st].
    cbn [fst] in *. congruence.
  - intros io. unfold video_getter_vlc.get.
    assert (Loop : forall t,
               video_getter_cv2.do_reconnect (cfg t) = true ->
               video_getter_cv2.stopped
                 (fst (fst (video_getter_vlc.get_loop crop t io)))
               = video_getter_cv2.stopped t).
    { induction io as [|[c clk] rest IH]; intros t Ht; [reflexivity|].
      cbn [video_getter_vlc.get_loop].
      destruct (proj2 (get_iter_keeps_running t clk Ht) c) as [K1 K2].
      destruct (video_getter_vlc.get_iter crop t c clk) as [[s1 eff] [| |e]];
        cbn [fst] in *; try exact K1.
      assert (Hr1 : video_getter_cv2.do_reconnect (cfg s1) = true)
        by congruence.
      specialize (IH s1 Hr1).
      destruct (video_getter_vlc.get_loop crop s1 rest) as [[s2 eff2] st].
      cbn [fst] in *. congruence. }
    exact (Loop (video_getter_vlc.get_enter s) Hr).
Qed.

(** *** Recovery *)

Lemma cv2_captured_pass (s : VideoStream Frame) (n : Z) (f f' : Frame)
    (clk : Readings) :
  video_getter_cv2.stopped s = false ->
  fps s = Some n -> (0 < n)%Z ->
  (Z.of_nat (py.len (Q s)) <= max_cache (cfg s))%Z ->
  crop_frame crop s f = inr f' ->
  fst (fst (video_getter_cv2.get_iter crop s (CaptureFrame f) clk))
  = set_pauseTime None (set_Q (py.appendleft (Some f') (Q s)) s).
Proof.
  intros Hs Hf Hn Hg Hc.
  unfold video_getter_cv2.get_iter, video_getter_cv2.get_try.
  rewrite Hs, Hc.
  destruct (Z.ltb_spec (max_cache (cfg s)) (Z.of_nat (py.len (Q s))));
    [lia|].
  unfold pacing.
  replace (fps (set_Q (py.appendleft (Some f') (Q s)) s)) with (Some n)
    by (now rewrite <- Hf).
  destruct (Z.eqb_spec n 0); [lia|].
  destruct (Z.ltb_spec n 0); [lia|reflexivity].
Qed.

(** X7: a capture that succeeds cancels the countdown.  Whatever failures
    came before it, the failure after it starts a new countdown at its own
    moment, and the loop goes on from there as after a first failure. *)
Theorem recovery_restarts_countdown (s : VideoStream Frame) (n : Z)
    (f f' : Frame) (clk clk' : Readings) (c : Capture Frame) :
  video_getter_cv2.stopped s = false ->
  fps s = Some n -> (0 < n)%Z ->
  (Z.of_nat (py.len (Q s)) < max_cache (cfg s))%Z ->
  crop_frame crop s f = inr f' ->
  capture_fails c = true ->
  ~ threshold_reached s (t_pause clk') clk' ->
  pauseTime (fst (fst (video_getter_cv2.get_iter crop s (CaptureFrame f) clk)))
  = None
  /\ exists s2,
       video_getter_cv2.get_iter crop
         (fst (fst (video_getter_cv2.get_iter crop s (CaptureFrame f) clk)))
         c clk'
       = (s2, [], Next)
       /\ pauseTime s2 = Some (t_pause clk')
       /\ py.items (Q s2) = py.items (py.appendleft (Some f') (Q s)).
Proof.
  intros Hs Hf Hn Hg Hc Hfail Hth.
  rewrite (cv2_captured_pass s n f f' clk Hs Hf Hn ltac:(lia) Hc).
  set (s1 := set_pauseTime None (set_Q (py.appendleft (Some f') (Q s)) s)).
  split; [reflexivity|].
  assert (Hg1 : (Z.of_nat (py.len (Q s1)) <= max_cache (cfg s1))%Z).
  { pose proof (len_appendleft (PyFrame Frame) (Some f') (Q s)) as K.
    change (py.len (Q s1)) with (py.len (py.appendleft (Some f') (Q s))).
    change (cfg s1) with (cfg s).
    apply Nat2Z.inj_le in K. rewrite Nat2Z.inj_succ in K.
    eapply Z.le_trans; [exact K|]. lia. }
  rewrite (cv2_failed_pass s1 c clk' Hs Hg1 Hfail).
  destruct (countdown_decides (@video_getter_cv2.stop Frame) s1 clk')
    as [s2 [(H1 & H2 & H3 & H4 & H5) E]]; [intros _; reflexivity|].
  change (failing_since s1 clk') with (t_pause clk') in *.
  change (cfg s1) with (cfg s) in E.
  rewrite (threshold_fails _ _ _ Hth) in E.
  exists s2. split; [exact E|]. split; [exact H5|]. now rewrite H1.
Qed.

(** *** Reconnection and stopping *)

Lemma start_with_result
    (init : VideoStream Frame -> option Probe -> VideoStream Frame)
    (s : VideoStream Frame) (p : option Probe) :
  (forall t, same_run (init t p) t) ->
  Q (fst (start_with init s p)) = Q s
  /\ pauseTime (fst (start_with init s p)) = pauseTime s
  /\ video_getter_cv2.stopped (fst (start_with init s p)) = false
  /\ snd (start_with init s p) = [StartThread TargetGet].
Proof.
  intros Hi. unfold start_with. cbn [fst snd].
  destruct (inited s); [repeat split; reflexivity|].
  destruct (Hi s) as (H1 & _ & H2 & _). cbn. repeat split; assumption.
Qed.

Lemma reopen_none (tries : list bool) :
  reopen tries = None <-> ~ In true tries.
Proof.
  induction tries as [|[|] rest IH]; cbn.
  - split; [intros _ []|reflexivity].
  - split; [discriminate|intros H; exfalso; apply H; now left].
  - rewrite IH. split.
    + intros H [K|K]; [discriminate|contradiction].
    + intros H K. apply H. now right.
Qed.

(** X8: [reconnect] of the continuous worker returns only once some new
    capture handle opens the source; it then leaves the buffer empty and
    the countdown cancelled, marks the worker running, also when it had
    been stopped meanwhile, and starts a new acquisition thread.  While no
    handle opens it does not return.  [reconnect] of the snapshot worker
    always returns, with the same result. *)
Theorem reconnect_restarts (s : VideoStream Frame) (tries : list bool)
    (p1 p2 : option Probe) :
  (forall r,
     video_getter_cv2.reconnect s tries p1 p2 = Some r ->
     py.items (Q (fst r)) = [] /\ pauseTime (fst r) = None
     /\ video_getter_cv2.stopped (fst r) = false
     /\ snd r = [StartThread TargetGet])
  /\ (video_getter_cv2.reconnect s tries p1 p2 = None <-> ~ In true tries)
  /\ (py.items (Q (fst (video_getter_vlc.reconnect s p1 p2))) = []
      /\ pauseTime (fst (video_getter_vlc.reconnect s p1 p2)) = None
      /\ video_getter_cv2.stopped (fst (video_getter_vlc.reconnect s p1 p2))
         = false
      /\ snd (video_getter_vlc.reconnect s p1 p2) = [StartThread TargetGet]).
Proof.
  split; [|split].
  - intros r. unfold video_getter_cv2.reconnect.
    destruct (reopen tries) as [o|]; [|discriminate].
    intros E. injection E as <-. unfold video_getter_cv2.start.
    match goal with
    | |- context [start_with _ ?t p2] =>
        destruct (start_with_result (@video_getter_cv2.init_src Frame) t p2
                    (fun u => cv2_init_src_keeps Frame u p2))
          as (-> & -> & -> & ->)
    end.
    repeat split. cbn [Q set_pauseTime].
    assert (Hr : py.items (Q (set_stream_opened o (reconnect_release s)))
                 = []).
    { unfold reconnect_release.
      exact (cleared_items Frame (set_stream_opened false s)). }
    destruct (inited _); [exact Hr|].
    destruct (cv2_init_src_keeps Frame
                (set_stream_opened o (reconnect_release s)) p1) as (-> & _).
    exact Hr.
  - rewrite <- reopen_none. unfold video_getter_cv2.reconnect.
    destruct (reopen tries); split; intros H; (discriminate || reflexivity).
  - unfold video_getter_vlc.reconnect, video_getter_vlc.start.
    match goal with
    | |- context [start_with _ ?t p2] =>
        destruct (start_with_result (@video_getter_vlc.init_src Frame) t p2
                    (fun u => vlc_init_src_keeps Frame u p2))
          as (-> & -> & -> & ->)
    end.
    repeat split. cbn [Q set_pauseTime].
    pose proof (cleared_items Frame s) as Hr.
    destruct (inited _); [exact Hr|].
    match goal with
    | |- py.items (Q (video_getter_vlc.init_src ?t ?p)) = [] =>
        destruct (vlc_init_src_keeps Frame t p) as (-> & _)
    end.
    exact Hr.
Qed.

Lemma stop_stops (s : VideoStream Frame) :
  video_getter_cv2.stopped (fst (dispatch.stop s)) = true
  /\ video_stream_type (fst (dispatch.stop s)) = video_stream_type s.
Proof.
  unfold dispatch.stop.
  destruct (video_stream_type s) eqn:Et,
    (video_getter_cv2.stopped s) eqn:Es.
  - unfold video_getter_cv2.stop. rewrite Es. auto.
  - destruct (cv2_stop_settles Frame s Es) as (_ & H1 & _ & H2).
    split; congruence.
  - unfold video_getter_vlc.stop. rewrite Es. auto.
  - destruct (vlc_stop_settles Frame s Es) as (_ & H1 & _ & _ & H2).
    split; congruence.
Qed.

(** X9: [stop()] is idempotent, for both kinds of worker: a second call
    changes nothing and does not even sleep; and on a worker just built,
    never started, the first call already does nothing. *)
Theorem stop_twice_is_stop_once (s : VideoStream Frame) :
  dispatch.stop (fst (dispatch.stop s)) = (fst (dispatch.stop s), [])
  /\ (constructed s -> dispatch.stop s = (s, [])).
Proof.
  split.
  - destruct (stop_stops s) as [H1 H2].
    unfold dispatch.stop at 1. rewrite H2.
    unfold video_getter_cv2.stop, video_getter_vlc.stop. rewrite H1.
    destruct (video_stream_type s); reflexivity.
  - intros Hc. destruct (constructed_fresh Frame crop s Hc) as (_ & Hs & _).
    unfold dispatch.stop, video_getter_cv2.stop, video_getter_vlc.stop.
    rewrite Hs. destruct (video_stream_type s); reflexivity.
Qed.

(** *** The vlc instance *)

Lemma init_src_with_instance
    (recorder : Probe -> VideoStream Frame -> py.result (VideoStream Frame))
    (s : VideoStream Frame) (p : option Probe) :
  (forall q t, match recorder q t with
               | inr t' => vlc_instance t' = vlc_instance t
               | inl _ => True
               end) ->
  vlc_instance (init_src_with recorder s p) = vlc_instance s.
Proof.
  intros Hrec. destruct p as [p|]; [|reflexivity].
  unfold init_src_with, init_src_try.
  destruct s as [c ty so pa pr st q i vi f w h o cf vp vin].
  destruct c as [n sty sr thr dr mc rf mf rd rs fc]. cbn.
  destruct mf as [m|]; [destruct (m =? 0)%Z|];
    (destruct fc as [[|l [|t [|r [|b [|x fc]]]]]|]; cbn;
     try reflexivity).
  all: repeat (break_match; cbn; try reflexivity).
  all: match goal with
       | H : _ ?q ?t = inr ?t' |- _ =>
           let K := fresh in
           pose proof (Hrec q t) as K; rewrite H in K; rewrite K
       end.
  all: destruct (negb _); reflexivity.
Qed.

Lemma init_src_instance (s : VideoStream Frame) (p : option Probe) :
  vlc_instance (video_getter_cv2.init_src s p) = vlc_instance s
  /\ vlc_instance (video_getter_vlc.init_src s p) = vlc_instance s.
Proof.
  split; apply init_src_with_instance; intros q t; [|reflexivity].
  unfold init_src_recorder.
  destruct (record_source_video (cfg t) && inited t)%bool; [|reflexivity].
  destruct (fps t), (vid_width t), (vid_height t); try exact I.
  destruct (probe_writer q); [reflexivity|exact I].
Qed.

Lemma start_with_instance (s : VideoStream Frame) (p : option Probe) :
  vlc_instance (fst (video_getter_cv2.start s p)) = vlc_instance s
  /\ vlc_instance (fst (video_getter_vlc.start s p)) = vlc_instance s.
Proof.
  unfold video_getter_cv2.start, video_getter_vlc.start, start_with.
  cbn [fst]. destruct (inited s); [split; reflexivity|].
  destruct (init_src_instance s p) as [H1 H2]. split; cbn; assumption.
Qed.

Lemma class_stop_instance (s : VideoStream Frame) :
  vlc_instance s = Released ->
  vlc_instance (fst (video_getter_cv2.stop s)) = Released
  /\ vlc_instance (fst (video_getter_vlc.stop s)) = Released.
Proof.
  intros H. unfold video_getter_cv2.stop, video_getter_vlc.stop.
  destruct (video_getter_cv2.stopped s); cbn [fst]; [split; exact H|].
  split; repeat (break_match; cbn); solve [exact H | reflexivity].
Qed.

Lemma countdown_instance
    (stop_of : VideoStream Frame -> VideoStream Frame * list Effect)
    (s : VideoStream Frame) (clk : Readings) :
  (forall t, vlc_instance t = Released ->
             vlc_instance (fst (stop_of t)) = Released) ->
  vlc_instance s = Released ->
  vlc_instance (fst (fst (countdown stop_of s clk))) = Released.
Proof.
  intros Hstop H. unfold countdown.
  destruct s as [c ty so pa pr st q i vi f w h o cf vp vin].
  cbn in H. subst vin.
  destruct pa as [pa|]; cbn; [destruct pr as [pr|]; cbn|];
    repeat (break_match; cbn); try reflexivity; apply Hstop; reflexivity.
Qed.

Lemma get_iter_instance (s : VideoStream Frame) (clk : Readings) :
  vlc_instance s = Released ->
  (forall c,
     vlc_instance (fst (fst (video_getter_cv2.get_iter crop s c clk)))
     = Released)
  /\ (forall c,
        vlc_instance (fst (fst (video_getter_vlc.get_iter crop s c clk)))
        = Released).
Proof.
  intros H. split; intros c.
  - unfold video_getter_cv2.get_iter.
    destruct (video_getter_cv2.stopped s); [exact H|].
    assert (Ht : vlc_instance (fst (fst (video_getter_cv2.get_try crop s c)))
                 = Released).
    { unfold video_getter_cv2.get_try.
      repeat (break_match; cbn [fst]); exact H. }
    destruct (video_getter_cv2.get_try crop s c) as [[s1 eff] [[|]|]];
      cbn [fst] in *; try exact Ht.
    pose proof (countdown_instance (@video_getter_cv2.stop Frame) s1 clk
                  (fun t K => proj1 (class_stop_instance t K)) Ht) as K.
    destruct (countdown _ s1 clk) as [[s2 e2] ctl]. exact K.
  - unfold video_getter_vlc.get_iter.
    destruct (video_getter_cv2.stopped s); [exact H|].
    assert (Ht : vlc_instance (fst (fst (video_getter_vlc.get_try crop s c)))
                 = Released).
    { unfold video_getter_vlc.get_try.
      repeat (break_match; cbn [fst]); exact H. }
    destruct (video_getter_vlc.get_try crop s c) as [[s1 eff] [[|]|]];
      cbn [fst] in *; try exact Ht.
    pose proof (countdown_instance (@video_getter_vlc.stop Frame) s1 clk
                  (fun t K => proj2 (class_stop_instance t K)) Ht) as K.
    destruct (countdown _ s1 clk) as [[s2 e2] ctl]. exact K.
Qed.

Lemma act_instance (a : Action Frame) (s : VideoStream Frame) :
  vlc_instance s = Released -> vlc_instance (act crop a s) = Released.
Proof.
  intros H. destruct a as [p| | |p| |c clk| |c clk|tries p1 p2]; cbn [act].
  - unfold dispatch.start. destruct (start_with_instance s p) as [H1 H2].
    destruct (video_stream_type s); congruence.
  - unfold dispatch.stop. destruct (class_stop_instance s H) as [H1 H2].
    destruct (video_stream_type s); assumption.
  - destruct (py.items (Q s)) as [|y l] eqn:E.
    + rewrite (read_empty_result Frame s E). exact H.
    + destruct (exists_last (l := y :: l)) as [l' [x Hx]]; [discriminate|].
      rewrite Hx in E. rewrite (read_oldest Frame s l' x E). exact H.
  - unfold dispatch.init_src. destruct (init_src_instance s p) as [H1 H2].
    destruct (video_stream_type s); congruence.
  - exact H.
  - destruct (video_stream_type s);
      [apply (get_iter_instance s clk H)|exact H].
  - destruct (video_stream_type s); exact H.
  - destruct (video_stream_type s);
      [exact H|apply (get_iter_instance s clk H)].
  - destruct (video_stream_type s).
    + unfold video_getter_cv2.reconnect, reconnect_release.
      destruct (reopen tries) as [o|].
      * cbn [fst].
        match goal with
        | |- vlc_instance (fst (video_getter_cv2.start ?t _)) = _ =>
            rewrite (proj1 (start_with_instance t p2))
        end.
        cbn [vlc_instance set_pauseTime].
        destruct (inited _).
        -- destruct (more _); exact H.
        -- match goal with
           | |- vlc_instance (video_getter_cv2.init_src ?t _) = _ =>
               rewrite (proj1 (init_src_instance t p1))
           end.
           destruct (more _); exact H.
      * destruct (more _); exact H.
    + unfold video_getter_vlc.reconnect.
      match goal with
      | |- vlc_instance (fst (video_getter_vlc.start ?t _)) = _ =>
          rewrite (proj2 (start_with_instance t p2))
      end.
      cbn [vlc_instance set_pauseTime].
      destruct (inited _).
      * destruct (more s); exact H.
      * match goal with
        | |- vlc_instance (video_getter_vlc.init_src ?t _) = _ =>
            rewrite (proj2 (init_src_instance t p1))
        end.
        destruct (more s); exact H.
Qed.

(** X10: [stop()] of the snapshot worker releases its vlc instance, and
    nothing ever makes a new one: whatever is done to the worker
    afterwards, [start()] and [reconnect] included, the instance its loop
    asks for new players stays released. *)
Theorem stopped_snapshot_worker_keeps_no_instance (s : VideoStream Frame)
    (acts : list (Action Frame)) :
  video_stream_type s = vlc ->
  video_getter_cv2.stopped s = false ->
  vlc_instance (run crop acts (act crop (DoStop Frame) s)) = Released.
Proof.
  intros Hty Hs.
  assert (H0 : vlc_instance (act crop (DoStop Frame) s) = Released).
  { cbn [act]. unfold dispatch.stop. rewrite Hty.
    now destruct (vlc_stop_settles Frame s Hs) as (_ & _ & _ & H & _). }
  generalize dependent (act crop (DoStop Frame) s). clear s Hty Hs.
  induction acts as [|a acts IH]; intros s H0; [exact H0|].
  cbn [run fold_left]. apply IH. now apply act_instance.
Qed.
End LoopFacts.

(* ================================================================== *)
(** ** What [init_src] leaves behind *)

Section OpenedSource.
Import video_getter_cv2 props coverage.
Variable Frame : Type.
Variable crop : Z -> Z -> Z -> Z -> Frame -> Frame.

Ltac break_match :=
  match goal with
  | |- context [match ?x with _ => _ end] => destruct x eqn:?
  end.

Ltac untouched := split; [reflexivity|left; reflexivity].

Lemma steady_refl (s : VideoStream Frame) : steady s s.
Proof. untouched. Qed.

Lemma steady_trans (s1 s2 s3 : VideoStream Frame) :
  steady s3 s2 -> steady s2 s1 -> steady s3 s1.
Proof.
  intros [E32 W32] [E21 W21]. split; [congruence|].
  destruct W32 as [W32|W32], W21 as [W21|W21]; rewrite W32, W21.
  - now left.
  - now right.
  - now right.
  - right. now destruct (out_vid s1).
Qed.

Lemma class_stop_steady (s : VideoStream Frame) :
  steady (fst (video_getter_cv2.stop s)) s
  /\ steady (fst (video_getter_vlc.stop s)) s.
Proof.
  unfold video_getter_cv2.stop, video_getter_vlc.stop.
  destruct s as [c ty so pa pr st q i vi f w h o cf vp vin].
  destruct st; cbn; [split; untouched|].
  split.
  - destruct o as [wr|]; cbn; destruct (more _); cbn;
      (split; [reflexivity|]); solve [now left | now right].
  - destruct (more _); untouched.
Qed.

Lemma countdown_steady
    (stop_of : VideoStream Frame -> VideoStream Frame * list Effect)
    (s : VideoStream Frame) (clk : Readings) :
  (forall t, steady (fst (stop_of t)) t) ->
  steady (fst (fst (countdown stop_of s clk))) s.
Proof.
  intros Hstop. unfold countdown.
  destruct s as [c ty so pa pr st q i vi f w h o cf vp vin].
  destruct pa as [pa|]; cbn; [destruct pr as [pr|]; cbn|];
    repeat (break_match; cbn);
    first [ solve [untouched]
          | eapply steady_trans; [apply Hstop|untouched] ].
Qed.

Lemma get_iter_steady (s : VideoStream Frame) (clk : Readings) :
  (forall c, steady (fst (fst (video_getter_cv2.get_iter crop s c clk))) s)
  /\ (forall c,
        steady (fst (fst (video_getter_vlc.get_iter crop s c clk))) s).
Proof.
  split; intros c.
  - unfold video_getter_cv2.get_iter.
    destruct (video_getter_cv2.stopped s); [apply steady_refl|].
    assert (Ht : steady (fst (fst (video_getter_cv2.get_try crop s c))) s).
    { unfold video_getter_cv2.get_try.
      repeat (break_match; cbn [fst]); untouched. }
    destruct (video_getter_cv2.get_try crop s c) as [[s1 eff] [[|]|]];
      cbn [fst] in *.
    + eapply steady_trans; [|exact Ht]. untouched.
    + pose proof (countdown_steady (@video_getter_cv2.stop Frame) s1 clk
                    (fun t => proj1 (class_stop_steady t))) as K.
      destruct (countdown _ s1 clk) as [[s2 e2] ctl].
      eapply steady_trans; [exact K|exact Ht].
    + exact Ht.
  - unfold video_getter_vlc.get_iter.
    destruct (video_getter_cv2.stopped s); [apply steady_refl|].
    assert (Ht : steady (fst (fst (video_getter_vlc.get_try crop s c))) s).
    { unfold video_getter_vlc.get_try.
      repeat (break_match; cbn [fst]); untouched. }
    destruct (video_getter_vlc.get_try crop s c) as [[s1 eff] [[|]|]];
      cbn [fst] in *.
    + eapply steady_trans; [|exact Ht]. untouched.
    + pose proof (countdown_steady (@video_getter_vlc.stop Frame) s1 clk
                    (fun t => proj2 (class_stop_steady t))) as K.
      destruct (countdown _ s1 clk) as [[s2 e2] ctl].
      eapply steady_trans; [exact K|exact Ht].
    + exact Ht.
Qed.

Lemma read_steady (s : VideoStream Frame) :
  steady (act crop (DoRead Frame) s) s.
Proof.
  cbn [act]. destruct (py.items (Q s)) as [|y l] eqn:E.
  - rewrite (read_empty_result Frame s E). cbn [snd]. untouched.
  - destruct (exists_last (l := y :: l)) as [l' [x Hx]]; [discriminate|].
    rewrite Hx in E. rewrite (read_oldest Frame s l' x E). cbn [snd].
    untouched.
Qed.

Lemma release_steady (s : VideoStream Frame) :
  steady (reconnect_release s) s.
Proof. unfold reconnect_release. destruct (more _); untouched. Qed.

Lemma inited_start_steady (s : VideoStream Frame) (p : option Probe) :
  inited s = true ->
  steady (fst (video_getter_cv2.start s p)) s
  /\ steady (fst (video_getter_vlc.start s p)) s.
Proof.
  intros H. unfold video_getter_cv2.start, video_getter_vlc.start, start_with.
  rewrite H. split; untouched.
Qed.

Lemma steady_inited (s' s : VideoStream Frame) :
  steady s' s -> inited s' = inited s.
Proof. intros [E _]. unfold opened_part in E. congruence. Qed.

Lemma steady_type (s' s : VideoStream Frame) :
  steady s' s -> video_stream_type s' = video_stream_type s.
Proof. intros [E _]. unfold opened_part in E. congruence. Qed.

(** Nothing but [init_src] assigns what [init_src] assigns. *)
Lemma act_steady (a : Action Frame) (s : VideoStream Frame) :
  probes a = false ->
  inited s = true \/ calls_start a = false ->
  steady (act crop a s) s.
Proof.
  intros Hp Hi.
  destruct a as [p| | |p| |c clk| |c clk|tries p1 p2]; cbn [act];
    cbn in Hp, Hi; try discriminate.
  - destruct Hi as [Hi|Hi]; [|discriminate]. unfold dispatch.start.
    destruct (inited_start_steady s p Hi).
    destruct (video_stream_type s); assumption.
  - unfold dispatch.stop. destruct (class_stop_steady s).
    destruct (video_stream_type s); assumption.
  - apply read_steady.
  - apply steady_refl.
  - destruct (video_stream_type s);
      [apply (get_iter_steady s clk)|apply steady_refl].
  - destruct (video_stream_type s); [apply steady_refl|]. untouched.
  - destruct (video_stream_type s);
      [apply steady_refl|apply (get_iter_steady s clk)].
  - destruct Hi as [Hi|Hi]; [|discriminate].
    destruct (video_stream_type s).
    + unfold video_getter_cv2.reconnect.
      destruct (reopen tries) as [o|]; [|apply release_steady].
      cbn [fst].
      assert (H3 : steady (set_stream_opened o (reconnect_release s)) s).
      { eapply steady_trans; [|apply release_steady]. untouched. }
      assert (I3 : inited (set_stream_opened o (reconnect_release s)) = true).
      { now rewrite (steady_inited _ _ H3). }
      rewrite I3.
      eapply steady_trans; [|exact H3].
      eapply steady_trans;
        [apply (inited_start_steady _ p2); exact I3|untouched].
    + unfold video_getter_vlc.reconnect.
      match goal with
      | |- steady (fst (video_getter_vlc.start
                          (set_pauseTime None
                             (if inited ?t then _ else _)) _)) _ =>
          assert (H3 : steady t s) by (destruct (more s); untouched);
          assert (I3 : inited t = true)
            by (now rewrite (steady_inited _ _ H3));
          rewrite I3
      end.
      eapply steady_trans; [|exact H3].
      eapply steady_trans;
        [apply (inited_start_steady _ p2); exact I3|untouched].
Qed.

Lemma steady_consistent (s' s : VideoStream Frame) :
  steady s' s -> opened_consistently s -> opened_consistently s'.
Proof.
  intros [E W] (Hc & Hi & Hr).
  unfold opened_part in E. injection E as Ec Et Ei Ev Ef Ew Eh.
  unfold opened_consistently, crop_given_fits, info_in_step,
    recorder_in_step in *.
  rewrite Ec, Et, Ei, Ev, Ef, Ew, Eh.
  split; [exact Hc|]. split.
  - destruct (vidInfo s); [exact Hi|].
    destruct Hi as (? & ? & ? & ? & Ho). repeat split; try assumption.
    destruct W as [W|W]; rewrite W, Ho; reflexivity.
  - destruct W as [W|W]; rewrite W; [exact Hr|].
    destruct (out_vid s) as [w|]; [exact Hr|exact Hr].
Qed.

Lemma init_src_consistent (s : VideoStream Frame) (p : option Probe) :
  opened_consistently s ->
  opened_consistently (dispatch.init_src s p).
Proof.
  intros H. unfold dispatch.init_src.
  destruct p as [p|]; [|destruct (video_stream_type s); exact H].
  destruct H as (Hc & _ & _).
  unfold video_getter_cv2.init_src, video_getter_vlc.init_src,
    init_src_with, init_src_try, init_src_recorder,
    video_getter_vlc.init_src_recorder.
  destruct s as [c ty so pa pr st q i vi f w h o cf vp vin].
  destruct c as [n sty sr thr dr mc rf mf rd rs fc].
  unfold opened_consistently, crop_given_fits, info_in_step,
    recorder_in_step in *. cbn in Hc.
  destruct fc as [[|l [|t [|r [|b [|x fc]]]]]|]; cbn in Hc;
    try discriminate.
  all: destruct ty, rs, i, (probe_writer p); cbn.
  all: (destruct mf as [m|]; [destruct (m =? 0)%Z eqn:?|]); cbn.
  all: try (destruct (py.int_of_float (probe_fps p) =? 0)%Z eqn:?; cbn).
  all: match goal with
       | |- context [negb (?a =? 0)%Z] => destruct (a =? 0)%Z eqn:?
       end; cbn.
  all: repeat match goal with
              | H : (_ =? _)%Z = true |- _ => apply Z.eqb_eq in H
              | H : (_ =? _)%Z = false |- _ => apply Z.eqb_neq in H
              | H : negb _ = true |- _ => apply negb_true_iff in H
              | H : negb _ = false |- _ => apply negb_false_iff in H
              | H : (_ && _)%bool = true |- _ => apply andb_true_iff in H
              | H : (_ && _)%bool = false |- _ => apply andb_false_iff in H
              | H : _ /\ _ |- _ => destruct H
              end.
  all: repeat split; try reflexivity; try assumption; try discriminate;
    try congruence; try lia.
  all: try (intros; subst; cbn in *; congruence).
Qed.

Lemma class_init_consistent (s : VideoStream Frame) (p : option Probe) :
  opened_consistently s ->
  (video_stream_type s = cv2 ->
   opened_consistently (video_getter_cv2.init_src s p))
  /\ (video_stream_type s = vlc ->
      opened_consistently (video_getter_vlc.init_src s p)).
Proof.
  intros H. pose proof (init_src_consistent s p H) as K.
  unfold dispatch.init_src in K.
  split; intros E; rewrite E in K; exact K.
Qed.

Lemma class_start_consistent (s : VideoStream Frame) (p : option Probe) :
  opened_consistently s ->
  (video_stream_type s = cv2 ->
   opened_consistently (fst (video_getter_cv2.start s p)))
  /\ (video_stream_type s = vlc ->
      opened_consistently (fst (video_getter_vlc.start s p))).
Proof.
  intros H. destruct (class_init_consistent s p H) as [H1 H2].
  unfold video_getter_cv2.start, video_getter_vlc.start, start_with.
  cbn [fst].
  split; intros E;
    (eapply steady_consistent; [untouched|]);
    destruct (inited s); auto.
Qed.

Lemma act_consistent (a : Action Frame) (s : VideoStream Frame) :
  opened_consistently s -> opened_consistently (act crop a s).
Proof.
  intros H.
  destruct (probes a) eqn:Hp.
  { destruct a; try discriminate. cbn [act].
    now apply init_src_consistent. }
  destruct (calls_start a) eqn:Hs.
  2:{ eapply steady_consistent; [|exact H].
      apply act_steady; [exact Hp|now right]. }
  destruct a as [p| | |p| |c clk| |c clk|tries p1 p2]; try discriminate;
    cbn [act].
  - unfold dispatch.start.
    destruct (class_start_consistent s p H) as [H1 H2].
    destruct (video_stream_type s); auto.
  - destruct (video_stream_type s) eqn:Et.
    + unfold video_getter_cv2.reconnect.
      destruct (reopen tries) as [o|];
        [|exact (steady_consistent _ _ (release_steady s) H)].
      cbn [fst].
      assert (H3 : steady (set_stream_opened o (reconnect_release s)) s).
      { eapply steady_trans; [|apply release_steady]. untouched. }
      pose proof (steady_consistent _ _ H3 H) as C3.
      pose proof (steady_type _ _ H3) as T3. rewrite Et in T3.
      set (s3 := set_stream_opened o (reconnect_release s)) in *.
      assert (C4 : opened_consistently
                     (if inited s3 then s3
                      else video_getter_cv2.init_src s3 p1)).
      { destruct (inited s3); [exact C3|].
        now apply (class_init_consistent s3 p1 C3). }
      assert (T4 : video_stream_type
                     (if inited s3 then s3
                      else video_getter_cv2.init_src s3 p1) = cv2).
      { destruct (inited s3); [exact T3|].
        destruct (cv2_init_src_keeps Frame s3 p1) as (_ & _ & _ & _ & _ & T).
        congruence. }
      set (s4 := if inited s3 then s3
                 else video_getter_cv2.init_src s3 p1) in *.
      apply class_start_consistent; [|exact T4].
      eapply steady_consistent; [|exact C4]. untouched.
    + unfold video_getter_vlc.reconnect.
      match goal with
      | |- opened_consistently
             (fst (video_getter_vlc.start
                     (set_pauseTime None
                        (if inited ?t then _ else _)) _)) =>
          assert (H3 : steady t s) by (destruct (more s); untouched);
          set (s3 := t) in *
      end.
      pose proof (steady_consistent _ _ H3 H) as C3.
      pose proof (steady_type _ _ H3) as T3. rewrite Et in T3.
      assert (C4 : opened_consistently
                     (if inited s3 then s3
                      else video_getter_vlc.init_src s3 p1)).
      { destruct (inited s3); [exact C3|].
        now apply (class_init_consistent s3 p1 C3). }
      assert (T4 : video_stream_type
                     (if inited s3 then s3
                      else video_getter_vlc.init_src s3 p1) = vlc).
      { destruct (inited s3); [exact T3|].
        destruct (vlc_init_src_keeps Frame s3 p1) as (_ & _ & _ & _ & _ & T).
        congruence. }
      set (s4 := if inited s3 then s3
                 else video_getter_vlc.init_src s3 p1) in *.
      apply class_start_consistent; [|exact T4].
      eapply steady_consistent; [|exact C4]. untouched.
Qed.

Lemma constructed_consistent (s : VideoStream Frame) :
  constructed s -> opened_consistently s.
Proof.
  assert (H : forall name type source manual kw opened
                    (t : VideoStream Frame),
             video_getter_cv2.__init__ name type source manual kw opened
             = inr t ->
             crop_given_fits t /\ vidInfo t = None /\ inited t = false
             /\ fps t = None /\ vid_width t = None /\ vid_height t = None
             /\ out_vid t = None).
  { intros name type source manual kw opened t.
    unfold video_getter_cv2.__init__, py.deque_new, crop_given_fits.
    destruct (kw_queue_size kw) as [z|]; [destruct (z <? 0)%Z|];
      cbn; try discriminate;
      (destruct (kw_frame_crop kw) as [c|];
       [destruct (Nat.eqb_spec (List.length c) 4)|]; cbn;
       try discriminate;
       intros E; injection E as <-; cbn; repeat split; solve [auto]). }
  intros [name [type [source [manual [kw [opened [E|E]]]]]]].
  - apply H in E. destruct E as (Hc & Hv & Hi & Hf & Hw & Hh & Ho).
    unfold opened_consistently, info_in_step, recorder_in_step.
    rewrite Hv, Ho. repeat split; auto.
  - unfold video_getter_vlc.__init__ in E.
    destruct (video_getter_cv2.__init__ _ _ _ _ _ _) as [e|t] eqn:E0;
      [discriminate|].
    apply H in E0. destruct E0 as (Hc & Hv & Hi & Hf & Hw & Hh & Ho).
    cbn in E. injection E as <-.
    unfold opened_consistently, crop_given_fits, info_in_step,
      recorder_in_step. cbn.
    rewrite Hv, Ho. repeat split; auto.
Qed.

Lemma reachable_consistent (s : VideoStream Frame) :
  reachable crop s -> opened_consistently s.
Proof.
  intros [s0 [acts [Hc ->]]]. apply constructed_consistent in Hc.
  revert s0 Hc. induction acts as [|a acts IH]; intros s0 Hc; [exact Hc|].
  cbn [run fold_left]. apply IH. now apply act_consistent.
Qed.

(** X11: on every worker the program can hold, [vidInfo] agrees with the
    attributes it was filled from: frame rate, width, height and name are
    the worker's own, an info that says inited belongs to an inited
    worker, and a worker whose info is still the empty dict has never been
    opened.  The frame rate of such a worker is never zero, so
    [1 / self.fps] never divides by zero in either loop. *)
Theorem info_follows_attributes (s : VideoStream Frame) :
  reachable crop s ->
  (forall i, vidInfo s = Some i ->
     fps s = Some (info_fps i)
     /\ vid_width s = Some (info_width i)
     /\ vid_height s = Some (info_height i)
     /\ info_video_feed_name i = video_getter_cv2.video_feed_name (cfg s)
     /\ (info_inited i = true -> inited s = true))
  /\ (vidInfo s = None -> inited s = false /\ fps s = None)
  /\ pacing s <> inl py.ZeroDivisionError.
Proof.
  intros Hr. destruct (reachable_consistent s Hr) as (_ & Hi & _).
  unfold info_in_step in Hi. split; [|split].
  - intros i E. rewrite E in Hi. tauto.
  - intros E. rewrite E in Hi. tauto.
  - unfold pacing. destruct (vidInfo s) as [i|].
    + destruct Hi as (-> & _ & _ & _ & _ & _ & Hz).
      destruct (Z.eqb_spec (info_fps i) 0); [contradiction|].
      destruct (info_fps i <? 0)%Z; discriminate.
    + destruct Hi as (_ & -> & _). discriminate.
Qed.



Lemma run_steady (acts : list (Action Frame)) :
  forall s,
    inited s = true ->
    Forall (fun a => probes a = false) acts ->
    steady (run crop acts s) s.
Proof.
  induction acts as [|a acts IH]; intros s Hi Hp; [apply steady_refl|].
  inversion Hp as [|x xs Ha Hrest]; subst. cbn [run fold_left].
  pose proof (act_steady a s Ha (or_introl Hi)) as H1.
  eapply steady_trans; [|exact H1].
  apply IH; [|exact Hrest]. now rewrite (steady_inited _ _ H1).
Qed.

(** X13: once a worker is inited its source is not asked again:
    [start()], [stop()], [read()], [reconnect] and the passes of either
    loop leave the frame rate, the size, [vidInfo] and the inited mark as
    the one successful [init_src] set them.  Only a direct call of
    [init_src] assigns them anew. *)
Theorem inited_worker_not_probed_again (s : VideoStream Frame)
    (acts : list (Action Frame)) :
  inited s = true ->
  Forall (fun a => probes a = false) acts ->
  inited (run crop acts s) = true
  /\ fps (run crop acts s) = fps s
  /\ vid_width (run crop acts s) = vid_width s
  /\ vid_height (run crop acts s) = vid_height s
  /\ vidInfo (run crop acts s) = vidInfo s.
Proof.
  intros Hi Hp. destruct (run_steady acts s Hi Hp) as [E _].
  unfold opened_part in E. injection E as _ _ Ei Ev Ef Ew Eh.
  repeat split; congruence.
Qed.

(** X14: [stop()] of a running cv2 worker releases the writer it has, and
    nothing short of a direct [init_src] makes another: an inited worker
    restarted by [start()] or [reconnect] goes on with the released
    writer, and one that had no writer goes on without; recording does
    not resume after the first [stop()]. *)
Theorem recording_ends_at_stop (s : VideoStream Frame)
    (acts : list (Action Frame)) :
  video_stream_type s = cv2 ->
  inited s = true ->
  video_getter_cv2.stopped s = false ->
  Forall (fun a => probes a = false) acts ->
  out_vid (run crop acts (act crop (DoStop Frame) s))
  = option_map released_writer (out_vid s).
Proof.
  intros Et Ei Es Hp.
  assert (H0 : out_vid (act crop (DoStop Frame) s)
               = option_map released_writer (out_vid s)
               /\ inited (act crop (DoStop Frame) s) = true).
  { cbn [act]. unfold dispatch.stop. rewrite Et.
    unfold video_getter_cv2.stop. rewrite Es. cbn [fst].
    destruct s as [c ty so pa pr st q i vi f wd h o cf vp vin].
    cbn in *. subst. destruct o as [w|]; destruct (more _); cbn;
      split; reflexivity. }
  destruct H0 as [H0 I0].
  destruct (run_steady acts _ I0 Hp) as [_ [W|W]]; rewrite H0 in W;
    [exact W|].
  rewrite W. now destruct (out_vid s).
Qed.

(** X15: with a crop rectangle the size [init_src] settles on, and with
    it the inited mark, is the rectangle's and owes nothing to the
    source: a rectangle of non-zero width marks the worker inited at its
    first [init_src], also when the source could not be opened.  Without
    a rectangle the worker is marked when the source reports a width
    other than zero.  A mark once set is not taken back. *)
Theorem size_decides_inited (s : VideoStream Frame) (p : Probe) (w h : Z) :
  opened_size s p = Some (w, h) ->
  vid_width (dispatch.init_src s (Some p)) = Some w
  /\ vid_height (dispatch.init_src s (Some p)) = Some h
  /\ inited (dispatch.init_src s (Some p))
     = (inited s || negb (w =? 0)%Z)%bool
  /\ (forall l t r b,
        frame_crop (cfg s) = Some [l; t; r; b] ->
        (w, h) = (r - l, b - t)%Z
        /\ forall p',
             inited (dispatch.init_src s (Some p'))
             = inited (dispatch.init_src s (Some p))).
Proof.
  intros Hs.
  assert (H : forall q w' h',
             opened_size s q = Some (w', h') ->
             vid_width (dispatch.init_src s (Some q)) = Some w'
             /\ vid_height (dispatch.init_src s (Some q)) = Some h'
             /\ inited (dispatch.init_src s (Some q))
                = (inited s || negb (w' =? 0)%Z)%bool).
  { clear. intros p w h Hs.
    unfold dispatch.init_src, video_getter_cv2.init_src,
      video_getter_vlc.init_src, init_src_with, init_src_try,
      init_src_recorder, video_getter_vlc.init_src_recorder.
    unfold opened_size in Hs.
    destruct s as [c ty so pa pr st q i vi f wd ht o cf vp vin].
    destruct c as [n sty sr thr dr mc rf mf rd rs fc].
    cbn in Hs.
    destruct fc as [[|l [|t [|r [|b [|x fc]]]]]|]; try discriminate;
      injection Hs as <- <-.
    all: destruct ty, rs, i, (probe_writer p); cbn.
    all: (destruct mf as [m|]; [destruct (m =? 0)%Z|]); cbn.
    all: match goal with
         | |- context [negb (?a =? 0)%Z] => destruct (a =? 0)%Z
         end; cbn.
    all: repeat split; reflexivity. }
  destruct (H p w h Hs) as (H1 & H2 & H3).
  split; [exact H1|]. split; [exact H2|]. split; [exact H3|].
  intros l t r b Ec. unfold opened_size in Hs. rewrite Ec in Hs.
  injection Hs as <- <-. split; [reflexivity|].
  intros p'.
  destruct (H p' (r - l)%Z (b - t)%Z) as (_ & _ & ->);
    [unfold opened_size; now rewrite Ec|].
  now rewrite H3.
Qed.
End OpenedSource.

(* ================================================================== *)
(** ** Further properties on concrete workers *)

Lemma cam_failing_reachable :
  props.reachable samples.crop coverage.cam_failing.
Proof.
  exists samples.cam_cv2, coverage.one_failure.
  split; [|reflexivity].
  exists "cam1", "rtsp", (video_getter_cv2.Address "rtsp://h/s"), (-1)%Z,
    (video_getter_cv2.defaults nat), true.
  left. reflexivity.
Defined.

Lemma cam_final_failing_reachable :
  props.reachable samples.crop coverage.cam_final_failing.
Proof.
  exists samples.cam_cv2_final, coverage.frame_then_failure.
  split; [|reflexivity].
  exists "cam5", "file", (video_getter_cv2.Address "a.mp4"), (-1)%Z,
    samples.without_reconnect, true.
  left. reflexivity.
Defined.

Lemma cam_started_reachable :
  props.reachable samples.crop coverage.cam_started.
Proof.
  exists samples.cam_cv2, [props.DoStart nat (Some samples.probe25)].
  split; [|reflexivity].
  exists "cam1", "rtsp", (video_getter_cv2.Address "rtsp://h/s"), (-1)%Z,
    (video_getter_cv2.defaults nat), true.
  left. reflexivity.
Defined.


Lemma threshold_at_20 :
  props.threshold_reached coverage.cam_failing
    (props.failing_since coverage.cam_failing (samples.at_time 20))
    (samples.at_time 20).
Proof. vm_compute. discriminate. Defined.

Lemma threshold_at_5 :
  props.threshold_reached coverage.cam_final_failing
    (props.failing_since coverage.cam_final_failing (samples.at_time 5))
    (samples.at_time 5).
Proof. vm_compute. discriminate. Defined.

Lemma no_threshold_at_3 :
  ~ props.threshold_reached coverage.cam_failing
      (props.failing_since coverage.cam_failing (samples.at_time 3))
      (samples.at_time 3).
Proof. vm_compute. intros H. apply H. reflexivity. Defined.

(** X2, witness: a reconnecting worker with the threshold of 20 seconds
    whose captures fail at the moments 0 and 20. *)
Lemma threshold_starts_reconnect_witness :
  (props.reachable samples.crop coverage.cam_failing
   /\ video_getter_cv2.stopped coverage.cam_failing = false
   /\ video_getter_cv2.do_reconnect
        (video_getter_cv2.cfg coverage.cam_failing) = true
   /\ props.threshold_reached coverage.cam_failing
        (props.failing_since coverage.cam_failing (samples.at_time 20))
        (samples.at_time 20))
  /\ exists s2,
       video_getter_cv2.get_iter samples.crop coverage.cam_failing
         (video_getter_cv2.CaptureNone nat) (samples.at_time 20)
       = (s2, [video_getter_cv2.StartThread
                 video_getter_cv2.TargetReconnect],
          video_getter_cv2.Exit)
       /\ video_getter_cv2.stopped s2 = false
       /\ video_getter_cv2.Q s2 = video_getter_cv2.Q coverage.cam_failing.
Proof.
  split;
    [split; [exact cam_failing_reachable|];
     split; [reflexivity|]; split; [reflexivity|exact threshold_at_20]|].
  destruct (threshold_starts_reconnect nat samples.crop coverage.cam_failing
              (samples.at_time 20) cam_failing_reachable eq_refl eq_refl
              threshold_at_20) as [H _].
  apply H; [reflexivity|vm_compute; discriminate].
Defined.

(** X3, witness: a worker with a threshold of 5 seconds and reconnection
    disabled that holds frame 7 and whose captures fail at the moments 0
    and 5. *)
Lemma threshold_waits_for_drain_witness :
  (props.reachable samples.crop coverage.cam_final_failing
   /\ video_getter_cv2.stopped coverage.cam_final_failing = false
   /\ video_getter_cv2.do_reconnect
        (video_getter_cv2.cfg coverage.cam_final_failing) = false
   /\ py.items (video_getter_cv2.Q coverage.cam_final_failing) <> []
   /\ props.threshold_reached coverage.cam_final_failing
        (props.failing_since coverage.cam_final_failing (samples.at_time 5))
        (samples.at_time 5))
  /\ exists s2,
       video_getter_cv2.get_iter samples.crop coverage.cam_final_failing
         (video_getter_cv2.CaptureNone nat) (samples.at_time 5)
       = (s2, [video_getter_cv2.Sleep 1], video_getter_cv2.Next)
       /\ video_getter_cv2.stopped s2 = false
       /\ video_getter_cv2.Q s2
          = video_getter_cv2.Q coverage.cam_final_failing.
Proof.
  assert (Hq : py.items (video_getter_cv2.Q coverage.cam_final_failing)
               <> []) by (vm_compute; discriminate).
  split;
    [split; [exact cam_final_failing_reachable|];
     split; [reflexivity|]; split; [reflexivity|];
     split; [exact Hq|exact threshold_at_5]|].
  destruct (threshold_waits_for_drain nat samples.crop
              coverage.cam_final_failing (samples.at_time 5)
              cam_final_failing_reachable eq_refl eq_refl Hq threshold_at_5)
    as [H _].
  apply H; [reflexivity|vm_compute; discriminate].
Defined.

(** X4, witness: the reconnecting worker, its captures failing at the
    moments 0 and 3. *)
Lemma failure_before_threshold_witness :
  (props.reachable samples.crop coverage.cam_failing
   /\ video_getter_cv2.stopped coverage.cam_failing = false
   /\ ~ props.threshold_reached coverage.cam_failing
          (props.failing_since coverage.cam_failing (samples.at_time 3))
          (samples.at_time 3))
  /\ exists s2,
       video_getter_cv2.get_iter samples.crop coverage.cam_failing
         (video_getter_cv2.CaptureNone nat) (samples.at_time 3)
       = (s2, [], video_getter_cv2.Next)
       /\ video_getter_cv2.stopped s2 = false
       /\ video_getter_cv2.Q s2 = video_getter_cv2.Q coverage.cam_failing
       /\ video_getter_cv2.currentFrame s2
          = video_getter_cv2.currentFrame coverage.cam_failing
       /\ video_getter_cv2.pauseTime s2
          = Some (props.failing_since coverage.cam_failing
                    (samples.at_time 3)).
Proof.
  split;
    [split; [exact cam_failing_reachable|];
     split; [reflexivity|exact no_threshold_at_3]|].
  destruct (failure_before_threshold nat samples.crop coverage.cam_failing
              (samples.at_time 3) cam_failing_reachable eq_refl
              no_threshold_at_3) as [H _].
  apply H; [reflexivity|vm_compute; discriminate].
Defined.

(** X6, witness: the started reconnecting worker, its loop run on two
    failing captures, at the moments 0 and 20. *)
Lemma loop_never_stops_reconnecting_worker_witness :
  video_getter_cv2.do_reconnect (video_getter_cv2.cfg coverage.cam_started)
  = true
  /\ video_getter_cv2.stopped
       (fst (fst (video_getter_cv2.get samples.crop coverage.cam_started
                    [(video_getter_cv2.CaptureNone nat, samples.at_time 0);
                     (video_getter_cv2.CaptureNone nat,
                      samples.at_time 20)])))
     = video_getter_cv2.stopped coverage.cam_started.
Proof.
  split; [reflexivity|].
  destruct (loop_never_stops_reconnecting_worker nat samples.crop
              coverage.cam_started eq_refl) as [H _].
  apply H.
Defined.

(** X7, witness: the started worker captures frame 7 at the moment 0 and
    fails at the moment 3. *)
Lemma recovery_restarts_countdown_witness :
  (video_getter_cv2.stopped coverage.cam_started = false
   /\ video_getter_cv2.fps coverage.cam_started = Some 25%Z
   /\ (0 < 25)%Z
   /\ (Z.of_nat (py.len (video_getter_cv2.Q coverage.cam_started))
       < video_getter_cv2.max_cache
           (video_getter_cv2.cfg coverage.cam_started))%Z
   /\ video_getter_cv2.crop_frame samples.crop coverage.cam_started 7%nat
      = inr 7%nat
   /\ props.capture_fails (video_getter_cv2.CaptureNone nat) = true
   /\ ~ props.threshold_reached coverage.cam_started
          (video_getter_cv2.t_pause (samples.at_time 3))
          (samples.at_time 3))
  /\ video_getter_cv2.pauseTime
       (fst (fst (video_getter_cv2.get_iter samples.crop
                    coverage.cam_started
                    (video_getter_cv2.CaptureFrame 7%nat)
                    (samples.at_time 0))))
     = None.
Proof.
  assert (Hn : ~ props.threshold_reached coverage.cam_started
                 (video_getter_cv2.t_pause (samples.at_time 3))
                 (samples.at_time 3))
    by (vm_compute; intros H; apply H; reflexivity).
  assert (Hc : (Z.of_nat (py.len (video_getter_cv2.Q coverage.cam_started))
                < video_getter_cv2.max_cache
                    (video_getter_cv2.cfg coverage.cam_started))%Z)
    by (vm_compute; reflexivity).
  split;
    [split; [reflexivity|]; split; [reflexivity|]; split; [lia|];
     split; [exact Hc|]; split; [reflexivity|];
     split; [reflexivity|exact Hn]|].
  destruct (recovery_restarts_countdown nat samples.crop
              coverage.cam_started 25%Z 7%nat 7%nat (samples.at_time 0)
              (samples.at_time 3) (video_getter_cv2.CaptureNone nat)
              eq_refl eq_refl ltac:(lia) Hc eq_refl eq_refl Hn) as [H _].
  exact H.
Defined.

(** X10, witness: a started snapshot worker, stopped and started again. *)
Lemma stopped_snapshot_worker_keeps_no_instance_witness :
  (video_getter_cv2.video_stream_type coverage.cam_vlc_started
   = video_getter_cv2.vlc
   /\ video_getter_cv2.stopped coverage.cam_vlc_started = false)
  /\ video_getter_cv2.vlc_instance
       (props.run samples.crop [props.DoStart nat (Some samples.probe25)]
          (props.act samples.crop (props.DoStop nat)
             coverage.cam_vlc_started))
     = video_getter_cv2.Released.
Proof.
  split; [split; reflexivity|].
  apply (stopped_snapshot_worker_keeps_no_instance nat samples.crop
           coverage.cam_vlc_started
           [props.DoStart nat (Some samples.probe25)]); reflexivity.
Defined.

(** X11, witness: the started worker, opened at 640 x 480 and 25 frames a
    second. *)
Lemma info_follows_attributes_witness :
  props.reachable samples.crop coverage.cam_started
  /\ video_getter_cv2.pacing coverage.cam_started
     <> inl py.ZeroDivisionError.
Proof.
  split; [exact cam_started_reachable|].
  destruct (info_follows_attributes nat samples.crop coverage.cam_started
              cam_started_reachable) as (_ & _ & H).
  exact H.
Defined.


(** A recording worker whose [cv2.VideoWriter] raised is inited and has no
    writer. *)
Example recorder_may_fail :
  props.reachable samples.crop coverage.cam_recording_unwritten
  /\ video_getter_cv2.inited coverage.cam_recording_unwritten = true
  /\ video_getter_cv2.out_vid coverage.cam_recording_unwritten = None.
Proof.
  split; [|split; reflexivity].
  exists coverage.cam_recording,
    [props.DoStart nat (Some coverage.probe_no_writer)].
  split; [|reflexivity].
  exists "cam7", "rtsp", (video_getter_cv2.Address "rtsp://h/s"), (-1)%Z,
    coverage.recording, true.
  left. reflexivity.
Qed.

(** X13, witness: the started worker, stopped and reconnected to a source
    that now reports nothing. *)
Lemma inited_worker_not_probed_again_witness :
  (video_getter_cv2.inited coverage.cam_started = true
   /\ Forall (fun a => coverage.probes a = false)
        [props.DoStop nat;
         props.DoReconnect nat [true] (Some coverage.probe_closed)
           (Some coverage.probe_closed)])
  /\ video_getter_cv2.fps
       (props.run samples.crop
          [props.DoStop nat;
           props.DoReconnect nat [true] (Some coverage.probe_closed)
             (Some coverage.probe_closed)]
          coverage.cam_started)
     = video_getter_cv2.fps coverage.cam_started.
Proof.
  assert (Hp : Forall (fun a => coverage.probes a = false)
                 [props.DoStop nat;
                  props.DoReconnect nat [true] (Some coverage.probe_closed)
                    (Some coverage.probe_closed)]).
  { apply Forall_cons; [reflexivity|].
    apply Forall_cons; [reflexivity|apply Forall_nil]. }
  split; [split; [reflexivity|exact Hp]|].
  destruct (inited_worker_not_probed_again nat samples.crop
              coverage.cam_started _ eq_refl Hp) as (_ & H & _).
  exact H.
Defined.

(** X14, witness: the started recording worker, stopped and started
    again, still has the writer [stop()] released. *)
Lemma recording_ends_at_stop_witness :
  (video_getter_cv2.video_stream_type coverage.cam_recording_started
   = video_getter_cv2.cv2
   /\ video_getter_cv2.inited coverage.cam_recording_started = true
   /\ video_getter_cv2.stopped coverage.cam_recording_started = false
   /\ Forall (fun a => coverage.probes a = false)
        [props.DoStart nat (Some samples.probe25)])
  /\ video_getter_cv2.out_vid
       (props.run samples.crop [props.DoStart nat (Some samples.probe25)]
          (props.act samples.crop (props.DoStop nat)
             coverage.cam_recording_started))
     = Some (video_getter_cv2.mk_writer 25 (640, 480)%Z true).
Proof.
  assert (Hp : Forall (fun a => coverage.probes a = false)
                 [props.DoStart nat (Some samples.probe25)]).
  { apply Forall_cons; [reflexivity|apply Forall_nil]. }
  split;
    [split; [reflexivity|]; split; [reflexivity|];
     split; [reflexivity|exact Hp]|].
  rewrite (recording_ends_at_stop nat samples.crop
             coverage.cam_recording_started _ eq_refl eq_refl eq_refl Hp).
  reflexivity.
Defined.

(** X15, witness: a worker cropping to 10 x 10 on a source that cannot be
    opened is marked inited all the same. *)
Lemma size_decides_inited_witness :
  coverage.opened_size coverage.cam_cropping coverage.probe_closed
  = Some (10, 10)%Z
  /\ video_getter_cv2.inited
       (dispatch.init_src coverage.cam_cropping (Some coverage.probe_closed))
     = true.
Proof.
  split; [reflexivity|].
  destruct (size_decides_inited nat coverage.cam_cropping
              coverage.probe_closed 10%Z 10%Z eq_refl) as (_ & _ & H & _).
  exact H.
Defined.

(* ================================================================== *)
(** ** Further properties: the aggregator and the descriptor list *)

Section AggregatorFacts.
Import video_getter_cv2 video_manager props coverage.
Variable Frame : Type.
Variable opens : Source -> bool.
Variable probe : Source -> option Probe.
Variable is_file : string -> bool.
Variable float_of_str : string -> py.result Float.

Set Default Proof Using "Type".

Ltac break_if_stop :=
  match goal with
  | |- context [match ?x with _ => _ end] => destruct x
  end.

Lemma read_lines_filter (lines : list string) :
  forall acc,
    read_lines is_file float_of_str acc lines
    = read_lines is_file float_of_str acc
        (filter (fun l => negb (is_comment l)) lines).
Proof.
  induction lines as [|l rest IH]; intros acc; [reflexivity|].
  cbn [read_lines filter]. destruct (is_comment l) eqn:E; cbn [negb].
  - unfold read_line at 1. unfold is_comment in E. rewrite E.
    cbn [py.bind py.ret]. apply IH.
  - cbn [read_lines].
    destruct (read_line is_file float_of_str acc l); cbn [py.bind];
      [reflexivity|apply IH].
Qed.

(** X16: comment lines take no part in the result of [from_list_file]:
    wherever they stand in the file, the call returns, or raises, what it
    does on the file without them. *)
Theorem comments_take_no_part (lines : list string) (kw : Kwargs) :
  from_list_file Frame opens is_file float_of_str lines kw
  = from_list_file Frame opens is_file float_of_str
      (filter (fun l => negb (is_comment l)) lines) kw.
Proof. unfold from_list_file. now rewrite <- read_lines_filter. Qed.

Lemma read_lines_app (l1 l2 : list string) :
  forall acc,
    read_lines is_file float_of_str acc (l1 ++ l2)
    = (a <- read_lines is_file float_of_str acc l1 ;;
       read_lines is_file float_of_str a l2).
Proof.
  induction l1 as [|l rest IH]; intros acc; [reflexivity|].
  cbn [app read_lines].
  destruct (read_line is_file float_of_str acc l); cbn [py.bind];
    [reflexivity|apply IH].
Qed.

Lemma blank_line_raises (acc : Listing) (line : string) :
  py.strip line = EmptyString ->
  read_line is_file float_of_str acc line = inl py.IndexError.
Proof. intros H. unfold read_line. rewrite H. reflexivity. Qed.

(** X17: the first line that does not parse decides the call: after any
    lines that parse, [from_list_file] raises what that line raises,
    whatever follows it and whatever the keyword arguments, and no worker
    is constructed.  A blank line is such a line: it is not skipped but
    ends the call in [IndexError]. *)
Theorem first_bad_line_decides (good rest : list string) (bad : string)
    (acc : Listing) (kw : Kwargs) :
  read_lines is_file float_of_str empty_listing good = inr acc ->
  (forall e,
     read_line is_file float_of_str acc bad = inl e ->
     from_list_file Frame opens is_file float_of_str
       (good ++ bad :: rest) kw = inl e)
  /\ (py.strip bad = EmptyString ->
      from_list_file Frame opens is_file float_of_str
        (good ++ bad :: rest) kw = inl py.IndexError).
Proof.
  intros Hg.
  assert (H : forall e,
             read_line is_file float_of_str acc bad = inl e ->
             from_list_file Frame opens is_file float_of_str
               (good ++ bad :: rest) kw = inl e).
  { intros e He. unfold from_list_file.
    rewrite read_lines_app, Hg. cbn [py.bind read_lines].
    rewrite He. reflexivity. }
  split; [exact H|].
  intros Hb. apply H. now apply blank_line_raises.
Qed.

Lemma read_line_balanced (acc acc' : Listing) (line : string) :
  read_line is_file float_of_str acc line = inr acc' ->
  balanced acc -> balanced acc'.
Proof.
  unfold read_line.
  destruct (py.startswith "#" (py.strip line)).
  - intros E. now injection E as <-.
  - repeat match goal with
           | |- py.bind ?m _ = _ -> _ =>
               destruct m; cbn [py.bind]; [discriminate|]
           end.
    intros E (B1 & B2 & B3). injection E as <-.
    unfold balanced. cbn. rewrite !length_app. cbn. repeat split; lia.
Qed.

Lemma read_lines_balanced (lines : list string) :
  forall acc parsed,
    read_lines is_file float_of_str acc lines = inr parsed ->
    balanced acc -> balanced parsed.
Proof.
  induction lines as [|l rest IH]; intros acc parsed H Hb.
  - cbn in H. now injection H as <-.
  - cbn [read_lines] in H.
    destruct (read_line is_file float_of_str acc l) as [e|acc'] eqn:E;
      [discriminate|].
    cbn [py.bind] in H. apply (IH _ _ H).
    exact (read_line_balanced _ _ _ E Hb).
Qed.

(** A worker as the aggregator's constructor gets it. *)
Lemma worker_built (vlc_method : bool) (name type : string)
    (source : Source) (manual : Z) (kw : Options Frame) (opened : bool)
    (w : VideoStream Frame) :
  (if vlc_method
   then video_getter_vlc.__init__ name type source manual kw opened
   else video_getter_cv2.__init__ name type source manual kw opened)
  = inr w ->
  video_getter_cv2.stopped w = true
  /\ py.items (Q w) = []
  /\ inited w = false
  /\ video_getter_cv2.video_feed_name (cfg w) = name
  /\ src (cfg w) = source
  /\ resize_fn (cfg w) = kw_resize_fn kw
  /\ video_stream_type w = (if vlc_method then vlc else cv2).
Proof.
  assert (H : forall (k : Options Frame) (t : VideoStream Frame),
             video_getter_cv2.__init__ name type source manual k opened
             = inr t ->
             video_getter_cv2.stopped t = true
             /\ py.items (Q t) = []
             /\ inited t = false
             /\ video_getter_cv2.video_feed_name (cfg t) = name
             /\ src (cfg t) = source
             /\ resize_fn (cfg t) = kw_resize_fn k
             /\ video_stream_type t = cv2).
  { intros k t. unfold video_getter_cv2.__init__, py.deque_new.
    destruct (kw_queue_size k) as [z|]; [destruct (z <? 0)%Z|];
      cbn; try discriminate;
      (destruct (kw_frame_crop k) as [c|];
       [destruct (List.length c =? 4)%nat|]; cbn; try discriminate;
       intros E; injection E as <-; cbn; repeat split; reflexivity). }
  destruct vlc_method; [|apply H].
  unfold video_getter_vlc.__init__.
  destruct (video_getter_cv2.__init__ _ _ _ _ _ _) as [e|t] eqn:E;
    [discriminate|].
  apply H in E. destruct E as (E1 & E2 & E3 & E4 & E5 & E6 & E7).
  cbn. intros K. injection K as <-. cbn. repeat split; assumption.
Qed.

(** What the loop of the constructor returns, and what it needs. *)
Lemma make_streams_result (names types : list string)
    (streams : list Source) (manual : list Float) (kw : Kwargs)
    (todo : list string) :
  forall i vs,
    make_streams Frame opens i names types streams manual kw todo = inr vs ->
    map (@video_manager.video_feed_name Frame) vs = todo
    /\ Forall (fun v =>
                 video_getter_cv2.stopped (stream v) = true
                 /\ py.items (Q (stream v)) = []
                 /\ inited (stream v) = false
                 /\ video_getter_cv2.video_feed_name (cfg (stream v))
                    = video_manager.video_feed_name v
                 /\ resize_fn (cfg (stream v)) = None)
         vs
    /\ (todo = [] \/ (i + List.length todo <= List.length manual)%nat).
Proof.
  induction todo as [|name rest IH]; intros i vs H.
  - cbn in H. injection H as <-. repeat split; [constructor|now left].
  - cbn [make_streams] in H.
    destruct (index types i); cbn [py.bind] in H; [discriminate|].
    destruct (index streams i); cbn [py.bind] in H; [discriminate|].
    unfold index at 1 in H.
    destruct (nth_error manual i) as [x|] eqn:Em;
      cbn [py.bind py.ret py.raise] in H; [|discriminate].
    match type of H with
    | py.bind ?init _ = _ => destruct init as [e|w] eqn:E
    end; cbn [py.bind] in H; [discriminate|].
    destruct (make_streams Frame opens (S i) names types streams manual kw
                rest) as [e|ws] eqn:Ews; cbn [py.bind py.ret] in H;
      [discriminate|].
    injection H as <-.
    destruct (IH (S i) ws Ews) as (Hn & Hf & Hl).
    apply worker_built in E. destruct E as (E1 & E2 & E3 & E4 & _ & E6 & _).
    split; [cbn; now rewrite Hn|]. split.
    + constructor; [|exact Hf]. cbn. repeat split; assumption.
    + right. assert (i < List.length manual)%nat
        by (apply nth_error_Some; congruence).
      destruct Hl as [->|Hl]; cbn [List.length]; lia.
Qed.

(** X18: what a constructed aggregator guarantees.  The three lists were
    of one length and the list of frame rates at least as long (the
    assertion does not look at it; entries beyond the names are never
    read); there is one worker for each name, in the order of the names
    and under that name; the aggregator and every worker are stopped, no
    buffer holds a frame, no source has been probed and no worker has a
    resize hook. *)
Theorem constructed_aggregator (names types : list string)
    (streams : list Source) (manual : list Float) (kw : Kwargs)
    (m : VideoManager Frame) :
  video_manager.__init__ Frame opens names types streams manual kw = inr m ->
  List.length types = List.length names
  /\ List.length streams = List.length names
  /\ (List.length names <= List.length manual)%nat
  /\ map (@video_manager.video_feed_name Frame) (videos m) = names
  /\ num_vid_streams m = List.length (videos m)
  /\ video_manager.stopped m = true
  /\ check_all_stopped m = true
  /\ Forall (fun v =>
               py.items (Q (stream v)) = []
               /\ inited (stream v) = false
               /\ video_getter_cv2.video_feed_name (cfg (stream v))
                  = video_manager.video_feed_name v
               /\ resize_fn (cfg (stream v)) = None)
       (videos m).
Proof.
  unfold video_manager.__init__.
  destruct (Nat.eqb_spec (List.length streams) (List.length types)) as [E1|];
    [|discriminate].
  destruct (Nat.eqb_spec (List.length types) (List.length names)) as [E2|];
    [|discriminate].
  cbn [andb].
  destruct (make_streams Frame opens 0 names types streams manual kw names)
    as [e|vs] eqn:E; cbn [py.bind py.ret]; [discriminate|].
  intros H. injection H as <-. cbn [videos num_vid_streams
                                    video_manager.stopped].
  destruct (make_streams_result _ _ _ _ _ _ _ _ E) as (Hn & Hf & Hl).
  split; [exact E2|]. split; [congruence|]. split.
  { destruct Hl as [->|Hl]; cbn in *; lia. }
  split; [exact Hn|]. split.
  { rewrite <- (length_map (@video_manager.video_feed_name Frame) vs), Hn.
    congruence. }
  split; [reflexivity|]. split.
  - unfold check_all_stopped. cbn [videos]. apply forallb_forall.
    intros v Hv. rewrite Forall_forall in Hf. now apply Hf.
  - eapply Forall_impl; [|exact Hf]. cbn. intros v Hv. tauto.
Qed.

(** X19: the four lists [from_list_file] reads off a file that parses are
    of one length, one entry for each line that is not a comment, so the
    length assertion of the constructor holds on them; and whenever
    [from_list_file] returns an aggregator, it has one worker for each
    such line, in the order of the file and under the name the line
    gives. *)
Theorem parsed_list_shape (lines : list string) (parsed : Listing)
    (kw : Kwargs) :
  read_lines is_file float_of_str empty_listing lines = inr parsed ->
  balanced parsed
  /\ List.length (l_video_feed_names parsed)
     = List.length (filter (fun l => negb (is_comment l)) lines)
  /\ (forall m,
        from_list_file Frame opens is_file float_of_str lines kw = inr m ->
        map (@video_manager.video_feed_name Frame) (videos m)
        = l_video_feed_names parsed
        /\ List.length (videos m)
           = List.length (filter (fun l => negb (is_comment l)) lines)
        /\ num_vid_streams m
           = List.length (filter (fun l => negb (is_comment l)) lines)).
Proof.
  intros Hp.
  assert (Hb : balanced parsed).
  { apply (read_lines_balanced lines empty_listing parsed Hp).
    repeat split; reflexivity. }
  pose proof (names_counted is_file float_of_str lines empty_listing parsed
                Hp) as Hn.
  cbn [l_video_feed_names empty_listing List.length Nat.add] in Hn.
  split; [exact Hb|]. split; [exact Hn|].
  intros m Hm. unfold from_list_file in Hm. rewrite Hp in Hm.
  cbn [py.bind] in Hm.
  destruct (constructed_aggregator _ _ _ _ _ _ Hm)
    as (_ & _ & _ & Hnames & Hnum & _).
  split; [exact Hnames|].
  assert (Hl : List.length (videos m)
               = List.length (l_video_feed_names parsed)).
  { rewrite <- Hnames. now rewrite length_map. }
  split; congruence.
Qed.

Lemma start_all_result (vs : list (Video Frame)) :
  map (@video_manager.video_feed_name Frame) (fst (start_all probe vs))
  = map (@video_manager.video_feed_name Frame) vs
  /\ Forall (fun v => video_getter_cv2.stopped (stream v) = false)
       (fst (start_all probe vs))
  /\ snd (start_all probe vs)
     = repeat (StartThread TargetGet) (List.length vs)
  /\ map (fun v => Q (stream v)) (fst (start_all probe vs))
     = map (fun v => Q (stream v)) vs.
Proof.
  induction vs as [|v rest (H1 & H2 & H3 & H4)].
  - repeat split; constructor.
  - cbn [start_all fst snd map List.length repeat stream
         video_manager.video_feed_name].
    destruct (start_starts Frame (stream v)
                (probe (src (cfg (stream v))))) as [Hq Hs].
    split; [now rewrite H1|]. split; [constructor; assumption|].
    split.
    + rewrite H3. unfold dispatch.start.
      destruct (video_stream_type (stream v)); reflexivity.
    + now rewrite Hq, H4.
Qed.

Lemma stop_all_result (vs : list (Video Frame)) :
  map (@video_manager.video_feed_name Frame) (fst (stop_all vs))
  = map (@video_manager.video_feed_name Frame) vs
  /\ Forall (fun v => video_getter_cv2.stopped (stream v) = true)
       (fst (stop_all vs))
  /\ (Forall (fun v => settled (stream v)) vs ->
      Forall (fun v => py.items (Q (stream v)) = []) (fst (stop_all vs))).
Proof.
  induction vs as [|v rest (H1 & H2 & H3)].
  - repeat split; constructor.
  - cbn [stop_all fst snd map stream video_manager.video_feed_name].
    split; [now rewrite H1|]. split.
    + constructor; [|exact H2]. cbn [stream].
      unfold dispatch.stop.
      destruct (video_stream_type (stream v));
        [unfold video_getter_cv2.stop|unfold video_getter_vlc.stop];
        destruct (video_getter_cv2.stopped (stream v)) eqn:E;
        cbn [fst]; try exact E;
        repeat (break_if_stop; cbn); reflexivity.
    + intros Hf. inversion Hf as [|x xs Hv Hrest]; subst.
      constructor; [|now apply H3]. cbn [stream].
      now destruct (stop_settles Frame (stream v) Hv).
Qed.

Lemma none_stopped (vs : list (Video Frame)) :
  Forall (fun v => video_getter_cv2.stopped (stream v) = false) vs ->
  existsb (fun v => video_getter_cv2.stopped (stream v)) vs = false
  /\ Forall (fun v => settled (stream v)) vs.
Proof.
  induction 1 as [|v rest Hv Hrest [IH1 IH2]]; [split; constructor|].
  split.
  - cbn. now rewrite Hv, IH1.
  - constructor; [|exact IH2]. unfold settled. congruence.
Qed.

(** X20: [start()] on a stopped aggregator starts one acquisition thread
    for each worker, in the order of the workers, and leaves none of them
    stopped; [stop()] after it leaves every worker stopped with an empty
    buffer; the names keep their order throughout.  Either call repeated
    does nothing: the aggregator goes by its own flag, not by what its
    workers say. *)
Theorem aggregator_start_stop (m : VideoManager Frame) :
  video_manager.stopped m = true ->
  (video_manager.stopped (fst (video_manager.start probe m)) = false
   /\ check_any_stopped (fst (video_manager.start probe m)) = false
   /\ snd (video_manager.start probe m)
      = repeat (StartThread TargetGet) (List.length (videos m))
   /\ map (fun v => Q (stream v))
        (videos (fst (video_manager.start probe m)))
      = map (fun v => Q (stream v)) (videos m)
   /\ video_manager.start probe (fst (video_manager.start probe m))
      = (fst (video_manager.start probe m), []))
  /\ (video_manager.stopped
        (fst (video_manager.stop (fst (video_manager.start probe m))))
      = true
      /\ check_all_stopped
           (fst (video_manager.stop (fst (video_manager.start probe m))))
         = true
      /\ Forall (fun v => py.items (Q (stream v)) = [])
           (videos
              (fst (video_manager.stop (fst (video_manager.start probe m)))))
      /\ map (@video_manager.video_feed_name Frame)
           (videos
              (fst (video_manager.stop (fst (video_manager.start probe m)))))
         = map (@video_manager.video_feed_name Frame) (videos m)
      /\ video_manager.stop
           (fst (video_manager.stop (fst (video_manager.start probe m))))
         = (fst (video_manager.stop (fst (video_manager.start probe m))),
            [])).
Proof.
  intros Hs.
  assert (E1 : video_manager.start probe m
               = (mk_manager (max_height m) (num_vid_streams m) false
                    (fst (start_all probe (videos m))),
                  snd (start_all probe (videos m)))).
  { unfold video_manager.start. now rewrite Hs. }
  rewrite E1. cbn [fst snd].
  set (m1 := mk_manager (max_height m) (num_vid_streams m) false
               (fst (start_all probe (videos m)))).
  assert (E2 : video_manager.stop m1
               = (mk_manager (max_height m) (num_vid_streams m) true
                    (fst (stop_all (videos m1))),
                  snd (stop_all (videos m1)))) by reflexivity.
  rewrite E2. cbn [fst snd].
  destruct (start_all_result (videos m)) as (S1 & S2 & S3 & S4).
  destruct (none_stopped _ S2) as [N1 N2].
  destruct (stop_all_result (videos m1)) as (T1 & T2 & T3).
  split.
  - split; [reflexivity|]. split; [exact N1|]. split; [exact S3|].
    split; [exact S4|]. reflexivity.
  - split; [reflexivity|]. split.
    { unfold check_all_stopped. cbn [videos]. apply forallb_forall.
      rewrite Forall_forall in T2. exact T2. }
    split; [exact (T3 N2)|]. split; [|reflexivity].
    cbn [videos]. rewrite T1. exact S1.
Qed.

Variable crop : Z -> Z -> Z -> Z -> Frame -> Frame.

Lemma init_src_fills (s : VideoStream Frame) (p : Probe) :
  crop_given_fits s ->
  vidInfo (dispatch.init_src s (Some p)) <> None.
Proof.
  unfold dispatch.init_src, video_getter_cv2.init_src,
    video_getter_vlc.init_src, init_src_with, init_src_try,
    init_src_recorder, video_getter_vlc.init_src_recorder, crop_given_fits.
  destruct s as [c ty so pa pr st q i vi f wd ht o cf vp vin].
  destruct c as [n sty sr thr dr mc rf mf rd rs fc]. cbn.
  intros Hc.
  destruct fc as [[|l [|t [|r [|b [|x fc]]]]]|]; cbn in Hc;
    try discriminate.
  all: destruct ty, rs, i, (probe_writer p); cbn.
  all: (destruct mf as [m|]; [destruct (m =? 0)%Z|]); cbn.
  all: match goal with
       | |- context [negb (?a =? 0)%Z] => destruct (a =? 0)%Z
       end; cbn.
  all: discriminate.
Qed.

(** X21: [get_all_videos_information] neither starts nor stops a worker
    and touches no buffer or timer; it returns one info for each worker,
    in their order, the one the worker then holds.  On workers the
    program can hold, an info is still the empty dict only where the
    source has never been opened and opening it raised, and no info
    carries a frame rate of zero. *)
Theorem information_leaves_workers_running (vs : list (Video Frame)) :
  Forall (fun v => reachable crop (stream v)) vs ->
  map (@video_manager.video_feed_name Frame)
    (fst (get_all_videos_information probe vs))
  = map (@video_manager.video_feed_name Frame) vs
  /\ snd (get_all_videos_information probe vs)
     = map (fun v => vidInfo (stream v))
         (fst (get_all_videos_information probe vs))
  /\ Forall2 (fun v' v => same_run (stream v') (stream v))
       (fst (get_all_videos_information probe vs)) vs
  /\ Forall2 (fun info v =>
                info = None ->
                vidInfo (stream v) = None
                /\ probe (src (cfg (stream v))) = None)
       (snd (get_all_videos_information probe vs)) vs
  /\ Forall (fun info => forall i, info = Some i -> info_fps i <> 0%Z)
       (snd (get_all_videos_information probe vs)).
Proof.
  induction 1 as [|v rest Hv Hrest (H1 & H2 & H3 & H4 & H5)].
  - repeat split; constructor.
  - cbn [get_all_videos_information fst snd map stream
         video_manager.video_feed_name].
    pose proof (reachable_consistent Frame crop _ Hv) as Hc.
    set (s := if inited (stream v) then stream v
              else dispatch.init_src (stream v)
                     (probe (src (cfg (stream v))))) in *.
    assert (Cs : opened_consistently s).
    { subst s. destruct (inited (stream v)); [exact Hc|].
      now apply init_src_consistent. }
    split; [now rewrite H1|]. split; [now rewrite H2|]. split.
    { constructor; [|exact H3]. cbn [stream]. subst s.
      destruct (inited (stream v)).
      - repeat split; reflexivity.
      - apply init_src_keeps. }
    split.
    { constructor; [|exact H4]. intros E. subst s.
      destruct (inited (stream v)) eqn:Ei.
      - destruct Hc as (_ & Hi & _). unfold info_in_step in Hi.
        rewrite E in Hi. destruct Hi as (Hi & _). congruence.
      - destruct (probe (src (cfg (stream v)))) as [p|].
        + exfalso. revert E. apply init_src_fills. apply Hc.
        + split; [|reflexivity]. unfold dispatch.init_src in E.
          destruct (video_stream_type (stream v)); exact E. }
    constructor; [|exact H5]. intros i E.
    destruct Cs as (_ & Hi & _). unfold info_in_step in Hi.
    rewrite E in Hi. tauto.
Qed.
End AggregatorFacts.

(** X17, witness: a blank line after a usb camera. *)
Lemma first_bad_line_decides_witness :
  video_manager.read_lines (fun _ => true) (fun _ => inr (inject_Z 25))
    video_manager.empty_listing ["webcam1,usb:0"]
  = inr coverage.webcam_listing
  /\ video_manager.from_list_file nat (fun _ => true) (fun _ => true)
       (fun _ => inr (inject_Z 25))
       (["webcam1,usb:0"] ++ " " :: ["b,file:b.mp4,25"])
       video_manager.no_kwargs
     = inl py.IndexError.
Proof.
  split; [reflexivity|].
  destruct (first_bad_line_decides nat (fun _ => true) (fun _ => true)
              (fun _ => inr (inject_Z 25)) ["webcam1,usb:0"]
              ["b,file:b.mp4,25"] " " coverage.webcam_listing
              video_manager.no_kwargs eq_refl) as [_ H].
  apply H. reflexivity.
Defined.

(** X18, witness: the aggregator of a usb camera and a file. *)
Lemma constructed_aggregator_witness :
  video_manager.__init__ nat (fun _ => true) ["webcam1"; "b"]
    ["usb"; "file"]
    [video_getter_cv2.DeviceIndex 0; video_getter_cv2.Address "b.mp4"]
    [inject_Z (-1); inject_Z 25] video_manager.no_kwargs
  = inr coverage.two_cameras
  /\ map (@video_manager.video_feed_name nat)
       (video_manager.videos coverage.two_cameras)
     = ["webcam1"; "b"].
Proof.
  split; [reflexivity|].
  destruct (constructed_aggregator nat (fun _ => true) ["webcam1"; "b"]
              ["usb"; "file"]
              [video_getter_cv2.DeviceIndex 0;
               video_getter_cv2.Address "b.mp4"]
              [inject_Z (-1); inject_Z 25] video_manager.no_kwargs
              coverage.two_cameras eq_refl) as (_ & _ & _ & H & _).
  exact H.
Defined.

(** X19, witness: a list of a comment, a usb camera and a file. *)
Lemma parsed_list_shape_witness :
  video_manager.read_lines (fun _ => true) (fun _ => inr (inject_Z 25))
    video_manager.empty_listing
    ["# cams"; "webcam1,usb:0"; "b,file:b.mp4,25"]
  = inr coverage.two_cameras_listing
  /\ props.balanced coverage.two_cameras_listing.
Proof.
  split; [reflexivity|].
  destruct (parsed_list_shape nat (fun _ => true) (fun _ => true)
              (fun _ => inr (inject_Z 25))
              ["# cams"; "webcam1,usb:0"; "b,file:b.mp4,25"]
              coverage.two_cameras_listing video_manager.no_kwargs
              eq_refl) as (H & _).
  exact H.
Defined.

(** X20, witness: the aggregator of a usb camera and a file, started. *)
Lemma aggregator_start_stop_witness :
  video_manager.stopped coverage.two_cameras = true
  /\ video_manager.check_any_stopped
       (fst (video_manager.start coverage.opens_at_25 coverage.two_cameras))
     = false.
Proof.
  split; [reflexivity|].
  destruct (aggregator_start_stop nat coverage.opens_at_25
              coverage.two_cameras eq_refl) as [(_ & H & _) _].
  exact H.
Defined.

Lemma two_cameras_reachable :
  Forall (fun v => props.reachable samples.crop (video_manager.stream v))
    (video_manager.videos coverage.two_cameras).
Proof.
  apply Forall_cons; [|apply Forall_cons; [|apply Forall_nil]].
  - eexists _, []. split; [|reflexivity].
    exists "webcam1", "usb", (video_getter_cv2.DeviceIndex 0), (-1)%Z,
      (video_getter_cv2.defaults nat), true.
    left. reflexivity.
  - eexists _, []. split; [|reflexivity].
    exists "b", "file", (video_getter_cv2.Address "b.mp4"), 25%Z,
      (video_getter_cv2.defaults nat), true.
    left. reflexivity.
Defined.

(** X21, witness: the information of that aggregator, asked before any
    start. *)
Lemma information_leaves_workers_running_witness :
  Forall (fun v => props.reachable samples.crop (video_manager.stream v))
    (video_manager.videos coverage.two_cameras)
  /\ map (@video_manager.video_feed_name nat)
       (fst (video_manager.get_all_videos_information coverage.opens_at_25
               (video_manager.videos coverage.two_cameras)))
     = map (@video_manager.video_feed_name nat)
         (video_manager.videos coverage.two_cameras).
Proof.
  split; [exact two_cameras_reachable|].
  destruct (information_leaves_workers_running nat coverage.opens_at_25
              samples.crop (video_manager.videos coverage.two_cameras)
              two_cameras_reachable) as (H & _).
  exact H.
Defined.

(** X5, witness: a worker with [max_cache] 1 that holds two frames. *)
Lemma producer_pause_bounds_witness :
  (video_getter_cv2.stopped coverage.cam_pausing = false
   /\ (video_getter_cv2.max_cache (video_getter_cv2.cfg coverage.cam_pausing)
       < Z.of_nat (py.len (video_getter_cv2.Q coverage.cam_pausing)))%Z)
  /\ video_getter_cv2.get_iter samples.crop coverage.cam_pausing
       (video_getter_cv2.CaptureFrame 3%nat) (samples.at_time 1)
     = (coverage.cam_pausing, [video_getter_cv2.Sleep (1 # 100)],
        video_getter_cv2.Next).
Proof.
  assert (Hg : (video_getter_cv2.max_cache
                  (video_getter_cv2.cfg coverage.cam_pausing)
                < Z.of_nat (py.len (video_getter_cv2.Q coverage.cam_pausing)))%Z)
    by (vm_compute; reflexivity).
  split; [split; [reflexivity|exact Hg]|].
  destruct (producer_pause_bounds nat samples.crop coverage.cam_pausing)
    as [H _].
  apply H; [reflexivity|exact Hg].
Defined.

(** X8, witness: a reconnect whose two new capture handles both fail to
    open is still waiting. *)
Lemma reconnect_restarts_witness :
  ~ In true [false; false]
  /\ video_getter_cv2.reconnect coverage.cam_failing [false; false]
       (Some samples.probe25) (Some samples.probe25)
     = None.
Proof.
  assert (Hn : ~ In true [false; false]).
  { intros [H|[H|[]]]; discriminate H. }
  split; [exact Hn|].
  destruct (reconnect_restarts nat coverage.cam_failing [false; false]
              (Some samples.probe25) (Some samples.probe25)) as (_ & H & _).
  apply H. exact Hn.
Defined.

Lemma cam_cv2_is_constructed : props.constructed samples.cam_cv2.
Proof.
  exists "cam1", "rtsp", (video_getter_cv2.Address "rtsp://h/s"), (-1)%Z,
    (video_getter_cv2.defaults nat), true.
  left. reflexivity.
Defined.

(** X9, witness: [stop()] on a worker just built. *)
Lemma stop_twice_is_stop_once_witness :
  props.constructed samples.cam_cv2
  /\ dispatch.stop samples.cam_cv2 = (samples.cam_cv2, []).
Proof.
  split; [exact cam_cv2_is_constructed|].
  destruct (stop_twice_is_stop_once nat samples.crop samples.cam_cv2)
    as [_ H].
  apply H. exact cam_cv2_is_constructed.
Defined.
